(** * POLYCORE: game-state simulation and shape rendering

    A shallow embedding of [POLYCORE.py] (class [GameState] and the
    module-level [draw_advanced_shapes] / [extend_draw_shape_method]).

    Conventions of the embedding.
    - Python [int] values (clock readings, the player position and size,
      charges, the shake counter) are [Z].
    - Python [float] values (enemy kinematics, score, rendering geometry)
      are idealised as real numbers [R]: rounding, infinities and NaN of
      binary64 are outside the model.  [math.sqrt], [math.sin], [math.cos]
      and [math.pi] are [sqrt], [sin], [cos] and [PI].
    - [pygame.time.get_ticks()] is an input: every method that reads the
      clock takes the value it read as a parameter.
    - The [random] module is a tape of draws threaded through a small
      state-and-error monad; [ZeroDivisionError] and [IndexError] are the
      monad's failure.
    - Drawing on a surface is the list of primitives handed to
      [pygame.draw], in call order.
    - Audio, fonts, the display and the high-score file are external
      collaborators and are not part of the state. *)

From Stdlib Require Import Reals ZArith List Bool Lia Lra.
Import ListNotations.

Local Open Scope R_scope.

(** ** Python numerics *)

Module Py.

Definition Rltb (a b : R) : bool := if Rlt_dec a b then true else false.
Definition Rleb (a b : R) : bool := if Rle_dec a b then true else false.

(** [int(r)] on a float: truncation toward zero. *)
Definition int (r : R) : Z :=
    if Rle_dec 0 r then Int_part r else (- Int_part (- r))%Z.

(** [a % b] on floats: the result takes the sign of the divisor. *)
Definition fmod (a b : R) : R := a - IZR (Int_part (a / b)) * b.

(** [range(n)] *)
Definition range (n : nat) : list nat := seq 0 n.

(** [range(a, b, step)] for a positive step, unrolled by a counter. *)
Fixpoint range_from (fuel a step : nat) : list nat :=
    match fuel with
    | O => []
    | S k => a :: range_from k (a + step)%nat step
    end.

Definition range3 (a b step : nat) : list nat :=
    range_from ((b - a + (step - 1)) / step)%nat a step.

End Py.

(** ** Constants *)

Definition SCREEN_WIDTH : Z := 1200.
Definition SCREEN_HEIGHT : Z := 800.
Definition FPS : Z := 60.
Definition PLAYER_SIZE : Z := 12.
Definition PLAYER_SPEED : Z := 5.
Definition DASH_SPEED : Z := 100.
Definition DASH_COOLDOWN : Z := 1000.
Definition FOCUS_COOLDOWN : Z := 10000.
Definition PULSE_COOLDOWN : Z := 3000.
Definition SHRINK_DURATION : Z := 2000.
Definition SHRINK_COOLDOWN : Z := 8000.

Definition Color : Type := (Z * Z * Z)%type.

Definition BLACK : Color := (0, 0, 0)%Z.
Definition WHITE : Color := (255, 255, 255)%Z.
Definition RED : Color := (255, 100, 100)%Z.
Definition BLUE : Color := (100, 150, 255)%Z.
Definition GREEN : Color := (100, 255, 150)%Z.
Definition YELLOW : Color := (255, 255, 100)%Z.
Definition PURPLE : Color := (200, 100, 255)%Z.
Definition ORANGE : Color := (255, 150, 100)%Z.
Definition CYAN : Color := (100, 255, 255)%Z.
Definition PINK : Color := (255, 150, 200)%Z.
Definition GRAY : Color := (128, 128, 128)%Z.
Definition DARK_GRAY : Color := (64, 64, 64)%Z.

(** ** Data model *)

Module ShapeType.
Inductive t : Type :=
  | CIRCLE | TRIANGLE | SQUARE | PENTAGON | HEXAGON | OCTAGON | STAR
  | DIAMOND | ELLIPSE | CROSS
  | ARROW | HEART | CRESCENT | SPIRAL | LIGHTNING | BOWTIE | HOURGLASS
  | FLOWER | GEAR | SNOWFLAKE
  | CUBE | PYRAMID | CYLINDER | CONE | SPHERE | TORUS | PRISM
  | DODECAHEDRON | ICOSAHEDRON | TETRAHEDRON
  | TESSERACT | HYPERSPHERE | HYPERPRISM | SIMPLEX_4D.

(** [list(ShapeType)], in declaration order. *)
Definition all : list t :=
    [ CIRCLE; TRIANGLE; SQUARE; PENTAGON; HEXAGON; OCTAGON; STAR;
      DIAMOND; ELLIPSE; CROSS;
      ARROW; HEART; CRESCENT; SPIRAL; LIGHTNING; BOWTIE; HOURGLASS;
      FLOWER; GEAR; SNOWFLAKE;
      CUBE; PYRAMID; CYLINDER; CONE; SPHERE; TORUS; PRISM;
      DODECAHEDRON; ICOSAHEDRON; TETRAHEDRON;
      TESSERACT; HYPERSPHERE; HYPERPRISM; SIMPLEX_4D ].
End ShapeType.

Module Pattern.
Inductive t : Type :=
  | RANDOM | SPIRAL | WAVE | CIRCLE | ZIGZAG | CROSS | BURST | ORBIT.

(** [list(Pattern)], in declaration order. *)
Definition all : list t :=
    [ RANDOM; SPIRAL; WAVE; CIRCLE; ZIGZAG; CROSS; BURST; ORBIT ].
End Pattern.

Module Enemy.
Record t : Type := mk {
    x : R;
    y : R;
    vx : R;
    vy : R;
    shape_type : ShapeType.t;
    size : R;
    color : Color;
    rotation : R;
    rotation_speed : R;
    pulse_phase : R;
    dimension_phase : R
  }.
End Enemy.

(** The particle dictionaries built by [pulse_enemies]. *)
Module Particle.
Record t : Type := mk {
    x : R;
    y : R;
    vx : R;
    vy : R;
    life : Z;
    color : Color
  }.
End Particle.

(** The attributes of [GameState] that the simulation reads and writes. *)
Record GameState : Type := mkGameState {
  running : bool;
  game_active : bool;
  paused : bool;
  player_x : Z;
  player_y : Z;
  player_size : Z;
  is_shrunk : bool;
  last_dash : Z;
  last_focus : Z;
  last_pulse : Z;
  last_shrink : Z;
  focus_active : bool;
  focus_end_time : Z;
  shrink_end_time : Z;
  pulse_uses : Z;
  enemies : list Enemy.t;
  score : R;
  start_time : Z;
  high_score : R;
  difficulty_multiplier : R;
  spawn_timer : Z;
  pattern_timer : Z;
  current_pattern : Pattern.t;
  screen_shake : Z;
  particles : list Particle.t;
  trail_points : list (Z * Z * Z)
}.

Definition set_game_active (v : bool) (s : GameState) : GameState :=
  mkGameState (running s) v (paused s) (player_x s) (player_y s)
    (player_size s) (is_shrunk s) (last_dash s) (last_focus s) (last_pulse s)
    (last_shrink s) (focus_active s) (focus_end_time s) (shrink_end_time s)
    (pulse_uses s) (enemies s) (score s) (start_time s) (high_score s)
    (difficulty_multiplier s) (spawn_timer s) (pattern_timer s)
    (current_pattern s) (screen_shake s) (particles s) (trail_points s).

Definition set_player_x (v : Z) (s : GameState) : GameState :=
  mkGameState (running s) (game_active s) (paused s) v (player_y s)
    (player_size s) (is_shrunk s) (last_dash s) (last_focus s) (last_pulse s)
    (last_shrink s) (focus_active s) (focus_end_time s) (shrink_end_time s)
    (pulse_uses s) (enemies s) (score s) (start_time s) (high_score s)
    (difficulty_multiplier s) (spawn_timer s) (pattern_timer s)
    (current_pattern s) (screen_shake s) (particles s) (trail_points s).

Definition set_player_y (v : Z) (s : GameState) : GameState :=
  mkGameState (running s) (game_active s) (paused s) (player_x s) v
    (player_size s) (is_shrunk s) (last_dash s) (last_focus s) (last_pulse s)
    (last_shrink s) (focus_active s) (focus_end_time s) (shrink_end_time s)
    (pulse_uses s) (enemies s) (score s) (start_time s) (high_score s)
    (difficulty_multiplier s) (spawn_timer s) (pattern_timer s)
    (current_pattern s) (screen_shake s) (particles s) (trail_points s).

Definition set_player_size (v : Z) (s : GameState) : GameState :=
  mkGameState (running s) (game_active s) (paused s) (player_x s) (player_y s)
    v (is_shrunk s) (last_dash s) (last_focus s) (last_pulse s)
    (last_shrink s) (focus_active s) (focus_end_time s) (shrink_end_time s)
    (pulse_uses s) (enemies s) (score s) (start_time s) (high_score s)
    (difficulty_multiplier s) (spawn_timer s) (pattern_timer s)
    (current_pattern s) (screen_shake s) (particles s) (trail_points s).

Definition set_is_shrunk (v : bool) (s : GameState) : GameState :=
  mkGameState (running s) (game_active s) (paused s) (player_x s) (player_y s)
    (player_size s) v (last_dash s) (last_focus s) (last_pulse s)
    (last_shrink s) (focus_active s) (focus_end_time s) (shrink_end_time s)
    (pulse_uses s) (enemies s) (score s) (start_time s) (high_score s)
    (difficulty_multiplier s) (spawn_timer s) (pattern_timer s)
    (current_pattern s) (screen_shake s) (particles s) (trail_points s).

Definition set_last_dash (v : Z) (s : GameState) : GameState :=
  mkGameState (running s) (game_active s) (paused s) (player_x s) (player_y s)
    (player_size s) (is_shrunk s) v (last_focus s) (last_pulse s)
    (last_shrink s) (focus_active s) (focus_end_time s) (shrink_end_time s)
    (pulse_uses s) (enemies s) (score s) (start_time s) (high_score s)
    (difficulty_multiplier s) (spawn_timer s) (pattern_timer s)
    (current_pattern s) (screen_shake s) (particles s) (trail_points s).

Definition set_last_focus (v : Z) (s : GameState) : GameState :=
  mkGameState (running s) (game_active s) (paused s) (player_x s) (player_y s)
    (player_size s) (is_shrunk s) (last_dash s) v (last_pulse s)
    (last_shrink s) (focus_active s) (focus_end_time s) (shrink_end_time s)
    (pulse_uses s) (enemies s) (score s) (start_time s) (high_score s)
    (difficulty_multiplier s) (spawn_timer s) (pattern_timer s)
    (current_pattern s) (screen_shake s) (particles s) (trail_points s).

Definition set_last_pulse (v : Z) (s : GameState) : GameState :=
  mkGameState (running s) (game_active s) (paused s) (player_x s) (player_y s)
    (player_size s) (is_shrunk s) (last_dash s) (last_focus s) v
    (last_shrink s) (focus_active s) (focus_end_time s) (shrink_end_time s)
    (pulse_uses s) (enemies s) (score s) (start_time s) (high_score s)
    (difficulty_multiplier s) (spawn_timer s) (pattern_timer s)
    (current_pattern s) (screen_shake s) (particles s) (trail_points s).

Definition set_last_shrink (v : Z) (s : GameState) : GameState :=
  mkGameState (running s) (game_active s) (paused s) (player_x s) (player_y s)
    (player_size s) (is_shrunk s) (last_dash s) (last_focus s) (last_pulse s)
    v (focus_active s) (focus_end_time s) (shrink_end_time s) (pulse_uses s)
    (enemies s) (score s) (start_time s) (high_score s)
    (difficulty_multiplier s) (spawn_timer s) (pattern_timer s)
    (current_pattern s) (screen_shake s) (particles s) (trail_points s).

Definition set_focus_active (v : bool) (s : GameState) : GameState :=
  mkGameState (running s) (game_active s) (paused s) (player_x s) (player_y s)
    (player_size s) (is_shrunk s) (last_dash s) (last_focus s) (last_pulse s)
    (last_shrink s) v (focus_end_time s) (shrink_end_time s) (pulse_uses s)
    (enemies s) (score s) (start_time s) (high_score s)
    (difficulty_multiplier s) (spawn_timer s) (pattern_timer s)
    (current_pattern s) (screen_shake s) (particles s) (trail_points s).

Definition set_focus_end_time (v : Z) (s : GameState) : GameState :=
  mkGameState (running s) (game_active s) (paused s) (player_x s) (player_y s)
    (player_size s) (is_shrunk s) (last_dash s) (last_focus s) (last_pulse s)
    (last_shrink s) (focus_active s) v (shrink_end_time s) (pulse_uses s)
    (enemies s) (score s) (start_time s) (high_score s)
    (difficulty_multiplier s) (spawn_timer s) (pattern_timer s)
    (current_pattern s) (screen_shake s) (particles s) (trail_points s).

Definition set_shrink_end_time (v : Z) (s : GameState) : GameState :=
  mkGameState (running s) (game_active s) (paused s) (player_x s) (player_y s)
    (player_size s) (is_shrunk s) (last_dash s) (last_focus s) (last_pulse s)
    (last_shrink s) (focus_active s) (focus_end_time s) v (pulse_uses s)
    (enemies s) (score s) (start_time s) (high_score s)
    (difficulty_multiplier s) (spawn_timer s) (pattern_timer s)
    (current_pattern s) (screen_shake s) (particles s) (trail_points s).

Definition set_pulse_uses (v : Z) (s : GameState) : GameState :=
  mkGameState (running s) (game_active s) (paused s) (player_x s) (player_y s)
    (player_size s) (is_shrunk s) (last_dash s) (last_focus s) (last_pulse s)
    (last_shrink s) (focus_active s) (focus_end_time s) (shrink_end_time s) v
    (enemies s) (score s) (start_time s) (high_score s)
    (difficulty_multiplier s) (spawn_timer s) (pattern_timer s)
    (current_pattern s) (screen_shake s) (particles s) (trail_points s).

Definition set_enemies (v : list Enemy.t) (s : GameState) : GameState :=
  mkGameState (running s) (game_active s) (paused s) (player_x s) (player_y s)
    (player_size s) (is_shrunk s) (last_dash s) (last_focus s) (last_pulse s)
    (last_shrink s) (focus_active s) (focus_end_time s) (shrink_end_time s)
    (pulse_uses s) v (score s) (start_time s) (high_score s)
    (difficulty_multiplier s) (spawn_timer s) (pattern_timer s)
    (current_pattern s) (screen_shake s) (particles s) (trail_points s).

Definition set_score (v : R) (s : GameState) : GameState :=
  mkGameState (running s) (game_active s) (paused s) (player_x s) (player_y s)
    (player_size s) (is_shrunk s) (last_dash s) (last_focus s) (last_pulse s)
    (last_shrink s) (focus_active s) (focus_end_time s) (shrink_end_time s)
    (pulse_uses s) (enemies s) v (start_time s) (high_score s)
    (difficulty_multiplier s) (spawn_timer s) (pattern_timer s)
    (current_pattern s) (screen_shake s) (particles s) (trail_points s).

Definition set_start_time (v : Z) (s : GameState) : GameState :=
  mkGameState (running s) (game_active s) (paused s) (player_x s) (player_y s)
    (player_size s) (is_shrunk s) (last_dash s) (last_focus s) (last_pulse s)
    (last_shrink s) (focus_active s) (focus_end_time s) (shrink_end_time s)
    (pulse_uses s) (enemies s) (score s) v (high_score s)
    (difficulty_multiplier s) (spawn_timer s) (pattern_timer s)
    (current_pattern s) (screen_shake s) (particles s) (trail_points s).

Definition set_high_score (v : R) (s : GameState) : GameState :=
  mkGameState (running s) (game_active s) (paused s) (player_x s) (player_y s)
    (player_size s) (is_shrunk s) (last_dash s) (last_focus s) (last_pulse s)
    (last_shrink s) (focus_active s) (focus_end_time s) (shrink_end_time s)
    (pulse_uses s) (enemies s) (score s) (start_time s) v
    (difficulty_multiplier s) (spawn_timer s) (pattern_timer s)
    (current_pattern s) (screen_shake s) (particles s) (trail_points s).

Definition set_difficulty_multiplier (v : R) (s : GameState) : GameState :=
  mkGameState (running s) (game_active s) (paused s) (player_x s) (player_y s)
    (player_size s) (is_shrunk s) (last_dash s) (last_focus s) (last_pulse s)
    (last_shrink s) (focus_active s) (focus_end_time s) (shrink_end_time s)
    (pulse_uses s) (enemies s) (score s) (start_time s) (high_score s) v
    (spawn_timer s) (pattern_timer s) (current_pattern s) (screen_shake s)
    (particles s) (trail_points s).

Definition set_spawn_timer (v : Z) (s : GameState) : GameState :=
  mkGameState (running s) (game_active s) (paused s) (player_x s) (player_y s)
    (player_size s) (is_shrunk s) (last_dash s) (last_focus s) (last_pulse s)
    (last_shrink s) (focus_active s) (focus_end_time s) (shrink_end_time s)
    (pulse_uses s) (enemies s) (score s) (start_time s) (high_score s)
    (difficulty_multiplier s) v (pattern_timer s) (current_pattern s)
    (screen_shake s) (particles s) (trail_points s).

Definition set_pattern_timer (v : Z) (s : GameState) : GameState :=
  mkGameState (running s) (game_active s) (paused s) (player_x s) (player_y s)
    (player_size s) (is_shrunk s) (last_dash s) (last_focus s) (last_pulse s)
    (last_shrink s) (focus_active s) (focus_end_time s) (shrink_end_time s)
    (pulse_uses s) (enemies s) (score s) (start_time s) (high_score s)
    (difficulty_multiplier s) (spawn_timer s) v (current_pattern s)
    (screen_shake s) (particles s) (trail_points s).

Definition set_current_pattern (v : Pattern.t) (s : GameState) : GameState :=
  mkGameState (running s) (game_active s) (paused s) (player_x s) (player_y s)
    (player_size s) (is_shrunk s) (last_dash s) (last_focus s) (last_pulse s)
    (last_shrink s) (focus_active s) (focus_end_time s) (shrink_end_time s)
    (pulse_uses s) (enemies s) (score s) (start_time s) (high_score s)
    (difficulty_multiplier s) (spawn_timer s) (pattern_timer s) v
    (screen_shake s) (particles s) (trail_points s).

Definition set_screen_shake (v : Z) (s : GameState) : GameState :=
  mkGameState (running s) (game_active s) (paused s) (player_x s) (player_y s)
    (player_size s) (is_shrunk s) (last_dash s) (last_focus s) (last_pulse s)
    (last_shrink s) (focus_active s) (focus_end_time s) (shrink_end_time s)
    (pulse_uses s) (enemies s) (score s) (start_time s) (high_score s)
    (difficulty_multiplier s) (spawn_timer s) (pattern_timer s)
    (current_pattern s) v (particles s) (trail_points s).

Definition set_particles (v : list Particle.t) (s : GameState) : GameState :=
  mkGameState (running s) (game_active s) (paused s) (player_x s) (player_y s)
    (player_size s) (is_shrunk s) (last_dash s) (last_focus s) (last_pulse s)
    (last_shrink s) (focus_active s) (focus_end_time s) (shrink_end_time s)
    (pulse_uses s) (enemies s) (score s) (start_time s) (high_score s)
    (difficulty_multiplier s) (spawn_timer s) (pattern_timer s)
    (current_pattern s) (screen_shake s) v (trail_points s).

Definition set_trail_points (v : list (Z * Z * Z)) (s : GameState)
    : GameState :=
  mkGameState (running s) (game_active s) (paused s) (player_x s) (player_y s)
    (player_size s) (is_shrunk s) (last_dash s) (last_focus s) (last_pulse s)
    (last_shrink s) (focus_active s) (focus_end_time s) (shrink_end_time s)
    (pulse_uses s) (enemies s) (score s) (start_time s) (high_score s)
    (difficulty_multiplier s) (spawn_timer s) (pattern_timer s)
    (current_pattern s) (screen_shake s) (particles s) v.

(** [GameState.__init__], given the value returned by [load_high_score]. *)
Definition init (loaded_high_score : R) : GameState :=
  {| running := true; game_active := false; paused := false;
     player_x := SCREEN_WIDTH / 2; player_y := SCREEN_HEIGHT / 2;
     player_size := PLAYER_SIZE; is_shrunk := false;
     last_dash := 0; last_focus := 0; last_pulse := 0; last_shrink := 0;
     focus_active := false; focus_end_time := 0; shrink_end_time := 0;
     pulse_uses := 5;
     enemies := []; score := 0; start_time := 0;
     high_score := loaded_high_score; difficulty_multiplier := 1;
     spawn_timer := 0; pattern_timer := 0;
     current_pattern := Pattern.RANDOM;
     screen_shake := 0; particles := []; trail_points := [] |}.

(** ** The [random] module and Python exceptions *)

Module Random.

(** The generator: a tape of unit-interval floats (the values of
    [random.random()]), a tape of integers (the raw bits behind
    [randint] and [choice]) and the number of draws made so far. *)
Record state : Type := mk {
  floats : nat -> R;
  ints : nat -> Z;
  drawn : nat
}.

Definition next (r : state) : state := mk (floats r) (ints r) (S (drawn r)).

End Random.

(** Computations that draw random numbers and may raise. *)
Definition M (A : Type) : Type := Random.state -> option (A * Random.state).

Definition ret {A : Type} (a : A) : M A := fun r => Some (a, r).

Definition bind {A B : Type} (m : M A) (f : A -> M B) : M B :=
  fun r => match m r with
           | Some (a, r') => f a r'
           | None => None
           end.

Definition raise {A : Type} : M A := fun _ => None.

Notation "x <- m ;; k" := (bind m (fun x => k))
  (at level 61, m at next level, right associativity).
Notation "' p <- m ;; k" := (bind m (fun x => match x with p => k end))
  (at level 61, p pattern, m at next level, right associativity).

(** [random.uniform(a, b)] is [a + (b - a) * random()]. *)
Definition uniform (a b : R) : M R :=
  fun r => Some (a + (b - a) * Random.floats r (Random.drawn r), Random.next r).

(** [random.randint(a, b)]: an integer of [a..b]; [ValueError] on an empty
    range. *)
Definition randint (a b : Z) : M Z :=
  fun r => if (b <? a)%Z then None
           else Some ((a + Random.ints r (Random.drawn r) mod (b - a + 1))%Z,
                      Random.next r).

(** [random.choice(seq)]: [IndexError] on an empty sequence. *)
Definition choice {A : Type} (l : list A) : M A :=
  fun r =>
    let i := (Random.ints r (Random.drawn r) mod Z.of_nat (length l))%Z in
    match nth_error l (Z.to_nat i) with
    | Some a => Some (a, Random.next r)
    | None => None
    end.

(** Float division: [ZeroDivisionError] on a zero divisor. *)
Definition div (a b : R) : M R :=
  if Req_dec_T b 0 then raise else ret (a / b).

(** ** Input *)

Module pygame.

Inductive key : Type :=
  | K_LSHIFT | K_RSHIFT
  | K_LEFT | K_a | K_RIGHT | K_d | K_UP | K_w | K_DOWN | K_s
  | K_SPACE | K_e | K_q
  | K_ESCAPE | K_RETURN | K_p | K_m
  | K_MINUS | K_KP_MINUS | K_EQUALS | K_KP_PLUS
  | K_other.

Inductive event : Type :=
  | QUIT
  | KEYDOWN (k : key)
  | OTHER.

Definition key_eq_dec (a b : key) : {a = b} + {a <> b}.
Proof. decide equality. Defined.

End pygame.

Import pygame.

(** ** Player movement and abilities *)

Definition reset_game (now : Z) (s : GameState) : GameState :=
  {| running := running s; game_active := game_active s; paused := paused s;
     player_x := SCREEN_WIDTH / 2; player_y := SCREEN_HEIGHT / 2;
     player_size := PLAYER_SIZE; is_shrunk := false;
     last_dash := 0; last_focus := 0; last_pulse := 0; last_shrink := 0;
     focus_active := false; focus_end_time := focus_end_time s;
     shrink_end_time := shrink_end_time s;
     pulse_uses := 5;
     enemies := []; score := 0; start_time := now;
     high_score := high_score s; difficulty_multiplier := 1;
     spawn_timer := 0; pattern_timer := 0;
     current_pattern := Pattern.RANDOM;
     screen_shake := 0; particles := []; trail_points := [] |}.

Definition handle_input (keys : key -> bool) (current_time : Z)
    (s : GameState) : GameState :=
  let dash := (keys K_LSHIFT || keys K_RSHIFT)
              && (current_time - last_dash s >? DASH_COOLDOWN)%Z in
  let speed := if dash then DASH_SPEED else PLAYER_SPEED in
  let s := if dash then set_screen_shake 5 (set_last_dash current_time s)
           else s in
  let s := if keys K_LEFT || keys K_a
           then set_player_x (Z.max (player_size s) (player_x s - speed)) s
           else s in
  let s := if keys K_RIGHT || keys K_d
           then set_player_x
                  (Z.min (SCREEN_WIDTH - player_size s) (player_x s + speed)) s
           else s in
  let s := if keys K_UP || keys K_w
           then set_player_y (Z.max (player_size s) (player_y s - speed)) s
           else s in
  let s := if keys K_DOWN || keys K_s
           then set_player_y
                  (Z.min (SCREEN_HEIGHT - player_size s) (player_y s + speed)) s
           else s in
  let s := set_trail_points
             (trail_points s ++ [(player_x s, player_y s, current_time)]) s in
  set_trail_points
    (filter (fun p => (current_time - snd p <? 200)%Z) (trail_points s)) s.

(** The five particles of one affected enemy. *)
Fixpoint burst (n : nat) (enemy : Enemy.t) : M (list Particle.t) :=
  match n with
  | O => ret []
  | S k =>
      angle <- uniform 0 (2 * PI) ;;
      speed <- uniform 2 6 ;;
      rest <- burst k enemy ;;
      ret (Particle.mk (Enemy.x enemy) (Enemy.y enemy)
             (cos angle * speed) (sin angle * speed) 30 CYAN :: rest)
  end.

(** One iteration of the loop of [pulse_enemies]: the enemy after the
    impulse and the particles appended for it. *)
Definition pulse_enemy (px py : Z) (enemy : Enemy.t)
    : M (Enemy.t * list Particle.t) :=
  let dx := Enemy.x enemy - IZR px in
  let dy := Enemy.y enemy - IZR py in
  let distance := sqrt (dx * dx + dy * dy) in
  if Py.Rltb distance 150 then
    enemy' <- (if Py.Rltb 0 distance then
                 force <- div 200 distance ;;
                 ux <- div dx distance ;;
                 uy <- div dy distance ;;
                 ret (Enemy.mk (Enemy.x enemy) (Enemy.y enemy)
                        (Enemy.vx enemy + ux * force)
                        (Enemy.vy enemy + uy * force)
                        (Enemy.shape_type enemy) (Enemy.size enemy)
                        (Enemy.color enemy) (Enemy.rotation enemy)
                        (Enemy.rotation_speed enemy)
                        (Enemy.pulse_phase enemy)
                        (Enemy.dimension_phase enemy))
               else ret enemy) ;;
    ps <- burst 5 enemy' ;;
    ret (enemy', ps)
  else ret (enemy, []).

Fixpoint pulse_loop (px py : Z) (es : list Enemy.t)
    : M (list Enemy.t * list Particle.t) :=
  match es with
  | [] => ret ([], [])
  | enemy :: rest =>
      '(enemy', ps) <- pulse_enemy px py enemy ;;
      '(rest', ps') <- pulse_loop px py rest ;;
      ret (enemy' :: rest', ps ++ ps')
  end.

Definition pulse_enemies (s : GameState) : M GameState :=
  '(es, ps) <- pulse_loop (player_x s) (player_y s) (enemies s) ;;
  ret (set_particles (particles s ++ ps) (set_enemies es s)).

Definition handle_abilities (ev : event) (current_time : Z) (s : GameState)
    : M GameState :=
  match ev with
  | KEYDOWN K_SPACE =>
      if (current_time - last_focus s >? FOCUS_COOLDOWN)%Z then
        ret (set_last_focus current_time
               (set_focus_end_time (current_time + 3000)
                  (set_focus_active true s)))
      else ret s
  | KEYDOWN K_e =>
      if (pulse_uses s >? 0)%Z
         && (current_time - last_pulse s >? PULSE_COOLDOWN)%Z then
        s <- pulse_enemies s ;;
        ret (set_screen_shake 10
               (set_last_pulse current_time
                  (set_pulse_uses (pulse_uses s - 1) s)))
      else ret s
  | KEYDOWN K_q =>
      if negb (is_shrunk s)
         && (current_time - last_shrink s >? SHRINK_COOLDOWN)%Z then
        ret (set_player_size (PLAYER_SIZE / 2)
               (set_last_shrink current_time
                  (set_shrink_end_time (current_time + SHRINK_DURATION)
                     (set_is_shrunk true s))))
      else ret s
  | _ => ret s
  end.

Definition update_abilities (current_time : Z) (s : GameState) : GameState :=
  let s := if focus_active s && (current_time >? focus_end_time s)%Z
           then set_focus_active false s else s in
  let s := if is_shrunk s && (current_time >? shrink_end_time s)%Z
           then set_player_size PLAYER_SIZE (set_is_shrunk false s) else s in
  if (pulse_uses s <? 5)%Z
     && (current_time - last_pulse s >? PULSE_COOLDOWN * 2)%Z
  then set_pulse_uses (Z.min 5 (pulse_uses s + 1)) s
  else s.

(** ** Enemy spawner *)

(** The position rule of the final [else] branch of [spawn_enemy]
    ("RANDOM and others"): a random point 50 units outside one of the four
    screen edges. *)
Definition edge_position : M (R * R) :=
  side <- randint 0 3 ;;
  if (side =? 0)%Z then
    x <- randint 0 SCREEN_WIDTH ;; ret (IZR x, -50)
  else if (side =? 1)%Z then
    y <- randint 0 SCREEN_HEIGHT ;; ret (IZR (SCREEN_WIDTH + 50), IZR y)
  else if (side =? 2)%Z then
    x <- randint 0 SCREEN_WIDTH ;; ret (IZR x, IZR (SCREEN_HEIGHT + 50))
  else
    y <- randint 0 SCREEN_HEIGHT ;; ret (-50, IZR y).

(** The spawn position by pattern; [ticks] is the clock value read by the
    SPIRAL and WAVE branches. *)
Definition spawn_position (pattern : Pattern.t) (ticks : Z) : M (R * R) :=
  match pattern with
  | Pattern.SPIRAL =>
      let angle := Py.fmod (IZR ticks * 0.01) (2 * PI) in
      let radius := 400 in
      ret (IZR (SCREEN_WIDTH / 2) + cos angle * radius,
           IZR (SCREEN_HEIGHT / 2) + sin angle * radius)
  | Pattern.WAVE =>
      x <- choice [0%Z; SCREEN_WIDTH] ;;
      ret (IZR x, IZR (SCREEN_HEIGHT / 2) + sin (IZR ticks * 0.005) * 200)
  | Pattern.CIRCLE =>
      angle <- uniform 0 (2 * PI) ;;
      let radius := 500 in
      ret (IZR (SCREEN_WIDTH / 2) + cos angle * radius,
           IZR (SCREEN_HEIGHT / 2) + sin angle * radius)
  | _ => edge_position
  end.

Definition palette : list Color :=
  [RED; BLUE; GREEN; YELLOW; PURPLE; ORANGE; CYAN; PINK].

(** [spawn_enemy(pattern)]; [None] is the default argument.  The result is
    the state with the new enemy appended. *)
Definition spawn_enemy (pattern : option Pattern.t) (ticks : Z)
    (s : GameState) : M GameState :=
  let pattern := match pattern with
                 | None => current_pattern s
                 | Some p => p
                 end in
  shape_type <- choice ShapeType.all ;;
  '(x, y) <- spawn_position pattern ticks ;;
  let dx := IZR (player_x s) - x in
  let dy := IZR (player_y s) - y in
  let distance := sqrt (dx * dx + dy * dy) in
  '(vx, vy) <- (if Py.Rltb 0 distance then
                  u <- uniform 1 3 ;;
                  let speed := u * difficulty_multiplier s in
                  ux <- div dx distance ;;
                  jx <- uniform (-0.5) 0.5 ;;
                  uy <- div dy distance ;;
                  jy <- uniform (-0.5) 0.5 ;;
                  ret (ux * speed + jx, uy * speed + jy)
                else
                  vx <- uniform (-2) 2 ;;
                  vy <- uniform (-2) 2 ;;
                  ret (vx, vy)) ;;
  size <- uniform 15 40 ;;
  color <- choice palette ;;
  rotation <- uniform 0 (2 * PI) ;;
  rotation_speed <- uniform (-0.1) 0.1 ;;
  pulse_phase <- uniform 0 (2 * PI) ;;
  dimension_phase <- uniform 0 (2 * PI) ;;
  let enemy := Enemy.mk x y vx vy shape_type size color rotation
                 rotation_speed pulse_phase dimension_phase in
  ret (set_enemies (enemies s ++ [enemy]) s).

(** ** Enemy simulation *)

Definition time_factor (s : GameState) : R :=
  if focus_active s then 0.5 else 1.

(** The body of the loop of [update_enemies] before the removal test. *)
Definition move_enemy (tf : R) (enemy : Enemy.t) : Enemy.t :=
  Enemy.mk (Enemy.x enemy + Enemy.vx enemy * tf)
           (Enemy.y enemy + Enemy.vy enemy * tf)
           (Enemy.vx enemy) (Enemy.vy enemy)
           (Enemy.shape_type enemy) (Enemy.size enemy) (Enemy.color enemy)
           (Enemy.rotation enemy + Enemy.rotation_speed enemy * tf)
           (Enemy.rotation_speed enemy)
           (Enemy.pulse_phase enemy + 0.05 * tf)
           (Enemy.dimension_phase enemy + 0.03 * tf).

(** The removal test of [update_enemies]. *)
Definition off_screen (enemy : Enemy.t) : bool :=
  Py.Rltb (Enemy.x enemy) (-100)
  || Py.Rltb (IZR (SCREEN_WIDTH + 100)) (Enemy.x enemy)
  || Py.Rltb (Enemy.y enemy) (-100)
  || Py.Rltb (IZR (SCREEN_HEIGHT + 100)) (Enemy.y enemy).

(** The loop runs over a copy of the list and calls
    [self.enemies.remove(enemy)] on the enemy it has just moved.  [remove]
    deletes the first element equal to its argument; every element before
    the current one was kept and so lies within the margin, while the
    current one does not, so the element deleted is the current one. *)
Fixpoint update_enemies_loop (tf : R) (snapshot : list Enemy.t)
    : list Enemy.t :=
  match snapshot with
  | [] => []
  | enemy :: rest =>
      let enemy := move_enemy tf enemy in
      if off_screen enemy then update_enemies_loop tf rest
      else enemy :: update_enemies_loop tf rest
  end.

(** [update_enemies]; the clock value it reads on entry is not used. *)
Definition update_enemies (s : GameState) : GameState :=
  set_enemies (update_enemies_loop (time_factor s) (enemies s)) s.

(** ** Collision and scoring *)

Definition distance_to_player (s : GameState) (enemy : Enemy.t) : R :=
  let dx := Enemy.x enemy - IZR (player_x s) in
  let dy := Enemy.y enemy - IZR (player_y s) in
  sqrt (dx * dx + dy * dy).

Definition collision_distance (s : GameState) (enemy : Enemy.t) : R :=
  let player_radius := player_size s in
  IZR player_radius + Enemy.size enemy * 0.6.

(** The test [distance < collision_distance] of [check_collisions]. *)
Definition collides (s : GameState) (enemy : Enemy.t) : bool :=
  Py.Rltb (distance_to_player s enemy) (collision_distance s enemy).

(** The game-over branch: the high score is raised when beaten and the
    round ends (writing the score file and starting the game-over music
    are calls to the collaborators). *)
Definition game_over (s : GameState) : GameState :=
  let s := if Py.Rltb (high_score s) (score s)
           then set_high_score (score s) s else s in
  set_game_active false s.

Fixpoint check_collisions_loop (s : GameState) (es : list Enemy.t)
    : GameState :=
  match es with
  | [] => s
  | enemy :: rest =>
      if collides s enemy then game_over s
      else check_collisions_loop s rest
  end.

Definition check_collisions (s : GameState) : GameState :=
  check_collisions_loop s (enemies s).

(** ** One update of the game logic *)

(** The local [spawn_rate] of [update_game_logic]. *)
Definition spawn_rate (score : R) : Z :=
  Z.max 200 (1000 - Py.int (score * 10)).

Definition move_particle (p : Particle.t) : Particle.t :=
  Particle.mk (Particle.x p + Particle.vx p) (Particle.y p + Particle.vy p)
              (Particle.vx p) (Particle.vy p) (Particle.life p - 1)
              (Particle.color p).

Fixpoint update_particles (snapshot : list Particle.t) : list Particle.t :=
  match snapshot with
  | [] => []
  | p :: rest =>
      let p := move_particle p in
      if (Particle.life p <=? 0)%Z then update_particles rest
      else p :: update_particles rest
  end.

(** [update_game_logic]: [current_time] is the clock value it reads on
    entry, [spawn_ticks] the one read inside [spawn_enemy] and
    [abilities_time] the one read by [update_abilities]. *)
Definition update_game_logic (current_time spawn_ticks abilities_time : Z)
    (s : GameState) : M GameState :=
  if negb (game_active s) then ret s
  else
    let s := set_score (IZR (current_time - start_time s) / 1000) s in
    let s := set_difficulty_multiplier (1 + score s / 30) s in
    s <- (if (current_time - spawn_timer s >? spawn_rate (score s))%Z then
            s <- spawn_enemy None spawn_ticks s ;;
            ret (set_spawn_timer current_time s)
          else ret s) ;;
    s <- (if (current_time - pattern_timer s >? 10000)%Z then
            p <- choice Pattern.all ;;
            ret (set_pattern_timer current_time (set_current_pattern p s))
          else ret s) ;;
    let s := update_abilities abilities_time s in
    let s := update_enemies s in
    let s := check_collisions s in
    let s := set_particles (update_particles (particles s)) s in
    let s := if (screen_shake s >? 0)%Z
             then set_screen_shake (screen_shake s - 1) s else s in
    ret s.

(** ** Shape renderer *)

Module Draw.

Definition point : Type := (R * R)%type.

(** [pygame.Rect(left, top, width, height)] as constructed by the caller. *)
Record Rect : Type := mkRect {
  left : R;
  top : R;
  width : R;
  height : R
}.

(** One call of [pygame.draw]; a line width of 0 is the filled default. *)
Inductive primitive : Type :=
  | circle (c : Color) (center : Z * Z) (radius : Z) (w : Z)
  | rect (c : Color) (r : Rect) (w : Z)
  | ellipse (c : Color) (r : Rect)
  | polygon (c : Color) (points : list point)
  | lines (c : Color) (closed : bool) (points : list point) (w : Z)
  | line (c : Color) (start_pos end_pos : point) (w : Z).

End Draw.

Import Draw.

(** [tuple(min(255, c + k) for c in color)] *)
Definition lighter (k : Z) (c : Color) : Color :=
  let '(r, g, b) := c in
  (Z.min 255 (r + k), Z.min 255 (g + k), Z.min 255 (b + k))%Z.

(** [tuple(max(0, c - k) for c in color)] *)
Definition darker (k : Z) (c : Color) : Color :=
  let '(r, g, b) := c in
  (Z.max 0 (r - k), Z.max 0 (g - k), Z.max 0 (b - k))%Z.

(** [tuple(max(0, min(255, c + k)) for c in color)] *)
Definition clamped (k : Z) (c : Color) : Color :=
  let '(r, g, b) := c in
  (Z.max 0 (Z.min 255 (r + k)), Z.max 0 (Z.min 255 (g + k)),
   Z.max 0 (Z.min 255 (b + k)))%Z.

(** The jitter drawn at the top of both renderers. *)
Definition shake (s : GameState) : M Z :=
  if (screen_shake s >? 0)%Z
  then randint (- screen_shake s) (screen_shake s)
  else ret 0%Z.

(** Indexing a list of points at an index the caller has checked. *)
Definition at_index (l : list point) (i : nat) : point := nth i l (0, 0).

(** The [if]/[elif] chain of [GameState.draw_shape] as the class defines
    it, after the pulse and shake prelude. *)
Definition basic_shape (shape_type : ShapeType.t) (x y pulse_size : R)
    (color : Color) (rotation dimension_phase : R) : list primitive :=
  match shape_type with
  | ShapeType.CIRCLE =>
      [circle color (Py.int x, Py.int y) (Py.int pulse_size) 0]
  | ShapeType.SQUARE =>
      [rect color (mkRect (x - pulse_size) (y - pulse_size)
                     (pulse_size * 2) (pulse_size * 2)) 0]
  | ShapeType.TRIANGLE =>
      [polygon color
         (map (fun i => let angle := rotation + INR i * 2 * PI / 3 in
                        (x + cos angle * pulse_size,
                         y + sin angle * pulse_size))
              (Py.range 3))]
  | ShapeType.PENTAGON =>
      [polygon color
         (map (fun i => let angle := rotation + INR i * 2 * PI / 5 in
                        (x + cos angle * pulse_size,
                         y + sin angle * pulse_size))
              (Py.range 5))]
  | ShapeType.HEXAGON =>
      [polygon color
         (map (fun i => let angle := rotation + INR i * 2 * PI / 6 in
                        (x + cos angle * pulse_size,
                         y + sin angle * pulse_size))
              (Py.range 6))]
  | ShapeType.STAR =>
      [polygon color
         (map (fun i => let angle := rotation + INR i * 2 * PI / 10 in
                        let radius := if Nat.even i then pulse_size
                                      else pulse_size * 0.5 in
                        (x + cos angle * radius, y + sin angle * radius))
              (Py.range 10))]
  | ShapeType.DIAMOND =>
      [polygon color
         [(x, y - pulse_size); (x + pulse_size, y);
          (x, y + pulse_size); (x - pulse_size, y)]]
  | ShapeType.CROSS =>
      let thickness := pulse_size * 0.3 in
      [rect color (mkRect (x - thickness) (y - pulse_size)
                     (thickness * 2) (pulse_size * 2)) 0;
       rect color (mkRect (x - pulse_size) (y - thickness)
                     (pulse_size * 2) (thickness * 2)) 0]
  | ShapeType.CUBE =>
      let depth := pulse_size * 0.3 in
      [rect color (mkRect (x - pulse_size) (y - pulse_size)
                     (pulse_size * 2) (pulse_size * 2)) 0;
       polygon (lighter 30 color)
         [(x - pulse_size, y - pulse_size);
          (x - pulse_size + depth, y - pulse_size - depth);
          (x + pulse_size + depth, y - pulse_size - depth);
          (x + pulse_size, y - pulse_size)];
       polygon (darker 30 color)
         [(x + pulse_size, y - pulse_size);
          (x + pulse_size + depth, y - pulse_size - depth);
          (x + pulse_size + depth, y + pulse_size - depth);
          (x + pulse_size, y + pulse_size)]]
  | ShapeType.SPIRAL =>
      let points :=
        flat_map (fun i => let t := INR i * 0.3 in
                           let r := t * 3 in
                           let angle := rotation + t in
                           let px := x + cos angle * r in
                           let py := y + sin angle * r in
                           if Py.Rleb r pulse_size then [(px, py)] else [])
                 (Py.range 20) in
      if (1 <? length points)%nat then [lines color false points 3] else []
  | ShapeType.TESSERACT =>
      let scale := pulse_size * 0.7 in
      let w := sin dimension_phase * 0.5 + 0.5 in
      let inner_scale := scale * (0.5 + w * 0.3) in
      let outer_scale := scale * (0.8 + w * 0.2) in
      [rect (darker 50 color)
         (mkRect (x - inner_scale) (y - inner_scale)
            (inner_scale * 2) (inner_scale * 2)) 0;
       rect color
         (mkRect (x - outer_scale) (y - outer_scale)
            (outer_scale * 2) (outer_scale * 2)) 2]
      ++ map (fun i => let angle := INR i * PI / 2 in
                       line color
                         (x + cos angle * inner_scale,
                          y + sin angle * inner_scale)
                         (x + cos angle * outer_scale,
                          y + sin angle * outer_scale) 1)
             (Py.range 4)
  | _ =>
      [circle color (Py.int x, Py.int y) (Py.int pulse_size) 0]
  end.

(** [GameState.draw_shape] as the class defines it (the method that
    [extend_draw_shape_method] saves as [original_draw_shape]). *)
Definition original_draw_shape (s : GameState) (shape_type : ShapeType.t)
    (x y size : R) (color : Color) (rotation pulse_phase dimension_phase : R)
    : M (list primitive) :=
  let pulse_size := size + sin pulse_phase * 3 in
  shake_x <- shake s ;;
  shake_y <- shake s ;;
  let x := x + IZR shake_x in
  let y := y + IZR shake_y in
  ret (basic_shape shape_type x y pulse_size color rotation dimension_phase).

(** The [if]/[elif] chain of [draw_advanced_shapes], after the same
    prelude; a kind it does not list draws nothing. *)
Definition advanced_shape (shape_type : ShapeType.t) (x y pulse_size : R)
    (color : Color) (rotation dimension_phase : R) : list primitive :=
  match shape_type with
  | ShapeType.OCTAGON =>
      [polygon color
         (map (fun i => let angle := rotation + INR i * 2 * PI / 8 in
                        (x + cos angle * pulse_size,
                         y + sin angle * pulse_size))
              (Py.range 8))]
  | ShapeType.ELLIPSE =>
      let width := pulse_size * 1.5 in
      let height := pulse_size * 0.8 in
      [ellipse color (mkRect (x - width) (y - height)
                        (width * 2) (height * 2))]
  | ShapeType.ARROW =>
      let tip_x := x + cos rotation * pulse_size in
      let tip_y := y + sin rotation * pulse_size in
      let back_x := x - cos rotation * pulse_size * 0.5 in
      let back_y := y - sin rotation * pulse_size * 0.5 in
      let wing1_x := back_x + cos (rotation + PI / 2) * pulse_size * 0.3 in
      let wing1_y := back_y + sin (rotation + PI / 2) * pulse_size * 0.3 in
      let wing2_x := back_x - cos (rotation + PI / 2) * pulse_size * 0.3 in
      let wing2_y := back_y - sin (rotation + PI / 2) * pulse_size * 0.3 in
      [polygon color
         [(tip_x, tip_y); (wing1_x, wing1_y); (back_x, back_y);
          (wing2_x, wing2_y)]]
  | ShapeType.HEART =>
      let points :=
        map (fun i =>
               let t := INR i * 2 * PI / 20 in
               let heart_x := 16 * sin t ^ 3 in
               let heart_y := - (13 * cos t - 5 * cos (2 * t)
                                 - 2 * cos (3 * t) - cos (4 * t)) in
               let cos_r := cos rotation in
               let sin_r := sin rotation in
               let scale := pulse_size / 20 in
               (x + (heart_x * cos_r - heart_y * sin_r) * scale,
                y + (heart_x * sin_r + heart_y * cos_r) * scale))
            (Py.range 20) in
      if (2 <? length points)%nat then [polygon color points] else []
  | ShapeType.CRESCENT =>
      let offset_x := x + cos rotation * pulse_size * 0.3 in
      let offset_y := y + sin rotation * pulse_size * 0.3 in
      [circle color (Py.int x, Py.int y) (Py.int pulse_size) 0;
       circle BLACK (Py.int offset_x, Py.int offset_y)
         (Py.int (pulse_size * 0.8)) 0]
  | ShapeType.LIGHTNING =>
      let segments := 6%nat in
      let points :=
        map (fun i =>
               let t := INR i / INR segments in
               let base_x := x + (t - 0.5) * pulse_size * 2 in
               let base_y := y + (t - 0.5) * pulse_size * 0.3 in
               if Nat.odd i
               then (base_x + pulse_size * 0.3 * sin rotation,
                     base_y + pulse_size * 0.3 * cos rotation)
               else (base_x, base_y))
            (Py.range (segments + 1)) in
      if (1 <? length points)%nat then [lines color false points 4] else []
  | ShapeType.BOWTIE =>
      [polygon color
         [(x - pulse_size, y - pulse_size * 0.5);
          (x, y);
          (x - pulse_size, y + pulse_size * 0.5);
          (x + pulse_size, y + pulse_size * 0.5);
          (x, y);
          (x + pulse_size, y - pulse_size * 0.5)]]
  | ShapeType.HOURGLASS =>
      [polygon color
         [(x - pulse_size, y - pulse_size); (x + pulse_size, y - pulse_size);
          (x, y)];
       polygon color
         [(x, y); (x - pulse_size, y + pulse_size);
          (x + pulse_size, y + pulse_size)]]
  | ShapeType.FLOWER =>
      let petals := 6%nat in
      map (fun i =>
             let angle := rotation + INR i * 2 * PI / INR petals in
             let petal_x := x + cos angle * pulse_size * 0.7 in
             let petal_y := y + sin angle * pulse_size * 0.7 in
             circle color (Py.int petal_x, Py.int petal_y)
               (Py.int (pulse_size * 0.4)) 0)
          (Py.range petals)
      ++ [circle (lighter 50 color) (Py.int x, Py.int y)
            (Py.int (pulse_size * 0.3)) 0]
  | ShapeType.GEAR =>
      let teeth := 8%nat in
      let inner_radius := pulse_size * 0.6 in
      let outer_radius := pulse_size in
      [polygon color
         (map (fun i =>
                 let angle := rotation + INR i * 2 * PI / INR (teeth * 2) in
                 let radius := if Nat.even i then outer_radius
                               else inner_radius in
                 (x + cos angle * radius, y + sin angle * radius))
              (Py.range (teeth * 2)));
       circle BLACK (Py.int x, Py.int y) (Py.int (pulse_size * 0.2)) 0]
  | ShapeType.SNOWFLAKE =>
      flat_map
        (fun i =>
           let angle := rotation + INR i * PI / 3 in
           let end_x := x + cos angle * pulse_size in
           let end_y := y + sin angle * pulse_size in
           line color (x, y) (end_x, end_y) 2
           :: flat_map
                (fun j =>
                   let branch_x := x + cos angle * pulse_size * j in
                   let branch_y := y + sin angle * pulse_size * j in
                   map (fun k =>
                          let branch_angle := angle + k * PI / 6 in
                          line color (branch_x, branch_y)
                            (branch_x + cos branch_angle * pulse_size * 0.2,
                             branch_y + sin branch_angle * pulse_size * 0.2)
                            1)
                       [-1; 1])
                [0.3; 0.6])
        (Py.range 6)
  | ShapeType.PYRAMID =>
      let base_size := pulse_size in
      let height := pulse_size * 1.2 in
      let apex := (x, y - height * 0.5) in
      [polygon (darker 40 color)
         [(x - base_size, y + base_size * 0.5);
          (x + base_size, y + base_size * 0.5);
          (x + base_size * 0.5, y + base_size);
          (x - base_size * 0.5, y + base_size)];
       polygon color
         [(x - base_size, y + base_size * 0.5);
          (x + base_size, y + base_size * 0.5);
          apex];
       polygon (darker 20 color)
         [(x + base_size, y + base_size * 0.5);
          (x + base_size * 0.5, y + base_size);
          apex]]
  | ShapeType.CYLINDER =>
      let width := pulse_size * 1.2 in
      let height := pulse_size * 0.8 in
      let depth := pulse_size * 0.3 in
      [ellipse color
         (mkRect (x - width) (y - height) (width * 2) (height * 2));
       ellipse (lighter 30 color)
         (mkRect (x - width + depth) (y - height - depth)
            (width * 2) (height * 2));
       rect (darker 20 color)
         (mkRect (x - width) (y - height) (width * 2) (height * 2)) 0]
  | ShapeType.CONE =>
      let base_radius := pulse_size in
      let height := pulse_size * 1.5 in
      let apex := (x, y - height * 0.7) in
      let cone_points :=
        flat_map (fun i =>
                    let angle := INR i * 2 * PI / 16 in
                    let base_x := x + cos angle * base_radius in
                    let base_y := y + height * 0.3
                                  + sin angle * base_radius * 0.3 in
                    [apex; (base_x, base_y)])
                 (Py.range 16) in
      circle (darker 40 color) (Py.int x, Py.int (y + height * 0.3))
        (Py.int base_radius) 0
      :: flat_map
           (fun i =>
              if (i + 3 <? length cone_points)%nat
              then [polygon color
                      [at_index cone_points i;
                       at_index cone_points (i + 1);
                       at_index cone_points (i + 3)]]
              else [])
           (Py.range3 0 (length cone_points - 2) 2)
  | ShapeType.SPHERE =>
      let highlight_x := x - pulse_size * 0.3 in
      let highlight_y := y - pulse_size * 0.3 in
      let highlight_color := lighter 80 color in
      let shadow_x := x + pulse_size * 0.2 in
      let shadow_y := y + pulse_size * 0.2 in
      let shadow_color := darker 60 color in
      [circle color (Py.int x, Py.int y) (Py.int pulse_size) 0;
       circle highlight_color (Py.int highlight_x, Py.int highlight_y)
         (Py.int (pulse_size * 0.3)) 0;
       circle shadow_color (Py.int shadow_x, Py.int shadow_y)
         (Py.int (pulse_size * 0.4)) 0]
  | ShapeType.TORUS =>
      let outer_radius := pulse_size in
      let inner_radius := pulse_size * 0.4 in
      let depth_offset := pulse_size * 0.2 in
      [circle color (Py.int x, Py.int y) (Py.int outer_radius) 0;
       circle BLACK (Py.int x, Py.int y) (Py.int inner_radius) 0;
       ellipse (lighter 30 color)
         (mkRect (x - outer_radius) (y - outer_radius - depth_offset)
            (outer_radius * 2) inner_radius)]
  | ShapeType.PRISM =>
      let base_size := pulse_size in
      let depth := pulse_size * 0.4 in
      let front_points :=
        [(x, y - base_size);
         (x - base_size, y + base_size * 0.5);
         (x + base_size, y + base_size * 0.5)] in
      let back_points :=
        [(x + depth, y - base_size - depth);
         (x - base_size + depth, y + base_size * 0.5 - depth);
         (x + base_size + depth, y + base_size * 0.5 - depth)] in
      [polygon color front_points;
       polygon (lighter 20 color) back_points]
      ++ map (fun i => line (darker 30 color)
                         (at_index front_points i) (at_index back_points i) 2)
             (Py.range 3)
  | ShapeType.DODECAHEDRON =>
      [polygon color
         (map (fun i =>
                 let angle := rotation + INR i * 2 * PI / 12 in
                 let radius := pulse_size * (0.8 + 0.2 * sin (INR i * 3)) in
                 (x + cos angle * radius, y + sin angle * radius))
              (Py.range 12));
       polygon (lighter 40 color)
         (map (fun i =>
                 let angle := rotation + INR i * 2 * PI / 6 in
                 (x + cos angle * pulse_size * 0.4,
                  y + sin angle * pulse_size * 0.4))
              (Py.range 6))]
  | ShapeType.ICOSAHEDRON =>
      let layers := 3%nat in
      let points :=
        flat_map
          (fun layer =>
             let layer_radius := pulse_size * (1 - INR layer * 0.2) in
             let points_in_layer := (6 + layer * 2)%nat in
             map (fun i =>
                    let angle := rotation
                                 + INR i * 2 * PI / INR points_in_layer
                                 + INR layer * 0.5 in
                    (x + cos angle * layer_radius,
                     y + sin angle * layer_radius * 0.8))
                 (Py.range points_in_layer))
          (Py.range layers) in
      if (2 <? length points)%nat then [polygon color points] else []
  | ShapeType.TETRAHEDRON =>
      let base_size := pulse_size * 0.8 in
      let height := pulse_size in
      let base_points :=
        [(x - base_size, y + base_size * 0.5);
         (x + base_size, y + base_size * 0.5);
         (x, y - base_size * 0.5)] in
      let apex := (x, y - height * 0.8) in
      polygon (darker 30 color) base_points
      :: map (fun i =>
                polygon (darker (10 * Z.of_nat i) color)
                  [at_index base_points i;
                   at_index base_points ((i + 1) mod 3);
                   apex])
             (Py.range 3)
  | ShapeType.HYPERSPHERE =>
      let w := sin dimension_phase * 0.5 + 0.5 in
      flat_map
        (fun i =>
           let layer_w := INR i / 3 * 2 - 1 in
           if Py.Rleb (Rabs layer_w) 1 then
             let radius := pulse_size * sqrt (1 - layer_w ^ 2)
                           * (0.3 + w * 0.7) in
             if Py.Rltb 1 radius
             then [circle color (Py.int x, Py.int y) (Py.int radius) 2]
             else []
           else [])
        (Py.range 4)
  | ShapeType.HYPERPRISM =>
      let w1 := sin dimension_phase * 0.3 in
      let w2 := cos dimension_phase * 0.3 in
      map (fun i =>
             let layer_w := (INR i - 1) * 0.5 in
             let offset_x := layer_w * w1 * pulse_size in
             let offset_y := layer_w * w2 * pulse_size in
             let rect_size := pulse_size * (0.6 + 0.4 * (2 - INR i)) in
             rect (clamped (Z.of_nat i * 20) color)
               (mkRect (x + offset_x - rect_size) (y + offset_y - rect_size)
                  (rect_size * 2) (rect_size * 2)) 2)
          (Py.range 3)
  | ShapeType.SIMPLEX_4D =>
      let w := dimension_phase in
      let vertices_4d : list (R * R * R * R) :=
        [(1, 1, 1, 1); (1, -1, -1, 1); (-1, 1, -1, 1); (-1, -1, 1, 1);
         (0, 0, 0, -4)] in
      let projected_vertices :=
        map (fun v =>
               let '(vx, vy, vz, vw) := v in
               let scale := pulse_size * 0.3 in
               (x + (vx + vw * cos w) * scale,
                y + (vy + vw * sin w) * scale))
            vertices_4d in
      flat_map
        (fun i =>
           map (fun j =>
                  let p := at_index projected_vertices i in
                  let q := at_index projected_vertices j in
                  line color
                    (IZR (Py.int (fst p)), IZR (Py.int (snd p)))
                    (IZR (Py.int (fst q)), IZR (Py.int (snd q))) 1)
               (seq (i + 1) (length projected_vertices - (i + 1))))
        (Py.range (length projected_vertices))
  | _ => []
  end.

Definition draw_advanced_shapes (game_state : GameState)
    (shape_type : ShapeType.t) (x y size : R) (color : Color)
    (rotation pulse_phase dimension_phase : R) : M (list primitive) :=
  let pulse_size := size + sin pulse_phase * 3 in
  shake_x <- shake game_state ;;
  shake_y <- shake game_state ;;
  let x := x + IZR shake_x in
  let y := y + IZR shake_y in
  ret (advanced_shape shape_type x y pulse_size color rotation
         dimension_phase).

(** Membership in the set [advanced_shapes] of [extended_draw_shape]. *)
Definition advanced_shapes (shape_type : ShapeType.t) : bool :=
  match shape_type with
  | ShapeType.OCTAGON | ShapeType.ELLIPSE | ShapeType.ARROW
  | ShapeType.HEART | ShapeType.CRESCENT | ShapeType.LIGHTNING
  | ShapeType.BOWTIE | ShapeType.HOURGLASS | ShapeType.FLOWER
  | ShapeType.GEAR | ShapeType.SNOWFLAKE | ShapeType.PYRAMID
  | ShapeType.CYLINDER | ShapeType.CONE | ShapeType.SPHERE
  | ShapeType.TORUS | ShapeType.PRISM | ShapeType.DODECAHEDRON
  | ShapeType.ICOSAHEDRON | ShapeType.TETRAHEDRON | ShapeType.HYPERSPHERE
  | ShapeType.HYPERPRISM | ShapeType.SIMPLEX_4D => true
  | _ => false
  end.

(** [GameState.draw_shape] once [extend_draw_shape_method] has run: the
    method every caller reaches. *)
Definition draw_shape (s : GameState) (shape_type : ShapeType.t)
    (x y size : R) (color : Color) (rotation pulse_phase dimension_phase : R)
    : M (list primitive) :=
  if advanced_shapes shape_type
  then draw_advanced_shapes s shape_type x y size color rotation pulse_phase
         dimension_phase
  else original_draw_shape s shape_type x y size color rotation pulse_phase
         dimension_phase.

(** ** Runs of ticks *)

(** Successive calls of [update_abilities], one per simulation tick, with
    the clock values they read. *)
Definition run_abilities (nows : list Z) (s : GameState) : GameState :=
  fold_left (fun s now => update_abilities now s) nows s.

(** Successive calls of [update_enemies]. *)
Definition run_enemies (n : nat) (s : GameState) : GameState :=
  Nat.iter n update_enemies s.

(** A generator whose tapes are constant. *)
Definition constant_tape (f : R) (i : Z) : Random.state :=
  Random.mk (fun _ => f) (fun _ => i) 0.

(** ** Specification vocabulary *)

(** The closed form of the spec: after [n] ticks at time factor 1 the
    enemy has moved by [n] times its velocity (and its rotation and phases
    by [n] times their increments). *)
Definition drift (n : nat) (e : Enemy.t) : Enemy.t :=
  Enemy.mk (Enemy.x e + INR n * Enemy.vx e)
           (Enemy.y e + INR n * Enemy.vy e)
           (Enemy.vx e) (Enemy.vy e)
           (Enemy.shape_type e) (Enemy.size e) (Enemy.color e)
           (Enemy.rotation e + INR n * Enemy.rotation_speed e)
           (Enemy.rotation_speed e)
           (Enemy.pulse_phase e + INR n * 0.05)
           (Enemy.dimension_phase e + INR n * 0.03).

(** The enemy is within the 100-unit margin on each of the ticks [1..n]. *)
Definition stays_on_screen (n : nat) (e : Enemy.t) : bool :=
  forallb (fun k => negb (off_screen (drift k e))) (seq 1 n).

(** The four directions as [handle_input] reads them. *)
Definition held_left (keys : key -> bool) : bool := keys K_LEFT || keys K_a.
Definition held_right (keys : key -> bool) : bool := keys K_RIGHT || keys K_d.
Definition held_up (keys : key -> bool) : bool := keys K_UP || keys K_w.
Definition held_down (keys : key -> bool) : bool := keys K_DOWN || keys K_s.

(** The array of [pygame.key.get_pressed()] when exactly the keys of
    [held] are down. *)
Definition pressed (held : list key) (k : key) : bool :=
  existsb (fun h => if key_eq_dec h k then true else false) held.

(** A particle as [pulse_enemies] creates it for enemy [e]. *)
Definition at_enemy (e : Enemy.t) (p : Particle.t) : Prop :=
  Particle.x p = Enemy.x e /\ Particle.y p = Enemy.y e
  /\ Particle.life p = 30%Z /\ Particle.color p = CYAN.

(** The ring of radius 500 around the screen centre. *)
Definition on_ring (x y : R) : Prop :=
  (x - IZR (SCREEN_WIDTH / 2)) * (x - IZR (SCREEN_WIDTH / 2))
  + (y - IZR (SCREEN_HEIGHT / 2)) * (y - IZR (SCREEN_HEIGHT / 2))
  = 500 * 500.

(** The edge-random rule: 50 units outside one of the four screen edges,
    at an integer coordinate along it. *)
Definition on_edge (x y : R) : Prop :=
  exists k : Z,
    (y = -50 /\ x = IZR k /\ (0 <= k <= SCREEN_WIDTH)%Z)
    \/ (x = IZR (SCREEN_WIDTH + 50) /\ y = IZR k
        /\ (0 <= k <= SCREEN_HEIGHT)%Z)
    \/ (y = IZR (SCREEN_HEIGHT + 50) /\ x = IZR k
        /\ (0 <= k <= SCREEN_WIDTH)%Z)
    \/ (x = -50 /\ y = IZR k /\ (0 <= k <= SCREEN_HEIGHT)%Z).

(** The renderer without its jitter: the primitives as a function of the
    arguments alone. *)
Definition render (shape_type : ShapeType.t) (x y size : R) (color : Color)
    (rotation pulse_phase dimension_phase : R) : list primitive :=
  let pulse_size := size + sin pulse_phase * 3 in
  if advanced_shapes shape_type
  then advanced_shape shape_type x y pulse_size color rotation dimension_phase
  else basic_shape shape_type x y pulse_size color rotation dimension_phase.

(** The offset that [shake] draws from generator [r] when the magnitude is
    positive. *)
Definition jitter (s : GameState) (r : Random.state) : Z :=
  (- screen_shake s
   + Random.ints r (Random.drawn r)
     mod (screen_shake s - - screen_shake s + 1))%Z.

(** The attributes that the pulse charges and the shrink depend on. *)
Definition ability_view (s : GameState) : Z * Z * Z * bool * Z :=
  (pulse_uses s, last_pulse s, player_size s, is_shrunk s, shrink_end_time s).

(** A generator whose integer tape counts the draws. *)
Definition counting_tape : Random.state :=
  Random.mk (fun _ => 0) (fun n => Z.of_nat n) 0.

(** ** The main loop *)

Definition set_running (v : bool) (s : GameState) : GameState :=
  mkGameState v (game_active s) (paused s) (player_x s) (player_y s)
    (player_size s) (is_shrunk s) (last_dash s) (last_focus s) (last_pulse s)
    (last_shrink s) (focus_active s) (focus_end_time s) (shrink_end_time s)
    (pulse_uses s) (enemies s) (score s) (start_time s) (high_score s)
    (difficulty_multiplier s) (spawn_timer s) (pattern_timer s)
    (current_pattern s) (screen_shake s) (particles s) (trail_points s).

Definition set_paused (v : bool) (s : GameState) : GameState :=
  mkGameState (running s) (game_active s) v (player_x s) (player_y s)
    (player_size s) (is_shrunk s) (last_dash s) (last_focus s) (last_pulse s)
    (last_shrink s) (focus_active s) (focus_end_time s) (shrink_end_time s)
    (pulse_uses s) (enemies s) (score s) (start_time s) (high_score s)
    (difficulty_multiplier s) (spawn_timer s) (pattern_timer s)
    (current_pattern s) (screen_shake s) (particles s) (trail_points s).

(** An event of [pygame.event.get()] with the clock values read while it is
    handled: by [reset_game] (RETURN only) and by [handle_abilities]. *)
Record timed_event : Type := mkTimed {
  ev_event : event;
  ev_reset_time : Z;
  ev_time : Z
}.

(** The body of the [for event in pygame.event.get()] loop of [run], on
    the simulation attributes (the M, [-] and [+] keys only reach the music
    collaborator). *)
Definition handle_event (e : timed_event) (s : GameState) : M GameState :=
  match ev_event e with
  | QUIT => ret (set_running false s)
  | KEYDOWN k =>
      let s := match k with
               | K_ESCAPE => set_running false s
               | K_RETURN =>
                   if negb (game_active s)
                   then set_game_active true (reset_game (ev_reset_time e) s)
                   else s
               | K_p =>
                   if game_active s then set_paused (negb (paused s)) s
                   else s
               | _ => s
               end in
      if game_active s && negb (paused s)
      then handle_abilities (ev_event e) (ev_time e) s
      else ret s
  | OTHER => ret s
  end.

Fixpoint handle_events (es : list timed_event) (s : GameState)
    : M GameState :=
  match es with
  | [] => ret s
  | e :: rest => s <- handle_event e s ;; handle_events rest s
  end.

(** ** The frame *)

(** [enumerate(l)] *)
Definition enumerate {A : Type} (l : list A) : list (nat * A) :=
  combine (seq 0 (length l)) l.

(** The trail loop of [draw]: the division by [len(self.trail_points)]
    happens inside the loop, hence on a non-empty list. *)
Definition draw_trail (s : GameState) : list primitive :=
  flat_map
    (fun it : nat * (Z * Z * Z) =>
       let '(i, (tx, ty, t)) := it in
       let size := Py.int (IZR (player_size s) * 0.3
                           * (INR i / INR (length (trail_points s)))) in
       if (size >? 0)%Z then [circle BLUE (tx, ty) size 0] else [])
    (enumerate (trail_points s)).

Fixpoint draw_enemies (s : GameState) (es : list Enemy.t)
    : M (list primitive) :=
  match es with
  | [] => ret []
  | enemy :: rest =>
      ps <- draw_shape s (Enemy.shape_type enemy) (Enemy.x enemy)
              (Enemy.y enemy) (Enemy.size enemy) (Enemy.color enemy)
              (Enemy.rotation enemy) (Enemy.pulse_phase enemy)
              (Enemy.dimension_phase enemy) ;;
      qs <- draw_enemies s rest ;;
      ret (ps ++ qs)
  end.

Definition draw_particles (s : GameState) : list primitive :=
  map (fun particle =>
         circle (Particle.color particle)
           (Py.int (Particle.x particle), Py.int (Particle.y particle)) 2 0)
      (particles s).

(** The two circles of the player, drawn after everything else. *)
Definition draw_player (s : GameState) : list primitive :=
  let player_color := if is_shrunk s then CYAN else WHITE in
  let player_color := if focus_active s then YELLOW else player_color in
  [circle player_color (player_x s, player_y s) (player_size s) 0;
   circle BLACK (player_x s, player_y s) (player_size s) 2].

(** [draw]: the calls of [pygame.draw] it makes.  Filling the screen, the
    text of the menu and of [draw_ui] and the focus overlay are blits, not
    primitives. *)
Definition draw (s : GameState) : M (list primitive) :=
  if negb (game_active s) then ret []
  else
    es <- draw_enemies s (enemies s) ;;
    ret (draw_trail s ++ es ++ draw_particles s ++ draw_player s).

(** What one iteration of the loop of [run] receives: the queued events,
    the held keys, and the clock values read by [handle_input],
    [update_game_logic], [spawn_enemy] and [update_abilities]. *)
Record frame_input : Type := mkFrame {
  fr_events : list timed_event;
  fr_keys : key -> bool;
  fr_input_time : Z;
  fr_logic_time : Z;
  fr_spawn_ticks : Z;
  fr_abilities_time : Z
}.

(** One iteration of [while self.running]: the new state and the frame
    drawn. *)
Definition run_iteration (f : frame_input) (s : GameState)
    : M (GameState * list primitive) :=
  s <- handle_events (fr_events f) s ;;
  s <- (if game_active s && negb (paused s)
        then update_game_logic (fr_logic_time f) (fr_spawn_ticks f)
               (fr_abilities_time f)
               (handle_input (fr_keys f) (fr_input_time f) s)
        else ret s) ;;
  frame <- draw s ;;
  ret (s, frame).

(** The states the game can be in at the top of the loop of [run]. *)
Inductive reachable : GameState -> Prop :=
  | reach_init (loaded_high_score : R) : reachable (init loaded_high_score)
  | reach_step (f : frame_input) (s s' : GameState) (r r' : Random.state)
      (frame : list primitive) :
      reachable s ->
      running s = true ->
      run_iteration f s r = Some (s', frame, r') ->
      reachable s'.

(** ** Invariants of the loop *)

(** The pulse pool holds between 0 and 5 charges. *)
Definition charges_ok (s : GameState) : Prop := (0 <= pulse_uses s <= 5)%Z.

(** The player's size follows the shrink flag. *)
Definition size_ok (s : GameState) : Prop :=
  player_size s = if is_shrunk s then (PLAYER_SIZE / 2)%Z else PLAYER_SIZE.

(** The player's centre is at least the shrunk size (6) from every screen
    edge. *)
Definition player_on_screen (s : GameState) : Prop :=
  (PLAYER_SIZE / 2 <= player_x s <= SCREEN_WIDTH - PLAYER_SIZE / 2)%Z
  /\ (PLAYER_SIZE / 2 <= player_y s <= SCREEN_HEIGHT - PLAYER_SIZE / 2)%Z.

Definition shake_ok (s : GameState) : Prop := (0 <= screen_shake s <= 10)%Z.

Definition particles_ok (s : GameState) : Prop :=
  Forall (fun p => (1 <= Particle.life p <= 30)%Z) (particles s).

(** Every enemy kept in the list is within the 100-unit margin. *)
Definition enemies_ok (s : GameState) : Prop :=
  Forall (fun e => off_screen e = false) (enemies s).

Definition invariant (s : GameState) : Prop :=
  charges_ok s /\ size_ok s /\ player_on_screen s /\ shake_ok s
  /\ particles_ok s /\ enemies_ok s.

(** The part of [update_game_logic] after the spawn and pattern steps. *)
Definition logic_tail (abilities_time : Z) (s : GameState) : GameState :=
  let s := update_abilities abilities_time s in
  let s := update_enemies s in
  let s := check_collisions s in
  let s := set_particles (update_particles (particles s)) s in
  if (screen_shake s >? 0)%Z then set_screen_shake (screen_shake s - 1) s
  else s.

(** The enemy after the impulse of [pulse_enemies], for an enemy at a
    positive distance within range. *)
Definition pushed (px py : Z) (e : Enemy.t) : Enemy.t :=
  let dx := Enemy.x e - IZR px in
  let dy := Enemy.y e - IZR py in
  let distance := sqrt (dx * dx + dy * dy) in
  Enemy.mk (Enemy.x e) (Enemy.y e)
    (Enemy.vx e + dx / distance * (200 / distance))
    (Enemy.vy e + dy / distance * (200 / distance))
    (Enemy.shape_type e) (Enemy.size e) (Enemy.color e) (Enemy.rotation e)
    (Enemy.rotation_speed e) (Enemy.pulse_phase e) (Enemy.dimension_phase e).

(** Two enemies that differ at most in their velocity. *)
Definition same_but_velocity (e e' : Enemy.t) : Prop :=
  Enemy.x e' = Enemy.x e /\ Enemy.y e' = Enemy.y e
  /\ Enemy.shape_type e' = Enemy.shape_type e
  /\ Enemy.size e' = Enemy.size e /\ Enemy.color e' = Enemy.color e
  /\ Enemy.rotation e' = Enemy.rotation e
  /\ Enemy.rotation_speed e' = Enemy.rotation_speed e
  /\ Enemy.pulse_phase e' = Enemy.pulse_phase e
  /\ Enemy.dimension_phase e' = Enemy.dimension_phase e.

(** The distance that [pulse_enemies] computes for a player at
    [(px, py)]. *)
Definition distance_from (px py : Z) (e : Enemy.t) : R :=
  let dx := Enemy.x e - IZR px in
  let dy := Enemy.y e - IZR py in
  sqrt (dx * dx + dy * dy).

(** What the pulse does to one enemy: pushed when within range at a
    positive distance, untouched otherwise. *)
Definition pulse_effect (px py : Z) (e : Enemy.t) : Enemy.t :=
  if Py.Rltb 0 (distance_from px py e) && Py.Rltb (distance_from px py e) 150
  then pushed px py e else e.

Definition in_pulse_range (px py : Z) (e : Enemy.t) : bool :=
  Py.Rltb (distance_from px py e) 150.

(** A frame in which RETURN starts a round and P pauses it at once. *)
Definition start_and_pause : frame_input :=
  mkFrame [mkTimed (KEYDOWN K_RETURN) 1000 1000;
           mkTimed (KEYDOWN K_p) 1000 1000]
    (pressed []) 1000 1000 1000 1000.

(** The particle after [n] ticks: moved by [n] times its velocity, [n]
    ticks older. *)
Definition aged (n : nat) (p : Particle.t) : Particle.t :=
  Particle.mk (Particle.x p + INR n * Particle.vx p)
              (Particle.y p + INR n * Particle.vy p)
              (Particle.vx p) (Particle.vy p)
              (Particle.life p - Z.of_nat n) (Particle.color p).

(** The generator after some draws: the same tapes, read further on. *)
Definition same_tapes (r r' : Random.state) : Prop :=
  Random.floats r' = Random.floats r /\ Random.ints r' = Random.ints r.

(** The float tape holds values of [random.random()], within [0, 1]. *)
Definition unit_floats (r : Random.state) : Prop :=
  forall n, 0 <= Random.floats r n <= 1.

(** The patterns that [spawn_enemy] places by the edge-random rule. *)
Definition edge_pattern (p : Pattern.t) : bool :=
  match p with
  | Pattern.SPIRAL | Pattern.WAVE | Pattern.CIRCLE => false
  | _ => true
  end.

(** The pattern [spawn_enemy] uses for its optional argument. *)
Definition pattern_used (pattern : option Pattern.t) (s : GameState)
    : Pattern.t :=
  match pattern with
  | None => current_pattern s
  | Some p => p
  end.



(** The number of vertices of the regular polygons among the shapes. *)
Definition polygon_sides (shape_type : ShapeType.t) : option nat :=
  match shape_type with
  | ShapeType.TRIANGLE => Some 3%nat
  | ShapeType.PENTAGON => Some 5%nat
  | ShapeType.HEXAGON => Some 6%nat
  | ShapeType.OCTAGON => Some 8%nat
  | _ => None
  end.

(** The colour [draw] gives the player. *)
Definition player_color (s : GameState) : Color :=
  if focus_active s then YELLOW else if is_shrunk s then CYAN else WHITE.

(** * Properties *)

(** ** Python numerics *)

Lemma Rltb_true (a b : R) : Py.Rltb a b = true <-> a < b.
Proof.
  unfold Py.Rltb; destruct (Rlt_dec a b); split; intros; auto; discriminate.
Qed.

Lemma Rltb_false (a b : R) : Py.Rltb a b = false <-> ~ a < b.
Proof.
  unfold Py.Rltb; destruct (Rlt_dec a b); split; intros; auto;
    try discriminate; contradiction.
Qed.

Lemma Rleb_true (a b : R) : Py.Rleb a b = true <-> a <= b.
Proof.
  unfold Py.Rleb; destruct (Rle_dec a b); split; intros; auto; discriminate.
Qed.

Lemma int_floor (r : R) (z : Z) :
  0 <= r -> IZR z <= r < IZR z + 1 -> Py.int r = z.
Proof.
  intros Hr Hz; unfold Py.int; destruct (Rle_dec 0 r); [| contradiction].
  symmetry; apply Int_part_spec; lra.
Qed.

(** ** Pulse charges *)

Lemma update_abilities_last_pulse (now : Z) (s : GameState) :
  last_pulse (update_abilities now s) = last_pulse s.
Proof.
  unfold update_abilities.
  destruct (focus_active s && _); destruct (is_shrunk _ && _);
    cbn; destruct (_ && _); reflexivity.
Qed.

Lemma update_abilities_pulse_uses (now : Z) (s : GameState) :
  pulse_uses (update_abilities now s) =
  if ((pulse_uses s <? 5) && (now - last_pulse s >? 6000))%Z
  then (pulse_uses s + 1)%Z else pulse_uses s.
Proof.
  unfold update_abilities, PULSE_COOLDOWN.
  destruct (focus_active s && _); destruct (is_shrunk _ && _); cbn;
    destruct (Z.ltb_spec (pulse_uses s) 5); cbn;
    try reflexivity;
    destruct (now - last_pulse s >? 6000)%Z; cbn; lia.
Qed.

Lemma run_abilities_last_pulse (nows : list Z) (s : GameState) :
  last_pulse (run_abilities nows s) = last_pulse s.
Proof.
  revert s; induction nows as [| now nows IH]; intros s; [reflexivity |].
  cbn; unfold run_abilities in IH; rewrite IH.
  apply update_abilities_last_pulse.
Qed.

(** C1 (as the code has it): once more than 6000 ms have passed since the
    last pulse, every simulation tick regains one charge until the pool
    holds 5, whatever the span of those ticks; ticks at most 6000 ms after
    the last pulse regain nothing. *)
Theorem pulse_regeneration_per_tick (s : GameState) (nows : list Z) :
  (pulse_uses s <= 5)%Z ->
  (Forall (fun now => now - last_pulse s > PULSE_COOLDOWN * 2)%Z nows ->
   pulse_uses (run_abilities nows s)
   = Z.min 5 (pulse_uses s + Z.of_nat (length nows)))
  /\ (Forall (fun now => now - last_pulse s <= PULSE_COOLDOWN * 2)%Z nows ->
      pulse_uses (run_abilities nows s) = pulse_uses s).
Proof.
  unfold PULSE_COOLDOWN; intros Hcap; split; intros Hall.
  - revert s Hcap Hall; induction nows as [| now nows IH]; intros s Hcap Hall.
    + cbn; lia.
    + inversion Hall as [| ? ? Hnow Hrest]; subst.
      change (run_abilities (now :: nows) s)
        with (run_abilities nows (update_abilities now s)).
      pose proof (update_abilities_pulse_uses now s) as Hstep.
      rewrite IH.
      * rewrite Hstep.
        destruct (Z.ltb_spec (pulse_uses s) 5);
          destruct (Z.gtb_spec (now - last_pulse s) 6000); cbn [andb length];
          lia.
      * rewrite Hstep.
        destruct (Z.ltb_spec (pulse_uses s) 5);
          destruct (now - last_pulse s >? 6000)%Z; cbn [andb]; lia.
      * rewrite update_abilities_last_pulse; exact Hrest.
  - revert s Hcap Hall; induction nows as [| now nows IH]; intros s Hcap Hall.
    + reflexivity.
    + inversion Hall as [| ? ? Hnow Hrest]; subst.
      change (run_abilities (now :: nows) s)
        with (run_abilities nows (update_abilities now s)).
      pose proof (update_abilities_pulse_uses now s) as Hstep.
      assert (Hsame : pulse_uses (update_abilities now s) = pulse_uses s).
      { rewrite Hstep.
        destruct (Z.gtb_spec (now - last_pulse s) 6000); [lia |].
        rewrite andb_false_r; reflexivity. }
      rewrite IH.
      * exact Hsame.
      * lia.
      * rewrite update_abilities_last_pulse; exact Hrest.
Qed.

(** Two ticks 16 ms apart regain two charges although a single window of
    6000 ms has elapsed since the last pulse. *)
Lemma pulse_regeneration_two_in_one_window :
  let s0 := set_last_pulse 6002 (set_pulse_uses 3 (init 0)) in
  let s2 := run_abilities [12003; 12019]%Z s0 in
  let regained := (pulse_uses s2 - pulse_uses s0)%Z in
  let windows := ((12019 - last_pulse s0) / (PULSE_COOLDOWN * 2))%Z in
  regained = 2%Z /\ windows = 1%Z /\ ~ (regained <= windows)%Z.
Proof. cbn; split; [reflexivity | split; [reflexivity | lia]]. Qed.

Lemma pulse_regeneration_per_tick_witness :
  pulse_uses (run_abilities [12003; 12019]%Z
                (set_last_pulse 6002 (set_pulse_uses 3 (init 0))))
  = 5%Z.
Proof.
  apply (proj1 (pulse_regeneration_per_tick
                  (set_last_pulse 6002 (set_pulse_uses 3 (init 0)))
                  [12003; 12019]%Z ltac:(cbn; lia))).
  repeat constructor.
Defined.

(** ** Shrink *)

Lemma update_abilities_player_size (now : Z) (s : GameState) :
  player_size (update_abilities now s) =
  if is_shrunk s && (now >? shrink_end_time s)%Z
  then PLAYER_SIZE else player_size s.
Proof.
  unfold update_abilities.
  destruct (focus_active s && _); cbn;
    destruct (is_shrunk s && _); cbn; destruct (_ && _); reflexivity.
Qed.

Lemma update_abilities_is_shrunk (now : Z) (s : GameState) :
  is_shrunk (update_abilities now s) =
  is_shrunk s && negb (now >? shrink_end_time s)%Z.
Proof.
  unfold update_abilities.
  destruct (focus_active s && _); cbn;
    destruct (is_shrunk s) eqn:E; cbn;
    destruct (now >? shrink_end_time s)%Z; cbn;
    destruct (_ && _); cbn; auto.
Qed.

Lemma update_abilities_shrink_end_time (now : Z) (s : GameState) :
  shrink_end_time (update_abilities now s) = shrink_end_time s.
Proof.
  unfold update_abilities.
  destruct (focus_active s && _); destruct (is_shrunk _ && _);
    cbn; destruct (_ && _); reflexivity.
Qed.

(** While every reading is at most the end time, the shrink persists. *)
Lemma run_abilities_shrunk (nows : list Z) (s : GameState) :
  is_shrunk s = true ->
  Forall (fun now => now <= shrink_end_time s)%Z nows ->
  is_shrunk (run_abilities nows s) = true
  /\ player_size (run_abilities nows s) = player_size s
  /\ shrink_end_time (run_abilities nows s) = shrink_end_time s.
Proof.
  revert s; induction nows as [| now nows IH]; intros s Hs Hall.
  - auto.
  - inversion Hall as [| ? ? Hnow Hrest]; subst.
    change (run_abilities (now :: nows) s)
      with (run_abilities nows (update_abilities now s)).
    assert (Hgt : (now >? shrink_end_time s)%Z = false)
      by (destruct (Z.gtb_spec now (shrink_end_time s)); [lia | reflexivity]).
    destruct (IH (update_abilities now s)) as (H1 & H2 & H3).
    + rewrite update_abilities_is_shrunk, Hs, Hgt; reflexivity.
    + rewrite update_abilities_shrink_end_time; exact Hrest.
    + rewrite H1, H2, H3, update_abilities_player_size,
        update_abilities_shrink_end_time, Hs, Hgt; auto.
Qed.

(** Once reverted, ticks alone leave the size at the base size. *)
Lemma run_abilities_not_shrunk (nows : list Z) (s : GameState) :
  is_shrunk s = false ->
  player_size (run_abilities nows s) = player_size s.
Proof.
  revert s; induction nows as [| now nows IH]; intros s Hs; [reflexivity |].
  change (run_abilities (now :: nows) s)
    with (run_abilities nows (update_abilities now s)).
  rewrite IH.
  - rewrite update_abilities_player_size, Hs; reflexivity.
  - rewrite update_abilities_is_shrunk, Hs; reflexivity.
Qed.

(** C4 (as the code has it): after a successful shrink trigger at time
    [t] the player's size is exactly half the base size on every tick whose
    clock reading is at most [t + 2000] (the closed interval: the revert
    test is a strict [>]), and exactly the base size from the first tick
    whose reading exceeds [t + 2000] on. *)
Theorem shrink_window_closed (s : GameState) (t : Z) (r : Random.state) :
  is_shrunk s = false ->
  (t - last_shrink s > SHRINK_COOLDOWN)%Z ->
  exists s1,
    handle_abilities (KEYDOWN K_q) t s r = Some (s1, r)
    /\ (2 * player_size s1 = PLAYER_SIZE)%Z
    /\ (forall nows,
          Forall (fun now => now <= t + SHRINK_DURATION)%Z nows ->
          (2 * player_size (run_abilities nows s1) = PLAYER_SIZE)%Z)
    /\ (forall nows now later,
          Forall (fun now => now <= t + SHRINK_DURATION)%Z nows ->
          (now > t + SHRINK_DURATION)%Z ->
          player_size
            (run_abilities later
               (update_abilities now (run_abilities nows s1)))
          = PLAYER_SIZE).
Proof.
  intros Hs Hcd.
  assert (Hdue : (t - last_shrink s >? SHRINK_COOLDOWN)%Z = true)
    by (destruct (Z.gtb_spec (t - last_shrink s) SHRINK_COOLDOWN);
        [reflexivity | lia]).
  eexists; split.
  { unfold handle_abilities; rewrite Hs, Hdue; cbn [negb andb]; reflexivity. }
  split; [reflexivity |].
  split.
  - intros nows Hall.
    destruct (run_abilities_shrunk nows
                (set_player_size (PLAYER_SIZE / 2)
                   (set_last_shrink t
                      (set_shrink_end_time (t + SHRINK_DURATION)
                         (set_is_shrunk true s)))))
      as (_ & H2 & _); [reflexivity | exact Hall |].
    rewrite H2; reflexivity.
  - intros nows now later Hall Hnow.
    destruct (run_abilities_shrunk nows
                (set_player_size (PLAYER_SIZE / 2)
                   (set_last_shrink t
                      (set_shrink_end_time (t + SHRINK_DURATION)
                         (set_is_shrunk true s)))))
      as (H1 & _ & H3); [reflexivity | exact Hall |].
    assert (Hgt : (now >? t + SHRINK_DURATION)%Z = true)
      by (destruct (Z.gtb_spec now (t + SHRINK_DURATION));
          [reflexivity | lia]).
    rewrite run_abilities_not_shrunk.
    + rewrite update_abilities_player_size, H1, H3.
      cbn [shrink_end_time set_player_size set_last_shrink
           set_shrink_end_time set_is_shrunk].
      rewrite Hgt; reflexivity.
    + rewrite update_abilities_is_shrunk, H1, H3.
      cbn [shrink_end_time set_player_size set_last_shrink
           set_shrink_end_time set_is_shrunk].
      rewrite Hgt; reflexivity.
Qed.

(** On the tick that reads exactly [t + 2000] the player is still at half
    size, not at the base size. *)
Lemma shrink_still_active_at_end_time :
  let t := 8001%Z in
  exists s1,
    handle_abilities (KEYDOWN K_q) t (init 0) (constant_tape 0 0)
    = Some (s1, constant_tape 0 0)
    /\ player_size (update_abilities (t + 2000) s1) = 6%Z
    /\ player_size (update_abilities (t + 2000) s1) <> PLAYER_SIZE.
Proof.
  eexists; split; [reflexivity |].
  split; [reflexivity | discriminate].
Qed.

Lemma shrink_window_closed_witness :
  exists s1,
    handle_abilities (KEYDOWN K_q) 8001 (init 0) (constant_tape 0 0)
    = Some (s1, constant_tape 0 0)
    /\ (2 * player_size (run_abilities [8017; 10001]%Z s1) = PLAYER_SIZE)%Z
    /\ player_size (update_abilities 10002 (run_abilities [8017; 10001]%Z s1))
       = PLAYER_SIZE.
Proof.
  destruct (shrink_window_closed (init 0) 8001 (constant_tape 0 0))
    as (s1 & H0 & _ & H2 & H3);
    [reflexivity | unfold SHRINK_COOLDOWN; cbn; lia |].
  exists s1; split; [exact H0 | split].
  - apply H2; unfold SHRINK_DURATION; repeat constructor; lia.
  - apply (H3 [8017; 10001]%Z 10002%Z []);
      [unfold SHRINK_DURATION; repeat constructor; lia
      | unfold SHRINK_DURATION; lia].
Defined.

(** ** Pulse without charges *)

(** C7: with no charge left, the pulse key changes nothing: the state
    (enemy velocities, particles, [last_pulse], [pulse_uses], shake) and
    the random generator are returned as they were. *)
Theorem pulse_without_charges_is_noop (s : GameState) (now : Z)
    (r : Random.state) :
  pulse_uses s = 0%Z ->
  handle_abilities (KEYDOWN K_e) now s r = Some (s, r).
Proof.
  intros H; unfold handle_abilities; rewrite H; reflexivity.
Qed.

Lemma pulse_without_charges_is_noop_witness :
  handle_abilities (KEYDOWN K_e) 9000 (set_pulse_uses 0 (init 0))
    (constant_tape 0 0)
  = Some (set_pulse_uses 0 (init 0), constant_tape 0 0).
Proof.
  apply pulse_without_charges_is_noop; reflexivity.
Defined.

(** ** Collisions *)

Lemma check_collisions_loop_active (s : GameState) (es : list Enemy.t) :
  game_active s = true ->
  (game_active (check_collisions_loop s es) = false
   <-> exists e, In e es /\ collides s e = true).
Proof.
  intros Hact; induction es as [| e es IH]; cbn.
  - split; [rewrite Hact; discriminate | intros (e & [] & _)].
  - destruct (collides s e) eqn:E.
    + split; [intros _; exists e; auto |].
      intros _; unfold game_over; destruct (Py.Rltb _ _); reflexivity.
    + rewrite IH; split.
      * intros (e' & Hin & He'); exists e'; auto.
      * intros (e' & [-> | Hin] & He'); [congruence | exists e'; auto].
Qed.

(** C6: the collision test is the strict inequality
    [distance < playerRadius + 0.6 * enemySize]; an active round ends on
    the tick exactly when some enemy passes it, and an enemy at a distance
    equal to the threshold does not pass it. *)
Theorem collision_threshold_strict (s : GameState) :
  game_active s = true ->
  (forall e,
     collides s e = true
     <-> distance_to_player s e < IZR (player_size s) + 0.6 * Enemy.size e)
  /\ (game_active (check_collisions s) = false
      <-> exists e, In e (enemies s)
                    /\ distance_to_player s e
                       < IZR (player_size s) + 0.6 * Enemy.size e)
  /\ (forall e,
        distance_to_player s e = IZR (player_size s) + 0.6 * Enemy.size e ->
        collides s e = false
        /\ game_active (check_collisions (set_enemies [e] s)) = true).
Proof.
  intros Hact.
  assert (Htest : forall e,
             collides s e = true
             <-> distance_to_player s e
                 < IZR (player_size s) + 0.6 * Enemy.size e).
  { intros e; unfold collides, collision_distance.
    rewrite Rltb_true, (Rmult_comm (Enemy.size e)); reflexivity. }
  split; [exact Htest | split].
  - unfold check_collisions; rewrite check_collisions_loop_active by exact Hact.
    split; intros (e & Hin & He); exists e; split; auto; apply Htest; auto.
  - intros e Heq.
    assert (Hno : collides s e = false).
    { destruct (collides s e) eqn:E; [| reflexivity].
      apply Htest in E; lra. }
    split; [exact Hno |].
    unfold check_collisions; cbn [enemies set_enemies check_collisions_loop].
    change (collides (set_enemies [e] s) e) with (collides s e).
    rewrite Hno; exact Hact.
Qed.

Lemma collision_threshold_strict_witness :
  let e := Enemy.mk 636 400 0 0 ShapeType.CIRCLE 40 RED 0 0 0 0 in
  let s := set_enemies [e] (set_game_active true (init 0)) in
  collides s e = false /\ game_active (check_collisions s) = true.
Proof.
  intros e s.
  destruct (collision_threshold_strict s) as (_ & _ & H); [reflexivity |].
  apply (H e).
  unfold distance_to_player; cbn.
  replace ((636 - 600) * (636 - 600) + (400 - 400) * (400 - 400))
    with (36 * 36) by lra.
  unfold PLAYER_SIZE; rewrite sqrt_square; lra.
Defined.

(** ** Enemy motion *)

Lemma drift_0 (e : Enemy.t) : drift 0 e = e.
Proof.
  destruct e; unfold drift; cbn [Enemy.x Enemy.y Enemy.vx Enemy.vy
    Enemy.rotation Enemy.rotation_speed Enemy.pulse_phase
    Enemy.dimension_phase Enemy.shape_type Enemy.size Enemy.color INR].
  f_equal; ring.
Qed.

Lemma drift_S (n : nat) (e : Enemy.t) :
  move_enemy 1 (drift n e) = drift (S n) e.
Proof.
  unfold move_enemy, drift; cbn [Enemy.x Enemy.y Enemy.vx Enemy.vy
    Enemy.rotation Enemy.rotation_speed Enemy.pulse_phase
    Enemy.dimension_phase Enemy.shape_type Enemy.size Enemy.color].
  rewrite S_INR; f_equal; ring.
Qed.

Lemma update_enemies_loop_drift (n : nat) (l : list Enemy.t) :
  update_enemies_loop 1 (map (drift n) (filter (stays_on_screen n) l))
  = map (drift (S n)) (filter (stays_on_screen (S n)) l).
Proof.
  induction l as [| e l IH]; [reflexivity |].
  assert (Hs : stays_on_screen (S n) e
               = stays_on_screen n e && negb (off_screen (drift (S n) e))).
  { unfold stays_on_screen; rewrite seq_S, forallb_app; cbn [forallb].
    rewrite andb_true_r; reflexivity. }
  cbn [filter]; rewrite Hs.
  destruct (stays_on_screen n e); cbn [andb map update_enemies_loop].
  - rewrite drift_S, IH.
    destruct (off_screen (drift (S n) e)); reflexivity.
  - exact IH.
Qed.

Lemma run_enemies_focus (n : nat) (s : GameState) :
  focus_active (run_enemies n s) = focus_active s.
Proof. induction n as [| n IH]; [reflexivity | exact IH]. Qed.

Lemma off_screen_spec (e : Enemy.t) :
  off_screen e = true
  <-> Enemy.x e < -100 \/ IZR SCREEN_WIDTH + 100 < Enemy.x e
      \/ Enemy.y e < -100 \/ IZR SCREEN_HEIGHT + 100 < Enemy.y e.
Proof.
  unfold off_screen, SCREEN_WIDTH, SCREEN_HEIGHT.
  rewrite !orb_true_iff, !Rltb_true, !plus_IZR; tauto.
Qed.

Lemma update_enemies_loop_In (tf : R) (l : list Enemy.t) (e' : Enemy.t) :
  In e' (update_enemies_loop tf l)
  <-> exists e, In e l /\ e' = move_enemy tf e /\ off_screen e' = false.
Proof.
  induction l as [| a l IH]; cbn.
  - split; [intros [] | intros (e & [] & _)].
  - destruct (off_screen (move_enemy tf a)) eqn:E; cbn; rewrite IH; split.
    + intros (e & Hin & H); exists e; auto.
    + intros (e & [-> | Hin] & -> & Hoff); [congruence | exists e; auto].
    + intros [<- | (e & Hin & H)]; [exists a; auto | exists e; auto].
    + intros (e & [-> | Hin] & -> & Hoff); [auto | right; exists e; auto].
Qed.

(** C8: with focus inactive (time factor 1), after [n] ticks of
    [update_enemies] the enemies are those that stayed within the margin
    on every tick, each at its initial position plus [n] times its
    velocity, velocity unchanged; on a tick an enemy is removed exactly
    when its new position is more than 100 units outside a screen side. *)
Theorem linear_motion_and_removal (s : GameState) (n : nat) :
  focus_active s = false ->
  enemies (run_enemies n s)
  = map (drift n) (filter (stays_on_screen n) (enemies s))
  /\ (forall e,
        Enemy.x (drift n e) = Enemy.x e + INR n * Enemy.vx e
        /\ Enemy.y (drift n e) = Enemy.y e + INR n * Enemy.vy e
        /\ Enemy.vx (drift n e) = Enemy.vx e
        /\ Enemy.vy (drift n e) = Enemy.vy e)
  /\ (forall e',
        In e' (enemies (update_enemies s))
        <-> exists e,
              In e (enemies s) /\ e' = move_enemy 1 e
              /\ ~ (Enemy.x e' < -100 \/ IZR SCREEN_WIDTH + 100 < Enemy.x e'
                    \/ Enemy.y e' < -100
                    \/ IZR SCREEN_HEIGHT + 100 < Enemy.y e')).
Proof.
  intros Hf; split; [| split].
  - induction n as [| n IH].
    + cbn; induction (enemies s) as [| e l IHl]; [reflexivity |].
      cbn; rewrite drift_0; f_equal; exact IHl.
    + change (run_enemies (S n) s) with (update_enemies (run_enemies n s)).
      unfold update_enemies at 1; cbn [enemies set_enemies].
      unfold time_factor; rewrite run_enemies_focus, Hf, IH.
      apply update_enemies_loop_drift.
  - intros e; repeat split.
  - intros e'; unfold update_enemies, time_factor; rewrite Hf.
    cbn [enemies set_enemies]; rewrite update_enemies_loop_In.
    split; intros (e & Hin & Heq & Hoff); exists e; repeat split; auto.
    + rewrite <- off_screen_spec, Hoff; discriminate.
    + rewrite <- off_screen_spec in Hoff.
      destruct (off_screen e'); [exfalso; auto | reflexivity].
Qed.

Lemma linear_motion_and_removal_witness :
  let e := Enemy.mk 800 400 (-5) 0 ShapeType.CIRCLE 40 RED 0 0 0 0 in
  enemies (run_enemies 33 (set_enemies [e] (init 0)))
  = map (drift 33) (filter (stays_on_screen 33) [e]).
Proof.
  intros e.
  apply (proj1 (linear_motion_and_removal (set_enemies [e] (init 0)) 33
                  ltac:(reflexivity))).
Defined.

(** ** Player bounds *)

Lemma handle_input_player_size (keys : key -> bool) (now : Z)
    (s : GameState) :
  player_size (handle_input keys now s) = player_size s.
Proof.
  unfold handle_input.
  destruct ((keys K_LSHIFT || keys K_RSHIFT) && _);
    destruct (keys K_LEFT || keys K_a); destruct (keys K_RIGHT || keys K_d);
    destruct (keys K_UP || keys K_w); destruct (keys K_DOWN || keys K_s);
    reflexivity.
Qed.

(** C9 (as the code has it): each held direction clamps its own side
    only: after left (up) the coordinate is at least the player size,
    after right (down) at most the screen dimension minus the player size;
    a coordinate that was within [size, dimension - size] before the tick
    is within it after the tick, whatever keys are held. *)
Theorem movement_clamps_per_direction (keys : key -> bool) (now : Z)
    (s : GameState) :
  (0 <= 2 * player_size s <= SCREEN_HEIGHT)%Z ->
  let s' := handle_input keys now s in
  let size := player_size s' in
  (held_left keys = true -> size <= player_x s')%Z
  /\ (held_right keys = true -> player_x s' <= SCREEN_WIDTH - size)%Z
  /\ (held_up keys = true -> size <= player_y s')%Z
  /\ (held_down keys = true -> player_y s' <= SCREEN_HEIGHT - size)%Z
  /\ ((player_size s <= player_x s <= SCREEN_WIDTH - player_size s)%Z ->
      (size <= player_x s' <= SCREEN_WIDTH - size)%Z)
  /\ ((player_size s <= player_y s <= SCREEN_HEIGHT - player_size s)%Z ->
      (size <= player_y s' <= SCREEN_HEIGHT - size)%Z).
Proof.
  intros Hsize s' size; subst size s'.
  rewrite handle_input_player_size.
  unfold held_left, held_right, held_up, held_down, handle_input.
  unfold SCREEN_HEIGHT, SCREEN_WIDTH, DASH_SPEED, PLAYER_SPEED in *.
  destruct ((keys K_LSHIFT || keys K_RSHIFT) && _);
    destruct (keys K_LEFT || keys K_a); destruct (keys K_RIGHT || keys K_d);
    destruct (keys K_UP || keys K_w); destruct (keys K_DOWN || keys K_s);
    cbn [player_x player_y player_size set_player_x set_player_y
         set_trail_points set_screen_shake set_last_dash];
    repeat split; intros; try discriminate; lia.
Qed.

(** A play that leaves the player closer to the left edge than its size:
    shrink at 8001 ms, hold left for 119 ticks (the clamp is then at the
    shrunk size 6), let the shrink expire, then hold right for one tick. *)
Lemma right_key_leaves_player_inside_margin :
  let times := map (fun k => 8001 + 16 * Z.of_nat k)%Z (seq 1 119) in
  exists s1,
    handle_abilities (KEYDOWN K_q) 8001 (init 0) (constant_tape 0 0)
    = Some (s1, constant_tape 0 0)
    /\ let s2 := fold_left (fun s now => update_abilities now
                                           (handle_input (pressed [K_LEFT])
                                              now s))
                   times s1 in
       let s3 := update_abilities 10017 s2 in
       let s4 := handle_input (pressed [K_RIGHT]) 10033 s3 in
       held_right (pressed [K_RIGHT]) = true
       /\ player_x s4 = 11%Z /\ player_size s4 = 12%Z
       /\ ~ (player_size s4 <= player_x s4 <= SCREEN_WIDTH - player_size s4)%Z.
Proof.
  eexists; split; [reflexivity |].
  assert (Hx : player_x
                 (handle_input (pressed [K_RIGHT]) 10033
                    (update_abilities 10017
                       (fold_left
                          (fun s now => update_abilities now
                                          (handle_input (pressed [K_LEFT])
                                             now s))
                          (map (fun k => 8001 + 16 * Z.of_nat k)%Z
                               (seq 1 119))
                          (set_player_size (PLAYER_SIZE / 2)
                             (set_last_shrink 8001
                                (set_shrink_end_time (8001 + SHRINK_DURATION)
                                   (set_is_shrunk true (init 0))))))))
               = 11%Z) by (vm_compute; reflexivity).
  assert (Hp : player_size
                 (handle_input (pressed [K_RIGHT]) 10033
                    (update_abilities 10017
                       (fold_left
                          (fun s now => update_abilities now
                                          (handle_input (pressed [K_LEFT])
                                             now s))
                          (map (fun k => 8001 + 16 * Z.of_nat k)%Z
                               (seq 1 119))
                          (set_player_size (PLAYER_SIZE / 2)
                             (set_last_shrink 8001
                                (set_shrink_end_time (8001 + SHRINK_DURATION)
                                   (set_is_shrunk true (init 0))))))))
               = 12%Z) by (vm_compute; reflexivity).
  cbv zeta; rewrite Hx, Hp; repeat split; lia.
Qed.

Lemma movement_clamps_per_direction_witness :
  (player_x (handle_input (pressed [K_RIGHT]) 100 (init 0))
   <= SCREEN_WIDTH
      - player_size (handle_input (pressed [K_RIGHT]) 100 (init 0)))%Z.
Proof.
  destruct (movement_clamps_per_direction (pressed [K_RIGHT]) 100 (init 0))
    as (_ & H & _); [unfold SCREEN_HEIGHT; cbn; lia |].
  apply H; reflexivity.
Defined.

(** ** The monad *)

Lemma bind_Some {A B : Type} (m : M A) (f : A -> M B) (r r' : Random.state)
    (a : A) :
  m r = Some (a, r') -> bind m f r = f a r'.
Proof. intros H; unfold bind; rewrite H; reflexivity. Qed.

Lemma uniform_Some (a b : R) (r : Random.state) :
  uniform a b r
  = Some (a + (b - a) * Random.floats r (Random.drawn r), Random.next r).
Proof. reflexivity. Qed.

Lemma div_Some (a b : R) (r : Random.state) :
  b <> 0 -> div a b r = Some (a / b, r).
Proof.
  intros H; unfold div; destruct (Req_dec_T b 0); [contradiction | reflexivity].
Qed.

Lemma randint_Some (a b : Z) (r : Random.state) :
  (a <= b)%Z ->
  exists z, randint a b r = Some (z, Random.next r) /\ (a <= z <= b)%Z.
Proof.
  intros H; unfold randint.
  destruct (Z.ltb_spec b a); [lia |].
  eexists; split; [reflexivity |].
  pose proof (Z.mod_pos_bound (Random.ints r (Random.drawn r)) (b - a + 1)).
  lia.
Qed.

Lemma choice_Some {A : Type} (l : list A) (r : Random.state) :
  l <> [] -> exists a, choice l r = Some (a, Random.next r) /\ In a l.
Proof.
  intros Hl; unfold choice.
  set (i := (Random.ints r (Random.drawn r) mod Z.of_nat (length l))%Z).
  assert (Hi : (0 <= i < Z.of_nat (length l))%Z).
  { apply Z.mod_pos_bound; destruct l; [contradiction | cbn; lia]. }
  destruct (nth_error l (Z.to_nat i)) as [a |] eqn:E.
  - exists a; split; [reflexivity | eapply nth_error_In; eauto].
  - apply nth_error_None in E; lia.
Qed.

(** ** Pulse at distance zero *)

Section PulseLoop.

Variables px py : Z.

Lemma burst_total (n : nat) (e : Enemy.t) (r : Random.state) :
  exists ps r',
    burst n e r = Some (ps, r') /\ length ps = n /\ Forall (at_enemy e) ps.
Proof.
  revert r; induction n as [| n IH]; intros r.
  - exists [], r; repeat split; constructor.
  - destruct (IH (Random.next (Random.next r))) as (ps & r' & H & Hlen & Hall).
    cbn [burst].
    rewrite (bind_Some _ _ _ _ _ (uniform_Some _ _ _)).
    rewrite (bind_Some _ _ _ _ _ (uniform_Some _ _ _)).
    rewrite (bind_Some _ _ _ _ _ H).
    eexists; eexists; split; [reflexivity |].
    split; [cbn; congruence |].
    constructor; [repeat split | exact Hall].
Qed.

Lemma pulse_enemy_total (e : Enemy.t) (r : Random.state) :
  exists e' ps r', pulse_enemy px py e r = Some (e', ps, r').
Proof.
  unfold pulse_enemy.
  set (d := sqrt _).
  destruct (Py.Rltb d 150); [| eexists; eexists; eexists; reflexivity].
  destruct (Py.Rltb 0 d) eqn:E.
  - apply Rltb_true in E.
    assert (Hd : d <> 0) by lra.
    unfold bind at 1; unfold bind at 1.
    rewrite (div_Some _ _ _ Hd).
    unfold bind at 1; rewrite (div_Some _ _ _ Hd).
    unfold bind at 1; rewrite (div_Some _ _ _ Hd).
    unfold ret at 1.
    match goal with
    | |- context [burst 5 ?e'] =>
        destruct (burst_total 5 e' r) as (ps & r' & H & _)
    end.
    rewrite (bind_Some _ _ _ _ _ H).
    eexists; eexists; eexists; reflexivity.
  - destruct (burst_total 5 e r) as (ps & r' & H & _).
    unfold bind at 1; unfold ret at 1.
    rewrite (bind_Some _ _ _ _ _ H).
    eexists; eexists; eexists; reflexivity.
Qed.

Lemma pulse_enemy_at_player (e : Enemy.t) (r : Random.state) :
  Enemy.x e = IZR px -> Enemy.y e = IZR py ->
  exists five r',
    pulse_enemy px py e r = Some (e, five, r')
    /\ length five = 5%nat /\ Forall (at_enemy e) five.
Proof.
  intros Hx Hy; unfold pulse_enemy; rewrite Hx, Hy.
  replace ((IZR px - IZR px) * (IZR px - IZR px)
           + (IZR py - IZR py) * (IZR py - IZR py)) with 0 by ring.
  rewrite sqrt_0.
  assert (H1 : Py.Rltb 0 150 = true) by (apply Rltb_true; lra).
  assert (H2 : Py.Rltb 0 0 = false) by (apply Rltb_false; lra).
  rewrite H1, H2.
  destruct (burst_total 5 e r) as (ps & r' & H & Hlen & Hall).
  unfold bind at 1; unfold ret at 1.
  rewrite (bind_Some _ _ _ _ _ H).
  exists ps, r'; auto.
Qed.

Lemma pulse_loop_total (es : list Enemy.t) (r : Random.state) :
  exists es' ps r',
    pulse_loop px py es r = Some (es', ps, r') /\ length es' = length es.
Proof.
  revert r; induction es as [| e es IH]; intros r.
  - exists [], [], r; auto.
  - destruct (pulse_enemy_total e r) as (e' & ps & r1 & He).
    destruct (IH r1) as (es' & ps' & r2 & Hes & Hlen).
    cbn [pulse_loop].
    rewrite (bind_Some _ _ _ _ _ He), (bind_Some _ _ _ _ _ Hes).
    eexists; eexists; eexists; split; [reflexivity | cbn; congruence].
Qed.

Lemma pulse_loop_split (before after : list Enemy.t)
    (e e' : Enemy.t) (before' after' : list Enemy.t)
    (ps1 pe ps2 : list Particle.t) (r r1 r2 r3 : Random.state) :
  pulse_loop px py before r = Some (before', ps1, r1) ->
  pulse_enemy px py e r1 = Some (e', pe, r2) ->
  pulse_loop px py after r2 = Some (after', ps2, r3) ->
  pulse_loop px py (before ++ e :: after) r
  = Some (before' ++ e' :: after', ps1 ++ pe ++ ps2, r3).
Proof.
  revert r before' ps1; induction before as [| b before IH];
    intros r before' ps1 Hb He Ha.
  - cbn in Hb; injection Hb as <- <- <-.
    cbn [app pulse_loop].
    rewrite (bind_Some _ _ _ _ _ He), (bind_Some _ _ _ _ _ Ha); reflexivity.
  - cbn [app pulse_loop] in *.
    destruct (pulse_enemy_total b r) as (b' & pb & rb & Hpb).
    rewrite (bind_Some _ _ _ _ _ Hpb) in Hb.
    rewrite (bind_Some _ _ _ _ _ Hpb).
    destruct (pulse_loop_total before rb) as (l & pl & rl & Hl & _).
    rewrite (bind_Some _ _ _ _ _ Hl) in Hb.
    injection Hb as <- <- <-.
    rewrite (bind_Some _ _ _ _ _ (IH _ _ _ Hl He Ha)).
    unfold ret; rewrite <- app_assoc; reflexivity.
Qed.

End PulseLoop.

(** C10: when the pulse fires with an enemy exactly at the player's
    position, [pulse_enemies] raises no error, that enemy comes out
    unchanged (its velocity in particular), and five particles are
    appended at its position, since distance 0 is within the range. *)
Theorem pulse_at_distance_zero (s : GameState) (r : Random.state)
    (before after : list Enemy.t) (e : Enemy.t) :
  enemies s = before ++ e :: after ->
  Enemy.x e = IZR (player_x s) ->
  Enemy.y e = IZR (player_y s) ->
  distance_to_player s e = 0
  /\ exists s' r' before' after' ps1 five ps2 r1 r2,
       pulse_enemies s r = Some (s', r')
       /\ pulse_loop (player_x s) (player_y s) before r
          = Some (before', ps1, r1)
       /\ pulse_loop (player_x s) (player_y s) after r2
          = Some (after', ps2, r')
       /\ enemies s' = before' ++ e :: after'
       /\ length before' = length before
       /\ particles s' = particles s ++ ps1 ++ five ++ ps2
       /\ length five = 5%nat
       /\ Forall (at_enemy e) five.
Proof.
  intros Hes Hx Hy; split.
  - unfold distance_to_player; rewrite Hx, Hy.
    replace (_ + _) with 0 by ring; apply sqrt_0.
  - destruct (pulse_loop_total (player_x s) (player_y s) before r)
      as (before' & ps1 & r1 & Hb & Hlen).
    destruct (pulse_enemy_at_player _ _ e r1 Hx Hy)
      as (five & r2 & He & Hfive & Hall).
    destruct (pulse_loop_total (player_x s) (player_y s) after r2)
      as (after' & ps2 & r' & Ha & _).
    pose proof (pulse_loop_split _ _ _ _ _ _ _ _ _ _ _ _ _ _ _ Hb He Ha) as H.
    eexists; exists r', before', after', ps1, five, ps2, r1, r2.
    split.
    { unfold pulse_enemies; rewrite Hes, (bind_Some _ _ _ _ _ H).
      reflexivity. }
    repeat split; auto.
Qed.

Lemma pulse_at_distance_zero_witness :
  let e := Enemy.mk 600 400 3 (-2) ShapeType.STAR 20 RED 0 0 0 0 in
  let s := set_enemies [e] (init 0) in
  exists s' r' five,
    pulse_enemies s (constant_tape 0 0) = Some (s', r')
    /\ enemies s' = [e]
    /\ particles s' = five
    /\ length five = 5%nat
    /\ Forall (at_enemy e) five.
Proof.
  intros e s.
  destruct (pulse_at_distance_zero s (constant_tape 0 0) [] [] e)
    as (_ & s' & r' & b' & a' & ps1 & five & ps2 & r1 & r2
        & H & Hb & Ha & He & Hlen & Hp & Hfive & Hall);
    [reflexivity | reflexivity | reflexivity |].
  cbn in Hb; injection Hb as <- <- <-.
  cbn in Ha; injection Ha as <- <- <-.
  exists s', r2, five; rewrite app_nil_r in Hp; auto.
Defined.

(** ** Spawn positions *)

Lemma edge_position_spec (r : Random.state) :
  exists x y r', edge_position r = Some (x, y, r') /\ on_edge x y.
Proof.
  unfold edge_position.
  destruct (randint_Some 0 3 r ltac:(lia)) as (side & Hside & _).
  rewrite (bind_Some _ _ _ _ _ Hside).
  destruct (randint_Some 0 SCREEN_WIDTH (Random.next r)
              ltac:(unfold SCREEN_WIDTH; lia)) as (kx & Hkx & Hx).
  destruct (randint_Some 0 SCREEN_HEIGHT (Random.next r)
              ltac:(unfold SCREEN_HEIGHT; lia)) as (ky & Hky & Hy).
  destruct (side =? 0)%Z; [| destruct (side =? 1)%Z;
                              [| destruct (side =? 2)%Z]].
  - rewrite (bind_Some _ _ _ _ _ Hkx).
    eexists; eexists; eexists; split; [reflexivity |].
    exists kx; left; auto.
  - rewrite (bind_Some _ _ _ _ _ Hky).
    eexists; eexists; eexists; split; [reflexivity |].
    exists ky; right; left; auto.
  - rewrite (bind_Some _ _ _ _ _ Hkx).
    eexists; eexists; eexists; split; [reflexivity |].
    exists kx; right; right; left; auto.
  - rewrite (bind_Some _ _ _ _ _ Hky).
    eexists; eexists; eexists; split; [reflexivity |].
    exists ky; right; right; right; auto.
Qed.

Lemma no_integer_square_47500 (k : Z) :
  ((k - 600) * (k - 600) + 450 * 450 <> 500 * 500)%Z.
Proof.
  intros H.
  assert (k - 600 <= 217 \/ 218 <= k - 600)%Z as [Hle | Hge] by lia.
  - assert (-217 <= k - 600 \/ k - 600 <= -218)%Z as [H1 | H1] by lia; nia.
  - nia.
Qed.

Lemma edge_not_on_ring (x y : R) : on_edge x y -> ~ on_ring x y.
Proof.
  unfold on_edge, on_ring, SCREEN_WIDTH, SCREEN_HEIGHT.
  change (1200 / 2)%Z with 600%Z; change (800 / 2)%Z with 400%Z.
  change (1200 + 50)%Z with 1250%Z; change (800 + 50)%Z with 850%Z.
  intros (k & [(-> & -> & Hk) | [(-> & -> & Hk) | [(-> & -> & Hk)
                                                  | (-> & -> & Hk)]]]) H.
  - apply (no_integer_square_47500 k), eq_IZR.
    rewrite plus_IZR, !mult_IZR, minus_IZR; lra.
  - assert (0 <= (IZR k - 400) * (IZR k - 400)) by nra; lra.
  - apply (no_integer_square_47500 k), eq_IZR.
    rewrite plus_IZR, !mult_IZR, minus_IZR; lra.
  - assert (0 <= (IZR k - 400) * (IZR k - 400)) by nra; lra.
Qed.

Lemma spawn_position_total (p : Pattern.t) (ticks : Z) (r : Random.state) :
  exists x y r', spawn_position p ticks r = Some (x, y, r').
Proof.
  destruct (edge_position_spec r) as (x & y & r' & H & _).
  destruct p; cbn [spawn_position];
    try (exists x, y, r'; exact H);
    try (eexists; eexists; eexists; reflexivity).
  destruct (choice_Some [0%Z; SCREEN_WIDTH] r ltac:(discriminate))
    as (a & Ha & _).
  rewrite (bind_Some _ _ _ _ _ Ha).
  eexists; eexists; eexists; reflexivity.
Qed.

(** [spawn_enemy] never raises; the enemy it appends has the drawn shape
    and the position given by the pattern. *)
Lemma spawn_enemy_spec (pattern : option Pattern.t) (ticks : Z)
    (s : GameState) (r r1 r2 : Random.state) (sh : ShapeType.t) (x y : R) :
  choice ShapeType.all r = Some (sh, r1) ->
  spawn_position (match pattern with
                  | None => current_pattern s
                  | Some p => p
                  end) ticks r1 = Some (x, y, r2) ->
  exists e r',
    spawn_enemy pattern ticks s r
    = Some (set_enemies (enemies s ++ [e]) s, r')
    /\ Enemy.x e = x /\ Enemy.y e = y /\ Enemy.shape_type e = sh.
Proof.
  intros Hsh Hpos; unfold spawn_enemy.
  rewrite (bind_Some _ _ _ _ _ Hsh), (bind_Some _ _ _ _ _ Hpos).
  set (d := sqrt _).
  destruct (Py.Rltb 0 d) eqn:E.
  - apply Rltb_true in E.
    assert (Hd : d <> 0) by lra.
    unfold bind at 1; unfold bind at 1.
    rewrite uniform_Some.
    unfold bind at 1; rewrite (div_Some _ _ _ Hd).
    unfold bind at 1; rewrite uniform_Some.
    unfold bind at 1; rewrite (div_Some _ _ _ Hd).
    unfold bind at 1; rewrite uniform_Some.
    unfold ret at 1.
    unfold bind at 1; rewrite uniform_Some.
    match goal with
    | |- context [bind (choice palette) _ ?r0] =>
        destruct (choice_Some palette r0 ltac:(discriminate)) as (c & Hc & _)
    end.
    rewrite (bind_Some _ _ _ _ _ Hc).
    repeat (unfold bind at 1; rewrite uniform_Some).
    eexists; eexists; split; [reflexivity | auto].
  - unfold bind at 1; unfold bind at 1.
    rewrite uniform_Some.
    unfold bind at 1; rewrite uniform_Some.
    unfold ret at 1.
    unfold bind at 1; rewrite uniform_Some.
    match goal with
    | |- context [bind (choice palette) _ ?r0] =>
        destruct (choice_Some palette r0 ltac:(discriminate)) as (c & Hc & _)
    end.
    rewrite (bind_Some _ _ _ _ _ Hc).
    repeat (unfold bind at 1; rewrite uniform_Some).
    eexists; eexists; split; [reflexivity | auto].
Qed.

Lemma spawn_enemy_total (pattern : option Pattern.t) (ticks : Z)
    (s : GameState) (r : Random.state) :
  exists e r',
    spawn_enemy pattern ticks s r
    = Some (set_enemies (enemies s ++ [e]) s, r').
Proof.
  destruct (choice_Some ShapeType.all r ltac:(discriminate))
    as (sh & Hsh & _).
  destruct (spawn_position_total
              (match pattern with
               | None => current_pattern s
               | Some p => p
               end) ticks (Random.next r)) as (x & y & r2 & Hpos).
  destruct (spawn_enemy_spec pattern ticks s _ _ _ _ _ _ Hsh Hpos)
    as (e & r' & H & _).
  exists e, r'; exact H.
Qed.

(** C2 (as the code has it): CIRCLE places the new enemy on the ring of
    radius 500 around (600, 400); ORBIT has no branch of its own and is
    placed by the edge-random rule, exactly as RANDOM is, which never
    meets that ring. *)
Theorem orbit_spawns_by_edge_rule (ticks : Z) (s : GameState)
    (r : Random.state) :
  spawn_enemy (Some Pattern.ORBIT) ticks s r
  = spawn_enemy (Some Pattern.RANDOM) ticks s r
  /\ (exists e r',
        spawn_enemy (Some Pattern.ORBIT) ticks s r
        = Some (set_enemies (enemies s ++ [e]) s, r')
        /\ on_edge (Enemy.x e) (Enemy.y e)
        /\ ~ on_ring (Enemy.x e) (Enemy.y e))
  /\ (exists e r',
        spawn_enemy (Some Pattern.CIRCLE) ticks s r
        = Some (set_enemies (enemies s ++ [e]) s, r')
        /\ on_ring (Enemy.x e) (Enemy.y e)).
Proof.
  destruct (choice_Some ShapeType.all r ltac:(discriminate))
    as (sh & Hsh & _).
  split; [reflexivity | split].
  - destruct (edge_position_spec (Random.next r)) as (x & y & r2 & Hpos & He).
    destruct (spawn_enemy_spec (Some Pattern.ORBIT) ticks s _ _ _ _ _ _
                Hsh Hpos) as (e & r' & H & Hx & Hy & _).
    exists e, r'; rewrite Hx, Hy; split; [exact H | split; [exact He |]].
    apply edge_not_on_ring; exact He.
  - destruct (spawn_enemy_spec (Some Pattern.CIRCLE) ticks s _ _ _ _ _ _
                Hsh (eq_refl _)) as (e & r' & H & Hx & Hy & _).
    exists e, r'; rewrite Hx, Hy; split; [exact H |].
    unfold on_ring.
    match goal with
    | |- context [cos ?a] => pose proof (sin2_cos2 a) as Hsc
    end.
    unfold Rsqr in Hsc; nra.
Qed.

(** With the pattern ORBIT the spawned enemy is at (0, -50) here: on the
    top edge rule, 750 units from the screen centre. *)
Lemma orbit_spawn_off_ring :
  exists e r',
    spawn_enemy (Some Pattern.ORBIT) 0 (init 0) (constant_tape 0 0)
    = Some (set_enemies [e] (init 0), r')
    /\ Enemy.x e = 0 /\ Enemy.y e = -50
    /\ ~ on_ring (Enemy.x e) (Enemy.y e).
Proof.
  destruct (spawn_enemy_spec (Some Pattern.ORBIT) 0 (init 0)
              (constant_tape 0 0) _ _ ShapeType.CIRCLE 0 (-50)
              (eq_refl _) (eq_refl _)) as (e & r' & H & Hx & Hy & _).
  exists e, r'; rewrite Hx, Hy; repeat split; [exact H |].
  unfold on_ring, SCREEN_WIDTH, SCREEN_HEIGHT.
  change (1200 / 2)%Z with 600%Z; change (800 / 2)%Z with 400%Z.
  lra.
Qed.

(** ** Spawn interval *)

Lemma int_tenths (d : Z) :
  (0 <= d)%Z -> Py.int (IZR d / 1000 * 10) = (d / 100)%Z.
Proof.
  intros Hd.
  pose proof (Z.div_mod d 100 ltac:(lia)) as Hdm.
  pose proof (Z.mod_pos_bound d 100 ltac:(lia)) as Hm.
  assert (HR : IZR d = 100 * IZR (d / 100) + IZR (d mod 100))
    by (rewrite Hdm at 1; rewrite plus_IZR, mult_IZR; reflexivity).
  assert (H0 : 0 <= IZR (d mod 100)) by (apply IZR_le; lia).
  assert (H1 : IZR (d mod 100) < 100) by (apply IZR_lt; lia).
  assert (H2 : 0 <= IZR d) by (apply IZR_le; lia).
  apply int_floor; lra.
Qed.

Lemma update_abilities_spawn_timer (now : Z) (s : GameState) :
  spawn_timer (update_abilities now s) = spawn_timer s.
Proof.
  unfold update_abilities.
  destruct (focus_active s && _); destruct (is_shrunk _ && _);
    cbn; destruct (_ && _); reflexivity.
Qed.

Lemma check_collisions_loop_spawn_timer (s : GameState) (es : list Enemy.t) :
  spawn_timer (check_collisions_loop s es) = spawn_timer s.
Proof.
  induction es as [| e es IH]; [reflexivity |].
  cbn; destruct (collides s e); [| exact IH].
  unfold game_over; destruct (Py.Rltb _ _); reflexivity.
Qed.

(** The tail of [update_game_logic] after the spawn and pattern steps
    leaves the spawn timer alone. *)
Lemma logic_tail_spawn_timer (now : Z) (s : GameState) :
  let s1 := check_collisions (update_enemies (update_abilities now s)) in
  let s2 := set_particles (update_particles (particles s1)) s1 in
  spawn_timer (if (screen_shake s2 >? 0)%Z
               then set_screen_shake (screen_shake s2 - 1) s2 else s2)
  = spawn_timer s.
Proof.
  cbv zeta.
  match goal with |- context [if ?c then _ else _] => destruct c end;
    cbn [spawn_timer set_screen_shake set_particles];
    unfold check_collisions; rewrite check_collisions_loop_spawn_timer;
    unfold update_enemies; cbn [spawn_timer set_enemies];
    apply update_abilities_spawn_timer.
Qed.

Lemma spawn_step_total (due : bool) (now ticks : Z) (s : GameState)
    (r : Random.state) :
  exists e r',
    (if due then
       s <- spawn_enemy None ticks s ;; ret (set_spawn_timer now s)
     else ret s) r
    = Some (if due
            then set_spawn_timer now (set_enemies (enemies s ++ [e]) s)
            else s, r').
Proof.
  destruct (spawn_enemy_total None ticks s r) as (e & r1 & Hsp).
  destruct due.
  - rewrite (bind_Some _ _ _ _ _ Hsp); exists e, r1; reflexivity.
  - exists e, r; reflexivity.
Qed.

Lemma pattern_step_total (now : Z) (s : GameState) (r : Random.state) :
  exists p r',
    (if (now - pattern_timer s >? 10000)%Z then
       p <- choice Pattern.all ;;
       ret (set_pattern_timer now (set_current_pattern p s))
     else ret s) r
    = Some (if (now - pattern_timer s >? 10000)%Z
            then set_pattern_timer now (set_current_pattern p s)
            else s, r').
Proof.
  destruct (choice_Some Pattern.all r ltac:(discriminate)) as (p & Hp & _).
  destruct (now - pattern_timer s >? 10000)%Z.
  - rewrite (bind_Some _ _ _ _ _ Hp); exists p, (Random.next r); reflexivity.
  - exists p, r; reflexivity.
Qed.

(** C5 (as the code has it): on an active tick the score is
    [(now - start) / 1000] and the spawn interval is
    [max(200, 1000 - int(10 * score))], the product truncated to an
    integer: in milliseconds, [max(200, 1000 - (now - start) div 100)].  It
    is never below [max(200, 1000 - 10 * score)] and exceeds it by less
    than 1.  A spawn resets the spawn timer exactly when more than that
    interval has passed since the timer. *)
Theorem spawn_interval_truncates (current_time spawn_ticks abilities_time : Z)
    (s : GameState) (r : Random.state) :
  game_active s = true ->
  (start_time s <= current_time)%Z ->
  let sc := IZR (current_time - start_time s) / 1000 in
  let rate := Z.max 200 (1000 - (current_time - start_time s) / 100) in
  spawn_rate sc = rate
  /\ Rmax 200 (1000 - 10 * sc) <= IZR rate < Rmax 200 (1000 - 10 * sc) + 1
  /\ exists s' r',
       update_game_logic current_time spawn_ticks abilities_time s r
       = Some (s', r')
       /\ spawn_timer s'
          = if (current_time - spawn_timer s >? rate)%Z
            then current_time else spawn_timer s.
Proof.
  intros Hact Hstart sc rate.
  assert (Hrate : spawn_rate sc = rate).
  { unfold spawn_rate, sc, rate; rewrite int_tenths by lia; reflexivity. }
  split; [exact Hrate | split].
  - unfold rate, sc.
    set (d := (current_time - start_time s)%Z).
    pose proof (Z.div_mod d 100 ltac:(lia)) as Hdm.
    pose proof (Z.mod_pos_bound d 100 ltac:(lia)) as Hm.
    assert (HR : IZR d = 100 * IZR (d / 100) + IZR (d mod 100))
      by (rewrite Hdm at 1; rewrite plus_IZR, mult_IZR; reflexivity).
    assert (H0 : 0 <= IZR (d mod 100)) by (apply IZR_le; lia).
    assert (H1 : IZR (d mod 100) < 100) by (apply IZR_lt; lia).
    destruct (Z.max_spec 200 (1000 - d / 100)) as [[Hlt ->] | [Hle ->]].
    + apply IZR_lt in Hlt; rewrite minus_IZR in *.
      unfold Rmax; destruct (Rle_dec _ _); lra.
    + apply IZR_le in Hle; rewrite minus_IZR in Hle.
      unfold Rmax; destruct (Rle_dec _ _); lra.
  - unfold update_game_logic; rewrite Hact; cbn [negb].
    cbn [score start_time spawn_timer set_score set_difficulty_multiplier].
    fold sc; rewrite Hrate.
    set (s0 := set_difficulty_multiplier _ _).
    destruct (spawn_step_total (current_time - spawn_timer s >? rate)%Z
                current_time spawn_ticks s0 r) as (e & rA & HA).
    rewrite (bind_Some _ _ _ _ _ HA).
    match type of HA with
    | _ = Some (?sA, _) =>
        destruct (pattern_step_total current_time sA rA) as (p & rB & HB)
    end.
    rewrite (bind_Some _ _ _ _ _ HB).
    unfold ret; eexists; eexists; split; [reflexivity |].
    rewrite logic_tail_spawn_timer.
    destruct (_ >? 10000)%Z; destruct (_ >? rate)%Z; reflexivity.
Qed.

(** At a score of 1.05 s the interval is 990 ms, not 989.5 ms. *)
Lemma spawn_interval_not_exact :
  let score := IZR 1050 / 1000 in
  spawn_rate score = 990%Z
  /\ IZR (spawn_rate score) <> Rmax 200 (1000 - 10 * score).
Proof.
  assert (H : spawn_rate (IZR 1050 / 1000) = 990%Z).
  { unfold spawn_rate; rewrite int_tenths by lia; reflexivity. }
  cbv zeta; rewrite H; split; [reflexivity |].
  unfold Rmax; destruct (Rle_dec _ _); lra.
Qed.

Lemma spawn_interval_truncates_witness :
  spawn_rate (IZR (1050 - start_time (set_game_active true (init 0))) / 1000)
  = Z.max 200
      (1000 - (1050 - start_time (set_game_active true (init 0))) / 100).
Proof.
  apply (spawn_interval_truncates 1050 1050 1050
           (set_game_active true (init 0)) (constant_tape 0 0));
    [reflexivity | cbn; lia].
Defined.

(** ** What a tick does to the ability state *)

(** Within a simulation tick only [update_abilities] touches the pulse
    charges and the shrink, so the runs of [update_abilities] above are
    the runs of ticks as far as these attributes go. *)

Lemma update_abilities_view (now : Z) (s1 s2 : GameState) :
  ability_view s1 = ability_view s2 ->
  ability_view (update_abilities now s1)
  = ability_view (update_abilities now s2).
Proof.
  unfold ability_view; intros H; injection H as Hu Hl Hp Hi He.
  rewrite !update_abilities_pulse_uses, !update_abilities_last_pulse,
    !update_abilities_player_size, !update_abilities_is_shrunk,
    !update_abilities_shrink_end_time, Hu, Hl, Hp, Hi, He.
  reflexivity.
Qed.

Lemma check_collisions_view (s : GameState) :
  ability_view (check_collisions s) = ability_view s.
Proof.
  unfold check_collisions; induction (enemies s) as [| e es IH];
    [reflexivity |].
  cbn; destruct (collides s e); [| exact IH].
  unfold game_over; destruct (Py.Rltb _ _); reflexivity.
Qed.

Lemma handle_input_view (keys : key -> bool) (now : Z) (s : GameState) :
  ability_view (handle_input keys now s) = ability_view s.
Proof.
  unfold handle_input.
  destruct ((keys K_LSHIFT || keys K_RSHIFT) && _);
    destruct (keys K_LEFT || keys K_a); destruct (keys K_RIGHT || keys K_d);
    destruct (keys K_UP || keys K_w); destruct (keys K_DOWN || keys K_s);
    reflexivity.
Qed.

Lemma update_game_logic_view (current_time spawn_ticks abilities_time : Z)
    (s : GameState) (r : Random.state) :
  game_active s = true ->
  exists s' r',
    update_game_logic current_time spawn_ticks abilities_time s r
    = Some (s', r')
    /\ ability_view s' = ability_view (update_abilities abilities_time s).
Proof.
  intros Hact; unfold update_game_logic; rewrite Hact; cbn [negb].
  set (s0 := set_difficulty_multiplier _ _).
  destruct (spawn_step_total
              (current_time - spawn_timer s0 >? spawn_rate (score s0))%Z
              current_time spawn_ticks s0 r) as (e & rA & HA).
  rewrite (bind_Some _ _ _ _ _ HA).
  match type of HA with
  | _ = Some (?sA, _) =>
      destruct (pattern_step_total current_time sA rA) as (p & rB & HB);
      assert (HvA : ability_view sA = ability_view s)
        by (destruct (_ >? _)%Z; reflexivity)
  end.
  rewrite (bind_Some _ _ _ _ _ HB).
  match type of HB with
  | _ = Some (?sB, _) =>
      assert (HvB : ability_view sB = ability_view s)
        by (rewrite <- HvA; destruct (_ >? 10000)%Z; reflexivity)
  end.
  unfold ret; eexists; eexists; split; [reflexivity |].
  rewrite <- (update_abilities_view abilities_time _ _ HvB).
  match goal with
  | |- ability_view (if ?c then _ else _) = ability_view ?u =>
      transitivity (ability_view (check_collisions (update_enemies u)));
        [destruct c; reflexivity
        | rewrite check_collisions_view; reflexivity]
  end.
Qed.

(** ** Shape renderer *)

Lemma shake_still (s : GameState) (r : Random.state) :
  (screen_shake s <= 0)%Z -> shake s r = Some (0%Z, r).
Proof.
  intros H; unfold shake.
  destruct (Z.gtb_spec (screen_shake s) 0); [lia | reflexivity].
Qed.

Lemma shake_shaking (s : GameState) (r : Random.state) :
  (0 < screen_shake s)%Z ->
  shake s r = Some (jitter s r, Random.next r)
  /\ (- screen_shake s <= jitter s r <= screen_shake s)%Z.
Proof.
  intros H; unfold shake, randint, jitter.
  destruct (Z.gtb_spec (screen_shake s) 0); [| lia].
  destruct (Z.ltb_spec (screen_shake s) (- screen_shake s)); [lia |].
  split; [reflexivity |].
  pose proof (Z.mod_pos_bound (Random.ints r (Random.drawn r))
                (screen_shake s - - screen_shake s + 1)).
  lia.
Qed.

Lemma draw_shape_still (s : GameState) (r : Random.state)
    (shape_type : ShapeType.t) (x y size : R) (color : Color)
    (rotation pulse_phase dimension_phase : R) :
  (screen_shake s <= 0)%Z ->
  draw_shape s shape_type x y size color rotation pulse_phase dimension_phase r
  = Some (render shape_type x y size color rotation pulse_phase
            dimension_phase, r).
Proof.
  intros H.
  unfold draw_shape, render, draw_advanced_shapes, original_draw_shape.
  destruct (advanced_shapes shape_type);
    rewrite (bind_Some _ _ _ _ _ (shake_still s r H));
    rewrite (bind_Some _ _ _ _ _ (shake_still s r H));
    unfold ret; rewrite !Rplus_0_r; reflexivity.
Qed.

Lemma draw_shape_shaking (s : GameState) (r : Random.state)
    (shape_type : ShapeType.t) (x y size : R) (color : Color)
    (rotation pulse_phase dimension_phase : R) :
  (0 < screen_shake s)%Z ->
  draw_shape s shape_type x y size color rotation pulse_phase dimension_phase r
  = Some (render shape_type
            (x + IZR (jitter s r)) (y + IZR (jitter s (Random.next r)))
            size color rotation pulse_phase dimension_phase,
          Random.next (Random.next r)).
Proof.
  intros H.
  unfold draw_shape, render, draw_advanced_shapes, original_draw_shape.
  destruct (advanced_shapes shape_type);
    rewrite (bind_Some _ _ _ _ _ (proj1 (shake_shaking s r H)));
    rewrite (bind_Some _ _ _ _ _ (proj1 (shake_shaking s (Random.next r) H)));
    reflexivity.
Qed.

(** C3 (as the code has it): with no screen shake, [draw_shape] returns
    the same primitives for the same arguments whatever the game state and
    the random generator, and draws nothing from the generator; with a
    positive shake it draws two offsets within the shake magnitude and
    renders the shape displaced by them. *)
Theorem draw_shape_deterministic_without_shake (s1 s2 : GameState)
    (r1 r2 : Random.state) (shape_type : ShapeType.t) (x y size : R)
    (color : Color) (rotation pulse_phase dimension_phase : R) :
  ((screen_shake s1 <= 0)%Z -> (screen_shake s2 <= 0)%Z ->
   exists prims,
     draw_shape s1 shape_type x y size color rotation pulse_phase
       dimension_phase r1 = Some (prims, r1)
     /\ draw_shape s2 shape_type x y size color rotation pulse_phase
          dimension_phase r2 = Some (prims, r2)
     /\ prims = render shape_type x y size color rotation pulse_phase
                  dimension_phase)
  /\ ((0 < screen_shake s1)%Z ->
      exists dx dy,
        (- screen_shake s1 <= dx <= screen_shake s1)%Z
        /\ (- screen_shake s1 <= dy <= screen_shake s1)%Z
        /\ draw_shape s1 shape_type x y size color rotation pulse_phase
             dimension_phase r1
           = Some (render shape_type (x + IZR dx) (y + IZR dy) size color
                     rotation pulse_phase dimension_phase,
                   Random.next (Random.next r1))).
Proof.
  split.
  - intros H1 H2; eexists; split; [| split; [| reflexivity]];
      apply draw_shape_still; assumption.
  - intros H.
    exists (jitter s1 r1), (jitter s1 (Random.next r1)).
    split; [apply shake_shaking; exact H |].
    split; [apply shake_shaking; exact H |].
    apply draw_shape_shaking; exact H.
Qed.

(** Two successive calls with the same arguments while the screen
    shakes: the second square lands two pixels from the first. *)
Lemma draw_shape_differs_under_shake :
  let s := set_screen_shake 5 (init 0) in
  exists p1 p2 r1 r2,
    draw_shape s ShapeType.SQUARE 100 100 20 WHITE 0 0 0 counting_tape
    = Some (p1, r1)
    /\ draw_shape s ShapeType.SQUARE 100 100 20 WHITE 0 0 0 r1
       = Some (p2, r2)
    /\ p1 <> p2.
Proof.
  intros s.
  eexists; eexists; eexists; eexists; split; [| split].
  - apply draw_shape_shaking; reflexivity.
  - apply draw_shape_shaking; reflexivity.
  - unfold render; cbn [advanced_shapes basic_shape].
    change (jitter s counting_tape) with (-5)%Z.
    change (jitter s (Random.next (Random.next counting_tape))) with (-3)%Z.
    intros H; injection H as H _; lra.
Qed.

Lemma draw_shape_deterministic_without_shake_witness :
  exists prims,
    draw_shape (init 0) ShapeType.STAR 100 100 20 WHITE 0 0 0
      (constant_tape 0 0) = Some (prims, constant_tape 0 0)
    /\ draw_shape (set_pulse_uses 2 (init 7)) ShapeType.STAR 100 100 20 WHITE
         0 0 0 counting_tape = Some (prims, counting_tape)
    /\ prims = render ShapeType.STAR 100 100 20 WHITE 0 0 0.
Proof.
  apply (proj1 (draw_shape_deterministic_without_shake
                  (init 0) (set_pulse_uses 2 (init 7))
                  (constant_tape 0 0) counting_tape
                  ShapeType.STAR 100 100 20 WHITE 0 0 0));
    cbn; lia.
Defined.


(** ** Inverting monadic steps *)

Lemma bind_inv {A B : Type} (m : M A) (f : A -> M B) (r r' : Random.state)
    (b : B) :
  bind m f r = Some (b, r') ->
  exists a r1, m r = Some (a, r1) /\ f a r1 = Some (b, r').
Proof.
  unfold bind; destruct (m r) as [[a r1] |]; [| discriminate].
  intros H; exists a, r1; auto.
Qed.

Lemma burst_inv (n : nat) (e : Enemy.t) (r r' : Random.state)
    (ps : list Particle.t) :
  burst n e r = Some (ps, r') -> length ps = n /\ Forall (at_enemy e) ps.
Proof.
  destruct (burst_total n e r) as (ps0 & r0 & H0 & Hlen & Hall).
  rewrite H0; intros H; injection H as <- <-; auto.
Qed.

(** ** The pulse impulse *)

Section PulseEffect.

Variables px py : Z.

Lemma pulse_enemy_effect (e : Enemy.t) (r : Random.state) :
  exists ps r',
    pulse_enemy px py e r = Some (pulse_effect px py e, ps, r')
    /\ length ps = (if in_pulse_range px py e then 5 else 0)%nat
    /\ Forall (at_enemy e) ps.
Proof.
  unfold pulse_enemy, pulse_effect, in_pulse_range, pushed, distance_from.
  set (d := sqrt _).
  destruct (Py.Rltb d 150) eqn:E150.
  - destruct (Py.Rltb 0 d) eqn:E0; cbn [andb].
    + apply Rltb_true in E0.
      assert (Hd : d <> 0) by lra.
      unfold bind at 1; unfold bind at 1.
      rewrite (div_Some _ _ _ Hd).
      unfold bind at 1; rewrite (div_Some _ _ _ Hd).
      unfold bind at 1; rewrite (div_Some _ _ _ Hd).
      unfold ret at 1.
      match goal with
      | |- context [burst 5 ?e'] =>
          destruct (burst_total 5 e' r) as (ps & r' & H & Hlen & Hall)
      end.
      rewrite (bind_Some _ _ _ _ _ H).
      exists ps, r'; split; [reflexivity | split; [exact Hlen |]].
      exact Hall.
    + destruct (burst_total 5 e r) as (ps & r' & H & Hlen & Hall).
      unfold bind at 1; unfold ret at 1.
      rewrite (bind_Some _ _ _ _ _ H).
      exists ps, r'; auto.
  - rewrite andb_false_r; exists [], r; repeat split; constructor.
Qed.

Lemma pulse_loop_effect (es : list Enemy.t) (r : Random.state) :
  exists ps r',
    pulse_loop px py es r = Some (map (pulse_effect px py) es, ps, r')
    /\ length ps = (5 * length (filter (in_pulse_range px py) es))%nat
    /\ Forall (fun p => Particle.life p = 30%Z /\ Particle.color p = CYAN) ps.
Proof.
  revert r; induction es as [| e es IH]; intros r.
  - exists [], r; repeat split; constructor.
  - destruct (pulse_enemy_effect e r) as (pe & r1 & He & Hlen & Hall).
    destruct (IH r1) as (ps & r2 & Hes & Hlen' & Hall').
    cbn [pulse_loop map filter].
    rewrite (bind_Some _ _ _ _ _ He), (bind_Some _ _ _ _ _ Hes).
    exists (pe ++ ps), r2; split; [reflexivity | split].
    + rewrite length_app, Hlen, Hlen'.
      destruct (in_pulse_range px py e); cbn [length]; lia.
    + apply Forall_app; split; [| exact Hall'].
      eapply Forall_impl; [| exact Hall].
      intros p (_ & _ & H1 & H2); auto.
Qed.

End PulseEffect.

Lemma pulse_effect_same_but_velocity (px py : Z) (e : Enemy.t) :
  same_but_velocity e (pulse_effect px py e).
Proof.
  unfold pulse_effect, same_but_velocity.
  destruct (_ && _); repeat split.
Qed.

Lemma pulse_enemies_pushes_in_range_aux (s : GameState) (r : Random.state) :
  exists ps r',
    pulse_enemies s r
    = Some (set_particles (particles s ++ ps)
              (set_enemies
                 (map (pulse_effect (player_x s) (player_y s)) (enemies s))
                 s), r')
    /\ length ps
       = (5 * length (filter (in_pulse_range (player_x s) (player_y s))
                        (enemies s)))%nat.
Proof.
  destruct (pulse_loop_effect (player_x s) (player_y s) (enemies s) r)
    as (ps & r' & H & Hlen & _).
  exists ps, r'; split; [| exact Hlen].
  unfold pulse_enemies; rewrite (bind_Some _ _ _ _ _ H); reflexivity.
Qed.

(** X1: [pulse_enemies] never raises; it leaves every enemy in place,
    replaces each one by its pushed version exactly when it is within 150
    units at a positive distance, and appends five cyan particles of life
    30 per enemy within 150 units. *)
Theorem pulse_enemies_pushes_in_range (s : GameState) (r : Random.state) :
  exists ps r',
    pulse_enemies s r
    = Some (set_particles (particles s ++ ps)
              (set_enemies
                 (map (pulse_effect (player_x s) (player_y s)) (enemies s))
                 s), r')
    /\ length ps
       = (5 * length (filter (in_pulse_range (player_x s) (player_y s))
                        (enemies s)))%nat
    /\ Forall (fun p => Particle.life p = 30%Z /\ Particle.color p = CYAN) ps
    /\ Forall2 same_but_velocity (enemies s)
         (map (pulse_effect (player_x s) (player_y s)) (enemies s)).
Proof.
  destruct (pulse_loop_effect (player_x s) (player_y s) (enemies s) r)
    as (ps & r' & H & Hlen & Hall).
  exists ps, r'; split; [| split; [exact Hlen | split; [exact Hall |]]].
  - unfold pulse_enemies; rewrite (bind_Some _ _ _ _ _ H); reflexivity.
  - clear; induction (enemies s) as [| e es IH]; cbn [map].
    + constructor.
    + constructor; [apply pulse_effect_same_but_velocity | exact IH].
Qed.

(** X2: the impulse on an enemy at distance [d] with [0 < d < 150] points
    from the player to the enemy and has magnitude [200 / d]; an enemy at
    distance 0 or at 150 or more keeps its velocity. *)
Theorem pulse_impulse_is_radial (px py : Z) (e : Enemy.t) :
  let d := distance_from px py e in
  let dx := Enemy.x e - IZR px in
  let dy := Enemy.y e - IZR py in
  let dvx := Enemy.vx (pulse_effect px py e) - Enemy.vx e in
  let dvy := Enemy.vy (pulse_effect px py e) - Enemy.vy e in
  (0 < d < 150 ->
   dvx = 200 / (d * d) * dx /\ dvy = 200 / (d * d) * dy
   /\ dvx * dvx + dvy * dvy = (200 / d) * (200 / d)
   /\ dvx * dx + dvy * dy = 200)
  /\ (d = 0 \/ 150 <= d -> pulse_effect px py e = e).
Proof.
  intros d dx dy dvx dvy; split.
  - intros [H0 H150].
    assert (Hsq : d * d = dx * dx + dy * dy).
    { unfold d, distance_from; fold dx dy; apply sqrt_sqrt; nra. }
    assert (Hvx : dvx = dx / d * (200 / d)).
    { unfold dvx, pulse_effect; fold d.
      rewrite (proj2 (Rltb_true 0 d) H0), (proj2 (Rltb_true d 150) H150).
      unfold pushed; cbn [andb Enemy.vx]; fold dx dy.
      unfold d, distance_from; fold dx dy; ring. }
    assert (Hvy : dvy = dy / d * (200 / d)).
    { unfold dvy, pulse_effect; fold d.
      rewrite (proj2 (Rltb_true 0 d) H0), (proj2 (Rltb_true d 150) H150).
      unfold pushed; cbn [andb Enemy.vy]; fold dx dy.
      unfold d, distance_from; fold dx dy; ring. }
    assert (Hd : d <> 0) by lra.
    rewrite Hvx, Hvy; repeat split.
    + field; exact Hd.
    + field; exact Hd.
    + replace (dx / d * (200 / d) * (dx / d * (200 / d))
               + dy / d * (200 / d) * (dy / d * (200 / d)))
        with ((dx * dx + dy * dy) * (200 * 200) / (d * d * (d * d)))
        by (field; exact Hd).
      rewrite <- Hsq; field; exact Hd.
    + replace (dx / d * (200 / d) * dx + dy / d * (200 / d) * dy)
        with ((dx * dx + dy * dy) * 200 / (d * d)) by (field; exact Hd).
      rewrite <- Hsq; field; exact Hd.
  - intros H; unfold pulse_effect; fold d.
    destruct H as [H | H].
    + rewrite (proj2 (Rltb_false 0 d)) by lra; reflexivity.
    + rewrite (proj2 (Rltb_false d 150)) by lra.
      rewrite andb_false_r; reflexivity.
Qed.

Lemma pulse_impulse_is_radial_witness :
  let e := Enemy.mk 700 400 0 0 ShapeType.CIRCLE 20 RED 0 0 0 0 in
  Enemy.vx (pulse_effect 600 400 e) - Enemy.vx e
  = 200 / (distance_from 600 400 e * distance_from 600 400 e)
    * (Enemy.x e - IZR 600).
Proof.
  intros e.
  assert (Hd : distance_from 600 400 e = 100).
  { unfold distance_from; cbn [Enemy.x Enemy.y e].
    replace ((700 - 600) * (700 - 600) + (400 - 400) * (400 - 400))
      with (100 * 100) by lra.
    apply sqrt_square; lra. }
  apply (proj1 (pulse_impulse_is_radial 600 400 e)).
  rewrite Hd; lra.
Defined.

(** ** Ability triggers and cooldowns *)

Lemma update_abilities_focus_active (now : Z) (s : GameState) :
  focus_active (update_abilities now s)
  = focus_active s && negb (now >? focus_end_time s)%Z.
Proof.
  unfold update_abilities.
  destruct (focus_active s) eqn:E; cbn;
    destruct (now >? focus_end_time s)%Z; cbn;
    destruct (is_shrunk s && _); cbn; destruct (_ && _); cbn; auto.
Qed.

Lemma update_abilities_timers (now : Z) (s : GameState) :
  last_focus (update_abilities now s) = last_focus s
  /\ focus_end_time (update_abilities now s) = focus_end_time s
  /\ last_shrink (update_abilities now s) = last_shrink s
  /\ last_dash (update_abilities now s) = last_dash s.
Proof.
  unfold update_abilities.
  destruct (focus_active s && _); destruct (is_shrunk _ && _);
    cbn; destruct (_ && _); repeat split.
Qed.

Lemma run_abilities_timers (nows : list Z) (s : GameState) :
  last_focus (run_abilities nows s) = last_focus s
  /\ focus_end_time (run_abilities nows s) = focus_end_time s
  /\ last_shrink (run_abilities nows s) = last_shrink s
  /\ last_dash (run_abilities nows s) = last_dash s.
Proof.
  revert s; induction nows as [| now nows IH]; intros s; [repeat split |].
  change (run_abilities (now :: nows) s)
    with (run_abilities nows (update_abilities now s)).
  destruct (IH (update_abilities now s)) as (H1 & H2 & H3 & H4).
  destruct (update_abilities_timers now s) as (G1 & G2 & G3 & G4).
  rewrite H1, H2, H3, H4, G1, G2, G3, G4; repeat split.
Qed.

Lemma run_abilities_focused (nows : list Z) (s : GameState) :
  focus_active s = true ->
  Forall (fun now => now <= focus_end_time s)%Z nows ->
  focus_active (run_abilities nows s) = true.
Proof.
  revert s; induction nows as [| now nows IH]; intros s Hs Hall; [exact Hs |].
  inversion Hall as [| ? ? Hnow Hrest]; subst.
  change (run_abilities (now :: nows) s)
    with (run_abilities nows (update_abilities now s)).
  apply IH.
  - rewrite update_abilities_focus_active, Hs.
    destruct (Z.gtb_spec now (focus_end_time s)); [lia | reflexivity].
  - rewrite (proj1 (proj2 (update_abilities_timers now s))); exact Hrest.
Qed.

(** X3: a focus trigger more than 10000 ms after the previous one turns
    focus on; it stays on, with time factor 0.5, on every tick whose clock
    value is at most [t + 3000], and goes off, back to time factor 1, on
    the first tick after that.  Until more than 10000 ms have passed since
    the trigger, the focus key changes nothing. *)
Theorem focus_window_and_cooldown (s : GameState) (t : Z) (r : Random.state) :
  (t - last_focus s > FOCUS_COOLDOWN)%Z ->
  exists s1,
    handle_abilities (KEYDOWN K_SPACE) t s r = Some (s1, r)
    /\ (forall nows,
          Forall (fun now => now <= t + 3000)%Z nows ->
          focus_active (run_abilities nows s1) = true
          /\ time_factor (run_abilities nows s1) = 0.5)
    /\ (forall nows now,
          Forall (fun now => now <= t + 3000)%Z nows ->
          (now > t + 3000)%Z ->
          focus_active (update_abilities now (run_abilities nows s1)) = false
          /\ time_factor (update_abilities now (run_abilities nows s1)) = 1)
    /\ (forall nows later r2,
          (later - t <= FOCUS_COOLDOWN)%Z ->
          handle_abilities (KEYDOWN K_SPACE) later (run_abilities nows s1) r2
          = Some (run_abilities nows s1, r2)).
Proof.
  intros Hcd.
  assert (Hdue : (t - last_focus s >? FOCUS_COOLDOWN)%Z = true)
    by (destruct (Z.gtb_spec (t - last_focus s) FOCUS_COOLDOWN);
        [reflexivity | lia]).
  eexists; split.
  { unfold handle_abilities; rewrite Hdue; reflexivity. }
  set (s1 := set_last_focus t _).
  assert (Hon : forall nows,
             Forall (fun now => now <= t + 3000)%Z nows ->
             focus_active (run_abilities nows s1) = true)
    by (intros nows Hall; apply run_abilities_focused;
        [reflexivity | exact Hall]).
  split; [| split].
  - intros nows Hall; split; [auto |].
    unfold time_factor; rewrite (Hon nows Hall); reflexivity.
  - intros nows now Hall Hnow.
    assert (Hoff : focus_active (update_abilities now (run_abilities nows s1))
                   = false).
    { rewrite update_abilities_focus_active, (Hon nows Hall).
      rewrite (proj1 (proj2 (run_abilities_timers nows s1))).
      cbn [focus_end_time s1 set_last_focus set_focus_end_time
           set_focus_active].
      destruct (Z.gtb_spec now (t + 3000)); [reflexivity | lia]. }
    split; [exact Hoff |].
    unfold time_factor; rewrite Hoff; reflexivity.
  - intros nows later r2 Hlater.
    unfold handle_abilities.
    rewrite (proj1 (run_abilities_timers nows s1)).
    cbn [last_focus s1 set_last_focus].
    destruct (Z.gtb_spec (later - t) FOCUS_COOLDOWN); [lia | reflexivity].
Qed.

Lemma focus_window_and_cooldown_witness :
  exists s1,
    handle_abilities (KEYDOWN K_SPACE) 10001 (init 0) (constant_tape 0 0)
    = Some (s1, constant_tape 0 0)
    /\ time_factor (run_abilities [10017; 13001]%Z s1) = 0.5
    /\ time_factor (update_abilities 13002 (run_abilities [10017]%Z s1)) = 1.
Proof.
  destruct (focus_window_and_cooldown (init 0) 10001 (constant_tape 0 0))
    as (s1 & H0 & H1 & H2 & _); [unfold FOCUS_COOLDOWN; cbn; lia |].
  exists s1; split; [exact H0 | split].
  - apply H1; repeat constructor; lia.
  - apply H2; [repeat constructor; lia | lia].
Defined.

(** X4: a pulse with a charge left, more than 3000 ms after the previous
    one, costs exactly one charge, restarts the pulse timer, sets the
    shake to 10, pushes the enemies in range and leaves the player alone;
    until more than 3000 ms have passed the pulse key changes nothing. *)
Theorem pulse_success_and_cooldown (s : GameState) (now : Z)
    (r : Random.state) :
  (0 < pulse_uses s)%Z ->
  (now - last_pulse s > PULSE_COOLDOWN)%Z ->
  exists s' r',
    handle_abilities (KEYDOWN K_e) now s r = Some (s', r')
    /\ pulse_uses s' = (pulse_uses s - 1)%Z
    /\ last_pulse s' = now
    /\ screen_shake s' = 10%Z
    /\ enemies s' = map (pulse_effect (player_x s) (player_y s)) (enemies s)
    /\ length (particles s')
       = (length (particles s)
          + 5 * length (filter (in_pulse_range (player_x s) (player_y s))
                          (enemies s)))%nat
    /\ (player_x s', player_y s', player_size s')
       = (player_x s, player_y s, player_size s)
    /\ (forall later r2,
          (later - now <= PULSE_COOLDOWN)%Z ->
          handle_abilities (KEYDOWN K_e) later s' r2 = Some (s', r2)).
Proof.
  intros Hc Hcd.
  destruct (pulse_enemies_pushes_in_range_aux s r) as (ps & r' & H & Hlen).
  assert (Hdue : ((pulse_uses s >? 0)
                  && (now - last_pulse s >? PULSE_COOLDOWN))%Z = true).
  { destruct (Z.gtb_spec (pulse_uses s) 0); [| lia].
    destruct (Z.gtb_spec (now - last_pulse s) PULSE_COOLDOWN);
      [reflexivity | lia]. }
  eexists; exists r'; split.
  { unfold handle_abilities; rewrite Hdue, (bind_Some _ _ _ _ _ H).
    reflexivity. }
  cbn [pulse_uses last_pulse screen_shake enemies particles player_x player_y
       player_size set_screen_shake set_last_pulse set_pulse_uses
       set_particles set_enemies].
  repeat split.
  - rewrite length_app, Hlen; reflexivity.
  - intros later r2 Hlater; unfold handle_abilities.
    cbn [pulse_uses last_pulse set_screen_shake set_last_pulse
         set_pulse_uses].
    destruct (Z.gtb_spec (later - now) PULSE_COOLDOWN); [lia |].
    rewrite andb_false_r; reflexivity.
Qed.

Lemma pulse_success_and_cooldown_witness :
  exists s' r',
    handle_abilities (KEYDOWN K_e) 3001 (init 0) (constant_tape 0 0)
    = Some (s', r')
    /\ pulse_uses s' = 4%Z /\ last_pulse s' = 3001%Z
    /\ screen_shake s' = 10%Z.
Proof.
  destruct (pulse_success_and_cooldown (init 0) 3001 (constant_tape 0 0))
    as (s' & r' & H & H1 & H2 & H3 & _);
    [cbn; lia | unfold PULSE_COOLDOWN; cbn; lia |].
  exists s', r'; auto.
Defined.

(** X5: after a shrink trigger at time [t], the shrink key changes nothing
    while the player is still shrunk, nor at any time up to [t + 8000],
    however many ticks have run in between: the shrink can neither be
    extended nor chained. *)
Theorem shrink_cannot_be_retriggered (s : GameState) (t : Z)
    (r : Random.state) :
  is_shrunk s = false ->
  (t - last_shrink s > SHRINK_COOLDOWN)%Z ->
  exists s1,
    handle_abilities (KEYDOWN K_q) t s r = Some (s1, r)
    /\ forall nows later r2,
         (later - t <= SHRINK_COOLDOWN)%Z
         \/ is_shrunk (run_abilities nows s1) = true ->
         handle_abilities (KEYDOWN K_q) later (run_abilities nows s1) r2
         = Some (run_abilities nows s1, r2).
Proof.
  intros Hs Hcd.
  assert (Hdue : (t - last_shrink s >? SHRINK_COOLDOWN)%Z = true)
    by (destruct (Z.gtb_spec (t - last_shrink s) SHRINK_COOLDOWN);
        [reflexivity | lia]).
  eexists; split.
  { unfold handle_abilities; rewrite Hs, Hdue; reflexivity. }
  intros nows later r2 H; unfold handle_abilities.
  destruct (run_abilities_timers nows
              (set_player_size (PLAYER_SIZE / 2)
                 (set_last_shrink t
                    (set_shrink_end_time (t + SHRINK_DURATION)
                       (set_is_shrunk true s))))) as (_ & _ & Hl & _).
  rewrite Hl; cbn [last_shrink set_player_size set_last_shrink].
  destruct H as [H | H].
  - destruct (Z.gtb_spec (later - t) SHRINK_COOLDOWN); [lia |].
    rewrite andb_false_r; reflexivity.
  - rewrite H; reflexivity.
Qed.

Lemma shrink_cannot_be_retriggered_witness :
  exists s1,
    handle_abilities (KEYDOWN K_q) 8001 (init 0) (constant_tape 0 0)
    = Some (s1, constant_tape 0 0)
    /\ handle_abilities (KEYDOWN K_q) 16001
         (run_abilities [8017; 10002]%Z s1) (constant_tape 0 0)
       = Some (run_abilities [8017; 10002]%Z s1, constant_tape 0 0).
Proof.
  destruct (shrink_cannot_be_retriggered (init 0) 8001 (constant_tape 0 0))
    as (s1 & H0 & H1); [reflexivity | unfold SHRINK_COOLDOWN; cbn; lia |].
  exists s1; split; [exact H0 |].
  apply H1; left; unfold SHRINK_COOLDOWN; lia.
Defined.

(** ** Movement *)

(** The dash test of [handle_input]. *)
Lemma handle_input_dash (keys : key -> bool) (now : Z) (s : GameState) :
  let fires := (keys K_LSHIFT || keys K_RSHIFT)
               && (now - last_dash s >? DASH_COOLDOWN)%Z in
  last_dash (handle_input keys now s) = (if fires then now else last_dash s)
  /\ screen_shake (handle_input keys now s)
     = (if fires then 5%Z else screen_shake s).
Proof.
  unfold handle_input.
  destruct ((keys K_LSHIFT || keys K_RSHIFT) && _);
    destruct (keys K_LEFT || keys K_a); destruct (keys K_RIGHT || keys K_d);
    destruct (keys K_UP || keys K_w); destruct (keys K_DOWN || keys K_s);
    split; reflexivity.
Qed.

Lemma handle_input_step (keys : key -> bool) (now : Z) (s : GameState) :
  (0 <= 2 * player_size s <= SCREEN_HEIGHT)%Z ->
  (player_size s <= player_x s <= SCREEN_WIDTH - player_size s)%Z ->
  (player_size s <= player_y s <= SCREEN_HEIGHT - player_size s)%Z ->
  let speed := if (keys K_LSHIFT || keys K_RSHIFT)
                  && (now - last_dash s >? DASH_COOLDOWN)%Z
               then DASH_SPEED else PLAYER_SPEED in
  (Z.abs (player_x (handle_input keys now s) - player_x s) <= speed)%Z
  /\ (Z.abs (player_y (handle_input keys now s) - player_y s) <= speed)%Z
  /\ (held_left keys = false -> held_right keys = false ->
      player_x (handle_input keys now s) = player_x s)
  /\ (held_up keys = false -> held_down keys = false ->
      player_y (handle_input keys now s) = player_y s).
Proof.
  intros Hsize Hx Hy.
  unfold held_left, held_right, held_up, held_down, handle_input.
  unfold SCREEN_HEIGHT, SCREEN_WIDTH, DASH_SPEED, PLAYER_SPEED in *.
  destruct ((keys K_LSHIFT || keys K_RSHIFT) && _);
    destruct (keys K_LEFT || keys K_a); destruct (keys K_RIGHT || keys K_d);
    destruct (keys K_UP || keys K_w); destruct (keys K_DOWN || keys K_s);
    cbn [player_x player_y player_size set_player_x set_player_y
         set_trail_points set_screen_shake set_last_dash];
    repeat split; intros; try discriminate; lia.
Qed.

Lemma movement_bounds_aux (keys : key -> bool) (now : Z) (s : GameState) :
  (0 <= 2 * player_size s <= SCREEN_HEIGHT)%Z ->
  (player_size s <= player_x s <= SCREEN_WIDTH - player_size s)%Z ->
  (player_size s <= player_y s <= SCREEN_HEIGHT - player_size s)%Z ->
  (player_size s <= player_x (handle_input keys now s)
   <= SCREEN_WIDTH - player_size s)%Z
  /\ (player_size s <= player_y (handle_input keys now s)
      <= SCREEN_HEIGHT - player_size s)%Z.
Proof.
  intros Hsize Hx Hy.
  unfold handle_input.
  unfold SCREEN_HEIGHT, SCREEN_WIDTH, DASH_SPEED, PLAYER_SPEED in *.
  destruct ((keys K_LSHIFT || keys K_RSHIFT) && _);
    destruct (keys K_LEFT || keys K_a); destruct (keys K_RIGHT || keys K_d);
    destruct (keys K_UP || keys K_w); destruct (keys K_DOWN || keys K_s);
    cbn [player_x player_y player_size set_player_x set_player_y
         set_trail_points set_screen_shake set_last_dash];
    lia.
Qed.

(** X6: with the player inside its bounds, one call of [handle_input]
    moves it by at most 5 units per axis, or by at most 100 when a dash
    fires; a dash fires only with shift held more than 1000 ms after the
    previous dash, and then restarts the dash timer and sets the shake to
    5, so that the next call within 1000 ms moves by at most 5 again. *)
Theorem dash_once_per_cooldown (keys keys' : key -> bool) (now later : Z)
    (s : GameState) :
  (0 <= 2 * player_size s <= SCREEN_HEIGHT)%Z ->
  (player_size s <= player_x s <= SCREEN_WIDTH - player_size s)%Z ->
  (player_size s <= player_y s <= SCREEN_HEIGHT - player_size s)%Z ->
  let fires := (keys K_LSHIFT || keys K_RSHIFT)
               && (now - last_dash s >? DASH_COOLDOWN)%Z in
  let s1 := handle_input keys now s in
  let s2 := handle_input keys' later s1 in
  (Z.abs (player_x s1 - player_x s) <= (if fires then 100 else 5))%Z
  /\ (Z.abs (player_y s1 - player_y s) <= (if fires then 100 else 5))%Z
  /\ (fires = true ->
      last_dash s1 = now /\ screen_shake s1 = 5%Z
      /\ ((later - now <= DASH_COOLDOWN)%Z ->
          (Z.abs (player_x s2 - player_x s1) <= 5)%Z
          /\ (Z.abs (player_y s2 - player_y s1) <= 5)%Z)).
Proof.
  intros Hsize Hx Hy fires s1 s2.
  destruct (handle_input_step keys now s Hsize Hx Hy) as (H1 & H2 & _).
  fold fires in H1, H2.
  unfold DASH_SPEED, PLAYER_SPEED in H1, H2.
  split; [exact H1 | split; [exact H2 |]].
  intros Hf.
  destruct (handle_input_dash keys now s) as (Hd & Hsh).
  fold fires in Hd, Hsh; rewrite Hf in Hd, Hsh.
  split; [exact Hd | split; [exact Hsh |]].
  intros Hlater.
  destruct (movement_bounds_aux keys now s Hsize Hx Hy) as (Gx & Gy).
  fold s1 in Gx, Gy.
  assert (Hsz : player_size s1 = player_size s)
    by apply handle_input_player_size.
  destruct (handle_input_step keys' later s1) as (K1 & K2 & _);
    [rewrite Hsz; exact Hsize | rewrite Hsz; exact Gx
     | rewrite Hsz; exact Gy |].
  fold s1 in Hd; rewrite Hd in K1, K2.
  destruct (Z.gtb_spec (later - now) DASH_COOLDOWN); [lia |].
  rewrite andb_false_r in K1, K2.
  unfold PLAYER_SPEED in K1, K2; fold s2 in K1, K2; auto.
Qed.

Lemma dash_once_per_cooldown_witness :
  let s1 := handle_input (pressed [K_LSHIFT; K_RIGHT]) 1001 (init 0) in
  last_dash s1 = 1001%Z /\ screen_shake s1 = 5%Z
  /\ ((1500 - 1001 <= DASH_COOLDOWN)%Z ->
      (Z.abs (player_x (handle_input (pressed [K_LSHIFT; K_RIGHT]) 1500 s1)
              - player_x s1) <= 5)%Z
      /\ (Z.abs (player_y (handle_input (pressed [K_LSHIFT; K_RIGHT]) 1500 s1)
                 - player_y s1) <= 5)%Z).
Proof.
  intros s1.
  destruct (dash_once_per_cooldown (pressed [K_LSHIFT; K_RIGHT])
              (pressed [K_LSHIFT; K_RIGHT]) 1001 1500 (init 0))
    as (_ & _ & H);
    [cbn; unfold SCREEN_HEIGHT, PLAYER_SIZE; lia
    | cbn; unfold SCREEN_WIDTH, PLAYER_SIZE; lia
    | cbn; unfold SCREEN_HEIGHT, PLAYER_SIZE; lia |].
  apply H; reflexivity.
Defined.

(** ** The invariants of the loop *)

Ltac inv_unfold :=
  unfold invariant, charges_ok, size_ok, player_on_screen, shake_ok,
    particles_ok, enemies_ok in *.

Lemma update_abilities_frame (now : Z) (s : GameState) :
  player_x (update_abilities now s) = player_x s
  /\ player_y (update_abilities now s) = player_y s
  /\ screen_shake (update_abilities now s) = screen_shake s
  /\ particles (update_abilities now s) = particles s
  /\ enemies (update_abilities now s) = enemies s
  /\ game_active (update_abilities now s) = game_active s
  /\ score (update_abilities now s) = score s
  /\ high_score (update_abilities now s) = high_score s
  /\ difficulty_multiplier (update_abilities now s) = difficulty_multiplier s.
Proof.
  unfold update_abilities.
  destruct (focus_active s && _); destruct (is_shrunk _ && _);
    cbn; destruct (_ && _); repeat split.
Qed.

Lemma check_collisions_cases (s : GameState) :
  (check_collisions s = s
   /\ Forall (fun e => collides s e = false) (enemies s))
  \/ (check_collisions s = game_over s
      /\ Exists (fun e => collides s e = true) (enemies s)).
Proof.
  unfold check_collisions; induction (enemies s) as [| e es IH].
  - left; split; [reflexivity | constructor].
  - cbn; destruct (collides s e) eqn:E.
    + right; split; [reflexivity | constructor; exact E].
    + destruct IH as [[H1 H2] | [H1 H2]]; [left | right]; split; auto.
Qed.

Lemma update_particles_ok (ps : list Particle.t) :
  Forall (fun p => (Particle.life p <= 30)%Z) ps ->
  Forall (fun p => (1 <= Particle.life p <= 29)%Z) (update_particles ps).
Proof.
  induction 1 as [| p ps Hp Hps IH]; [constructor |].
  cbn; destruct (Z.leb_spec (Particle.life p - 1) 0); [exact IH |].
  constructor; [cbn; lia | exact IH].
Qed.

Lemma update_enemies_loop_on_screen (tf : R) (es : list Enemy.t) :
  Forall (fun e => off_screen e = false) (update_enemies_loop tf es).
Proof.
  induction es as [| e es IH]; [constructor |].
  cbn; destruct (off_screen (move_enemy tf e)) eqn:E; [exact IH |].
  constructor; [exact E | exact IH].
Qed.

Lemma logic_tail_fields (now : Z) (s : GameState) :
  ability_view (logic_tail now s) = ability_view (update_abilities now s)
  /\ player_x (logic_tail now s) = player_x s
  /\ player_y (logic_tail now s) = player_y s
  /\ screen_shake (logic_tail now s)
     = (if (screen_shake s >? 0)%Z then (screen_shake s - 1)%Z
        else screen_shake s)
  /\ particles (logic_tail now s) = update_particles (particles s)
  /\ enemies (logic_tail now s)
     = update_enemies_loop (time_factor (update_abilities now s)) (enemies s)
  /\ score (logic_tail now s) = score s
  /\ difficulty_multiplier (logic_tail now s) = difficulty_multiplier s.
Proof.
  destruct (update_abilities_frame now s)
    as (Hx & Hy & Hsh & Hp & He & _ & Hsc & _ & Hdm).
  unfold logic_tail.
  set (u := update_abilities now s) in *.
  destruct (check_collisions_cases (update_enemies u)) as [[Hc _] | [Hc _]];
    rewrite Hc; unfold game_over;
    try destruct (Py.Rltb _ _);
    cbn [screen_shake particles set_particles set_game_active set_high_score
         update_enemies set_enemies];
    rewrite Hsh, Hp;
    destruct (screen_shake s >? 0)%Z;
    (split; [reflexivity |]); cbn; rewrite Hx, Hy, He, Hsc, Hdm;
    repeat split; assumption.
Qed.

Lemma update_game_logic_unfold (current_time spawn_ticks abilities_time : Z)
    (s : GameState) (r : Random.state) :
  game_active s = true ->
  let sc := IZR (current_time - start_time s) / 1000 in
  let s0 := set_difficulty_multiplier (1 + sc / 30) (set_score sc s) in
  exists e p r',
    let sA := if (current_time - spawn_timer s >? spawn_rate sc)%Z
              then set_spawn_timer current_time
                     (set_enemies (enemies s ++ [e]) s0)
              else s0 in
    let sB := if (current_time - pattern_timer s >? 10000)%Z
              then set_pattern_timer current_time (set_current_pattern p sA)
              else sA in
    update_game_logic current_time spawn_ticks abilities_time s r
    = Some (logic_tail abilities_time sB, r').
Proof.
  intros Hact sc s0.
  unfold update_game_logic; rewrite Hact; cbn [negb].
  fold sc; fold s0.
  destruct (spawn_step_total
              (current_time - spawn_timer s0 >? spawn_rate (score s0))%Z
              current_time spawn_ticks s0 r) as (e & rA & HA).
  rewrite (bind_Some _ _ _ _ _ HA).
  match type of HA with
  | _ = Some (?sA, _) =>
      destruct (pattern_step_total current_time sA rA) as (p & rB & HB)
  end.
  rewrite (bind_Some _ _ _ _ _ HB).
  exists e, p, rB; cbv zeta.
  unfold ret, logic_tail.
  replace (pattern_timer
             (if (current_time - spawn_timer s0 >? spawn_rate (score s0))%Z
              then set_spawn_timer current_time
                     (set_enemies (enemies s0 ++ [e]) s0)
              else s0)) with (pattern_timer s)
    by (destruct (_ >? _)%Z; reflexivity).
  reflexivity.
Qed.

Lemma invariant_init (h : R) : invariant (init h).
Proof.
  inv_unfold; unfold PLAYER_SIZE, SCREEN_WIDTH, SCREEN_HEIGHT; cbn.
  repeat split; try lia; constructor.
Qed.

Lemma invariant_reset_game (now : Z) (s : GameState) :
  invariant (reset_game now s).
Proof.
  inv_unfold; unfold PLAYER_SIZE, SCREEN_WIDTH, SCREEN_HEIGHT; cbn.
  repeat split; try lia; constructor.
Qed.

Lemma invariant_handle_input (keys : key -> bool) (now : Z) (s : GameState) :
  invariant s -> invariant (handle_input keys now s).
Proof.
  intros (Hc & Hz & (Hx & Hy) & Hs & Hp & He).
  inv_unfold; unfold handle_input.
  unfold PLAYER_SIZE, SCREEN_WIDTH, SCREEN_HEIGHT, DASH_SPEED, PLAYER_SPEED
    in *.
  change (12 / 2)%Z with 6%Z in *.
  destruct (is_shrunk s) eqn:Eshr;
    destruct ((keys K_LSHIFT || keys K_RSHIFT) && _);
    destruct (keys K_LEFT || keys K_a); destruct (keys K_RIGHT || keys K_d);
    destruct (keys K_UP || keys K_w); destruct (keys K_DOWN || keys K_s);
    cbn [player_x player_y player_size is_shrunk pulse_uses screen_shake
         particles enemies set_player_x set_player_y set_trail_points
         set_screen_shake set_last_dash];
    rewrite ?Eshr; repeat split; try assumption; lia.
Qed.

Lemma off_screen_same_position (e e' : Enemy.t) :
  same_but_velocity e e' -> off_screen e' = off_screen e.
Proof.
  intros (Hx & Hy & _); unfold off_screen; rewrite Hx, Hy; reflexivity.
Qed.

Lemma invariant_handle_abilities (ev : event) (now : Z) (s s' : GameState)
    (r r' : Random.state) :
  invariant s ->
  handle_abilities ev now s r = Some (s', r') ->
  invariant s'.
Proof.
  intros Hinv H.
  destruct ev as [| k |]; try (injection H as <- <-; exact Hinv).
  destruct k; try (injection H as <- <-; exact Hinv);
    unfold handle_abilities in H.
  - (* focus *)
    destruct (_ >? _)%Z; injection H as <- <-; exact Hinv.
  - (* pulse *)
    destruct ((pulse_uses s >? 0)%Z && _) eqn:E;
      [| injection H as <- <-; exact Hinv].
    apply andb_true_iff in E; destruct E as [E _].
    destruct (pulse_loop_effect (player_x s) (player_y s) (enemies s) r)
      as (ps & r1 & Hl & _ & Hall).
    unfold pulse_enemies in H.
    rewrite (bind_Some _ _ _ _ _ (bind_Some _ _ _ _ _ Hl)) in H.
    injection H as <- <-.
    destruct Hinv as (Hc & Hz & Hxy & Hs & Hp & He).
    inv_unfold.
    cbn [player_x player_y player_size is_shrunk pulse_uses screen_shake
         particles enemies set_screen_shake set_last_pulse set_pulse_uses
         set_particles set_enemies].
    destruct (Z.gtb_spec (pulse_uses s) 0); [| discriminate].
    repeat split; try assumption; try lia.
    + apply Forall_app; split; [exact Hp |].
      eapply Forall_impl; [| exact Hall].
      intros p (Hlife & _); rewrite Hlife; lia.
    + apply Forall_forall; intros e' Hin.
      apply in_map_iff in Hin; destruct Hin as (e & <- & Hin).
      rewrite (off_screen_same_position e _
                 (pulse_effect_same_but_velocity _ _ e)).
      rewrite Forall_forall in He; exact (He e Hin).
  - (* shrink *)
    destruct (negb (is_shrunk s) && _); injection H as <- <-;
      [| exact Hinv].
    destruct Hinv as (Hc & Hz & Hxy & Hs & Hp & He).
    inv_unfold; cbn [player_x player_y player_size is_shrunk pulse_uses
      screen_shake particles enemies set_player_size set_last_shrink
      set_shrink_end_time set_is_shrunk];
      repeat split; try assumption; try apply Hxy; lia.
Qed.

Lemma invariant_logic_tail (now : Z) (s : GameState) :
  charges_ok s /\ size_ok s /\ player_on_screen s /\ shake_ok s
  /\ particles_ok s ->
  invariant (logic_tail now s).
Proof.
  intros (Hc & Hz & Hxy & Hs & Hp).
  destruct (logic_tail_fields now s)
    as (Hv & Hx & Hy & Hsh & Hpa & Hen & _).
  unfold ability_view in Hv; injection Hv as Hu _ Hsz Hshr _.
  inv_unfold.
  rewrite Hu, Hsz, Hshr, Hx, Hy, Hsh, Hpa, Hen.
  rewrite update_abilities_pulse_uses, update_abilities_player_size,
    update_abilities_is_shrunk.
  clear Hu Hsz Hshr Hx Hy Hsh Hpa Hen.
  repeat split; try (apply Hxy).
  - destruct (_ && _); lia.
  - destruct (Z.ltb_spec (pulse_uses s) 5); cbn [andb];
      [destruct (now - last_pulse s >? 6000)%Z |]; lia.
  - destruct (is_shrunk s); cbn [andb negb].
    + destruct (now >? shrink_end_time s)%Z; cbn [negb]; auto.
    + exact Hz.
  - destruct (Z.gtb_spec (screen_shake s) 0); lia.
  - destruct (Z.gtb_spec (screen_shake s) 0); lia.
  - eapply Forall_impl; [| apply update_particles_ok].
    + intros p; cbn; lia.
    + eapply Forall_impl; [| exact Hp]; intros p; cbn; lia.
  - apply update_enemies_loop_on_screen.
Qed.

Lemma invariant_update_game_logic (ct st at_ : Z) (s s' : GameState)
    (r r' : Random.state) :
  invariant s ->
  update_game_logic ct st at_ s r = Some (s', r') ->
  invariant s'.
Proof.
  intros Hinv H.
  destruct (game_active s) eqn:Hact.
  - destruct (update_game_logic_unfold ct st at_ s r Hact)
      as (e & p & r1 & Heq).
    cbv zeta in Heq; rewrite Heq in H; injection H as <- <-.
    apply invariant_logic_tail.
    destruct Hinv as (Hc & Hz & Hxy & Hs & Hp & He).
    inv_unfold.
    destruct (_ >? 10000)%Z; destruct (_ >? spawn_rate _)%Z;
      cbn [player_x player_y player_size is_shrunk pulse_uses screen_shake
           particles enemies set_pattern_timer set_current_pattern
           set_spawn_timer set_enemies set_difficulty_multiplier set_score];
      repeat split; try assumption; try apply Hxy; lia.
  - unfold update_game_logic in H; rewrite Hact in H.
    injection H as <- <-; exact Hinv.
Qed.

Lemma invariant_set_running (s : GameState) (b : bool) :
  invariant s -> invariant (set_running b s).
Proof. intros H; exact H. Qed.

Lemma invariant_set_paused (s : GameState) (b : bool) :
  invariant s -> invariant (set_paused b s).
Proof. intros H; exact H. Qed.

Lemma invariant_set_game_active (s : GameState) (b : bool) :
  invariant s -> invariant (set_game_active b s).
Proof. intros H; exact H. Qed.

Lemma invariant_handle_event (e : timed_event) (s s' : GameState)
    (r r' : Random.state) :
  invariant s -> handle_event e s r = Some (s', r') -> invariant s'.
Proof.
  intros Hinv H; unfold handle_event in H.
  destruct (ev_event e) as [| k |] eqn:Ev.
  - injection H as <- <-; apply invariant_set_running; exact Hinv.
  - match type of H with
    | (if game_active ?s1 && _ then _ else _) _ = _ =>
        assert (H1 : invariant s1)
    end.
    { destruct k; cbv beta iota; try exact Hinv.
      - destruct (negb (game_active s)); [| exact Hinv].
        apply invariant_set_game_active, invariant_reset_game.
      - destruct (game_active s); [| exact Hinv].
        apply invariant_set_paused; exact Hinv. }
    destruct (game_active _ && _).
    + eapply invariant_handle_abilities; [exact H1 | exact H].
    + injection H as <- <-; exact H1.
  - injection H as <- <-; exact Hinv.
Qed.

Lemma invariant_handle_events (es : list timed_event) (s s' : GameState)
    (r r' : Random.state) :
  invariant s -> handle_events es s r = Some (s', r') -> invariant s'.
Proof.
  revert s r; induction es as [| e es IH]; intros s r Hinv H.
  - injection H as <- <-; exact Hinv.
  - cbn [handle_events] in H.
    apply bind_inv in H; destruct H as (s1 & r1 & H1 & H2).
    eapply IH; [| exact H2].
    eapply invariant_handle_event; [exact Hinv | exact H1].
Qed.

Lemma invariant_run_iteration (f : frame_input) (s s' : GameState)
    (r r' : Random.state) (frame : list primitive) :
  invariant s ->
  run_iteration f s r = Some (s', frame, r') ->
  invariant s'.
Proof.
  intros Hinv H; unfold run_iteration in H.
  apply bind_inv in H; destruct H as (s1 & r1 & H1 & H).
  apply bind_inv in H; destruct H as (s2 & r2 & H2 & H).
  apply bind_inv in H; destruct H as (fr & r3 & _ & H).
  injection H as <- _ _.
  pose proof (invariant_handle_events _ _ _ _ _ Hinv H1) as Hinv1.
  destruct (game_active s1 && negb (paused s1)).
  - eapply invariant_update_game_logic; [| exact H2].
    apply invariant_handle_input; exact Hinv1.
  - injection H2 as <- _; exact Hinv1.
Qed.

Lemma reachable_invariant (s : GameState) : reachable s -> invariant s.
Proof.
  induction 1 as [h | f s s' r r' frame _ IH _ Hstep].
  - apply invariant_init.
  - eapply invariant_run_iteration; [exact IH | exact Hstep].
Qed.

(** X7: in every state the loop of [run] can reach, the pulse pool holds
    between 0 and 5 charges and the player's size is 6 while shrunk and 12
    otherwise. *)
Theorem reachable_ability_state (s : GameState) :
  reachable s ->
  (0 <= pulse_uses s <= 5)%Z
  /\ player_size s = (if is_shrunk s then 6 else 12)%Z.
Proof.
  intros H; destruct (reachable_invariant s H) as (Hc & Hz & _).
  split; [exact Hc | exact Hz].
Qed.

(** X8: in every reachable state the player's centre is on the screen, at
    least 6 units from each edge. *)
Theorem reachable_player_on_screen (s : GameState) :
  reachable s ->
  (6 <= player_x s <= 1194)%Z /\ (6 <= player_y s <= 794)%Z.
Proof.
  intros H; destruct (reachable_invariant s H) as (_ & _ & Hxy & _).
  exact Hxy.
Qed.

(** X9: in every reachable state the shake counter is between 0 and 10 and
    every particle has between 1 and 30 ticks left to live. *)
Theorem reachable_effects_bounded (s : GameState) :
  reachable s ->
  (0 <= screen_shake s <= 10)%Z
  /\ Forall (fun p => (1 <= Particle.life p <= 30)%Z) (particles s).
Proof.
  intros H; destruct (reachable_invariant s H) as (_ & _ & _ & Hs & Hp & _).
  split; [exact Hs | exact Hp].
Qed.


Lemma start_and_pause_reachable :
  reachable (set_paused true (set_game_active true (reset_game 1000 (init 0)))).
Proof.
  apply (reach_step start_and_pause (init 0) _ (constant_tape 0 0)
           (constant_tape 0 0)
           [circle WHITE (600, 400)%Z 12 0; circle BLACK (600, 400)%Z 12 2]).
  - apply reach_init.
  - reflexivity.
  - reflexivity.
Qed.

Lemma reachable_ability_state_witness :
  let s := set_paused true (set_game_active true (reset_game 1000 (init 0))) in
  (0 <= pulse_uses s <= 5)%Z
  /\ player_size s = (if is_shrunk s then 6 else 12)%Z.
Proof.
  apply reachable_ability_state, start_and_pause_reachable.
Defined.

Lemma reachable_player_on_screen_witness :
  let s := set_paused true (set_game_active true (reset_game 1000 (init 0))) in
  (6 <= player_x s <= 1194)%Z /\ (6 <= player_y s <= 794)%Z.
Proof.
  apply reachable_player_on_screen, start_and_pause_reachable.
Defined.

Lemma reachable_effects_bounded_witness :
  let s := set_paused true (set_game_active true (reset_game 1000 (init 0))) in
  (0 <= screen_shake s <= 10)%Z
  /\ Forall (fun p => (1 <= Particle.life p <= 30)%Z) (particles s).
Proof.
  apply reachable_effects_bounded, start_and_pause_reachable.
Defined.


(** ** Score, difficulty and the end of a round *)

Lemma logic_tail_start_time (now : Z) (s : GameState) :
  start_time (logic_tail now s) = start_time s.
Proof.
  unfold logic_tail.
  assert (Hu : start_time (update_abilities now s) = start_time s).
  { unfold update_abilities.
    destruct (focus_active s && _); destruct (is_shrunk _ && _);
      cbn; destruct (_ && _); reflexivity. }
  set (u := update_abilities now s) in *.
  destruct (check_collisions_cases (update_enemies u)) as [[Hc _] | [Hc _]];
    rewrite Hc; unfold game_over; try destruct (Py.Rltb _ _);
    match goal with |- context [if ?c then _ else _] => destruct c end;
    exact Hu.
Qed.

Lemma update_game_logic_tail (current_time spawn_ticks abilities_time : Z)
    (s : GameState) (r : Random.state) :
  game_active s = true ->
  exists sB r',
    update_game_logic current_time spawn_ticks abilities_time s r
    = Some (logic_tail abilities_time sB, r')
    /\ score sB = IZR (current_time - start_time s) / 1000
    /\ difficulty_multiplier sB
       = 1 + IZR (current_time - start_time s) / 1000 / 30
    /\ start_time sB = start_time s
    /\ particles sB = particles s
    /\ screen_shake sB = screen_shake s
    /\ ability_view sB = ability_view s
    /\ (player_x sB, player_y sB) = (player_x s, player_y s)
    /\ focus_active sB = focus_active s
    /\ focus_end_time sB = focus_end_time s
    /\ (enemies sB = enemies s \/ exists e, enemies sB = enemies s ++ [e]).
Proof.
  intros Hact.
  destruct (update_game_logic_unfold current_time spawn_ticks abilities_time
              s r Hact) as (e & p & r' & H).
  cbv zeta in H; eexists; exists r'; split; [exact H |].
  destruct (current_time - pattern_timer s >? 10000)%Z;
    destruct (current_time - spawn_timer s >? spawn_rate _)%Z;
    repeat split; first [left; reflexivity | right; exists e; reflexivity].
Qed.

(** X11: [update_game_logic] never raises.  While the round is inactive it
    changes nothing (the score is frozen); on an active tick the score is
    the time since the round started, in seconds, the difficulty is
    [1 + score / 30], and with the clock at or after the start the score
    is non-negative and the difficulty at least 1.  The score does not
    count ticks: it is read off the clock. *)
Theorem score_follows_clock (current_time spawn_ticks abilities_time : Z)
    (s : GameState) (r : Random.state) :
  exists s' r',
    update_game_logic current_time spawn_ticks abilities_time s r
    = Some (s', r')
    /\ (game_active s = false -> s' = s /\ r' = r)
    /\ (game_active s = true ->
        score s' = IZR (current_time - start_time s) / 1000
        /\ difficulty_multiplier s' = 1 + score s' / 30
        /\ start_time s' = start_time s
        /\ ((start_time s <= current_time)%Z ->
            0 <= score s' /\ 1 <= difficulty_multiplier s')).
Proof.
  destruct (game_active s) eqn:Hact.
  - destruct (update_game_logic_tail current_time spawn_ticks
                abilities_time s r Hact)
      as (sB & r' & H & Hsc & Hdm & Hst & _).
    exists (logic_tail abilities_time sB), r'; split; [exact H |].
    split; [discriminate |]; intros _.
    destruct (logic_tail_fields abilities_time sB)
      as (_ & _ & _ & _ & _ & _ & Hsc' & Hdm').
    rewrite Hsc', Hdm', logic_tail_start_time, Hsc, Hdm, Hst.
    split; [reflexivity |]; split; [reflexivity |]; split; [reflexivity |].
    intros Hle; apply IZR_le in Hle; rewrite minus_IZR in *; split; lra.
  - exists s, r; unfold update_game_logic; rewrite Hact.
    split; [reflexivity |]; split; [auto | discriminate].
Qed.

Lemma score_follows_clock_witness :
  exists s' r',
    update_game_logic 4000 4000 4000
      (set_game_active true (reset_game 1000 (init 0))) (constant_tape 0 0)
    = Some (s', r')
    /\ score s' = IZR (4000 - 1000) / 1000.
Proof.
  destruct (score_follows_clock 4000 4000 4000
              (set_game_active true (reset_game 1000 (init 0)))
              (constant_tape 0 0)) as (s' & r' & H & _ & Hact).
  exists s', r'; split; [exact H |].
  apply Hact; reflexivity.
Defined.



(** ** Particles and shake *)

Lemma aged_0 (p : Particle.t) : aged 0 p = p.
Proof.
  destruct p; unfold aged; cbn [Particle.x Particle.y Particle.vx Particle.vy
    Particle.life Particle.color INR Z.of_nat].
  f_equal; try ring; lia.
Qed.

Lemma aged_S (n : nat) (p : Particle.t) :
  move_particle (aged n p) = aged (S n) p.
Proof.
  unfold move_particle, aged; cbn [Particle.x Particle.y Particle.vx
    Particle.vy Particle.life Particle.color].
  rewrite S_INR; f_equal; try ring; lia.
Qed.

Lemma update_particles_aged (n : nat) (ps : list Particle.t) :
  update_particles
    (map (aged n) (filter (fun p => Z.of_nat n <? Particle.life p)%Z ps))
  = map (aged (S n))
      (filter (fun p => Z.of_nat (S n) <? Particle.life p)%Z ps).
Proof.
  induction ps as [| p ps IH]; [reflexivity |].
  cbn [filter].
  destruct (Z.ltb_spec (Z.of_nat n) (Particle.life p));
    destruct (Z.ltb_spec (Z.of_nat (S n)) (Particle.life p)); try lia;
    cbn [map update_particles]; rewrite ?aged_S, ?IH.
  - destruct (Z.leb_spec (Particle.life (aged (S n) p)) 0);
      [cbn in *; lia | reflexivity].
  - destruct (Z.leb_spec (Particle.life (aged (S n) p)) 0);
      [reflexivity | cbn in *; lia].
  - reflexivity.
Qed.

(** X13: starting from particles whose lives are between 1 and 30 (as
    they are in every reachable state), after [n] runs of the particle
    loop of [update_game_logic] the particles left are those whose life
    was more than [n], each moved by [n] times its velocity and [n] ticks
    older; after 30 runs or more none is left. *)
Theorem particles_age_and_expire (ps : list Particle.t) :
  Forall (fun p => (1 <= Particle.life p <= 30)%Z) ps ->
  (forall n,
     Nat.iter n update_particles ps
     = map (aged n) (filter (fun p => Z.of_nat n <? Particle.life p)%Z ps))
  /\ (forall n, (30 <= n)%nat -> Nat.iter n update_particles ps = []).
Proof.
  intros Hall.
  assert (Hclosed : forall n,
             Nat.iter n update_particles ps
             = map (aged n)
                 (filter (fun p => Z.of_nat n <? Particle.life p)%Z ps)).
  { induction n as [| n IH].
    - change (Nat.iter 0 update_particles ps) with ps.
      induction Hall as [| p ps Hp _ IHp]; [reflexivity |].
      cbn [filter Z.of_nat].
      destruct (Z.ltb_spec 0 (Particle.life p)); [| lia].
      cbn [map]; rewrite aged_0; f_equal; exact IHp.
    - change (Nat.iter (S n) update_particles ps)
        with (update_particles (Nat.iter n update_particles ps)).
      rewrite IH; apply update_particles_aged. }
  split; [exact Hclosed |].
  intros n Hn; rewrite Hclosed; clear Hclosed.
  induction Hall as [| p ps Hp _ IH]; [reflexivity |].
  cbn [filter]; destruct (Z.ltb_spec (Z.of_nat n) (Particle.life p));
    [lia | exact IH].
Qed.

Lemma particles_age_and_expire_witness :
  Nat.iter 30 update_particles [Particle.mk 10 20 1 (-1) 30 CYAN] = [].
Proof.
  apply (proj2 (particles_age_and_expire [Particle.mk 10 20 1 (-1) 30 CYAN]
                  ltac:(repeat constructor; cbn; lia)) 30%nat).
  lia.
Defined.

(** X14: one active tick runs the particle loop once, lowers a positive
    shake counter by exactly one (a counter at 0 stays there) and leaves
    the player where [handle_input] put it. *)
Theorem tick_decays_effects (current_time spawn_ticks abilities_time : Z)
    (s : GameState) (r : Random.state) :
  game_active s = true ->
  (0 <= screen_shake s)%Z ->
  exists s' r',
    update_game_logic current_time spawn_ticks abilities_time s r
    = Some (s', r')
    /\ particles s' = update_particles (particles s)
    /\ screen_shake s' = Z.max 0 (screen_shake s - 1)
    /\ (player_x s', player_y s') = (player_x s, player_y s).
Proof.
  intros Hact Hsh.
  destruct (update_game_logic_tail current_time spawn_ticks abilities_time
              s r Hact)
    as (sB & r' & H & _ & _ & _ & Hp & Hs & _ & Hxy & _).
  exists (logic_tail abilities_time sB), r'; split; [exact H |].
  destruct (logic_tail_fields abilities_time sB)
    as (_ & Hx' & Hy' & Hs' & Hp' & _).
  injection Hxy as Hx Hy.
  rewrite Hp', Hs', Hx', Hy', Hp, Hs, Hx, Hy.
  split; [reflexivity | split; [| reflexivity]].
  destruct (Z.gtb_spec (screen_shake s) 0); lia.
Qed.

Lemma tick_decays_effects_witness :
  exists s' r',
    update_game_logic 4000 4000 4000
      (set_screen_shake 10 (set_game_active true (init 0)))
      (constant_tape 0 0) = Some (s', r')
    /\ screen_shake s' = 9%Z.
Proof.
  destruct (tick_decays_effects 4000 4000 4000
              (set_screen_shake 10 (set_game_active true (init 0)))
              (constant_tape 0 0))
    as (s' & r' & H & _ & Hs & _); [reflexivity | cbn; lia |].
  exists s', r'; split; [exact H | exact Hs].
Defined.

(** X15: on an active tick the enemies move with time factor 0.5 exactly
    when focus is on and the clock value read by [update_abilities] is at
    most the focus end time, and with factor 1 otherwise (so on the tick
    that ends the focus they already move at full speed).  At most one
    enemy is spawned before the move, the move adds the factor times the
    velocity to the position and leaves the velocity alone, and every
    enemy left is within the margin. *)
Theorem tick_moves_enemies (current_time spawn_ticks abilities_time : Z)
    (s : GameState) (r : Random.state) :
  game_active s = true ->
  exists s' r' spawned,
    update_game_logic current_time spawn_ticks abilities_time s r
    = Some (s', r')
    /\ (length spawned <= 1)%nat
    /\ (let tf := if focus_active s
                     && negb (abilities_time >? focus_end_time s)%Z
                  then 0.5 else 1 in
        enemies s' = update_enemies_loop tf (enemies s ++ spawned)
        /\ forall e,
             Enemy.x (move_enemy tf e) = Enemy.x e + Enemy.vx e * tf
             /\ Enemy.y (move_enemy tf e) = Enemy.y e + Enemy.vy e * tf
             /\ Enemy.vx (move_enemy tf e) = Enemy.vx e
             /\ Enemy.vy (move_enemy tf e) = Enemy.vy e)
    /\ Forall (fun e => off_screen e = false) (enemies s').
Proof.
  intros Hact.
  destruct (update_game_logic_tail current_time spawn_ticks abilities_time
              s r Hact)
    as (sB & r' & H & _ & _ & _ & _ & _ & _ & _ & Hf & Hfe & Hen).
  destruct (logic_tail_fields abilities_time sB)
    as (_ & _ & _ & _ & _ & Hen' & _).
  exists (logic_tail abilities_time sB), r'.
  exists (skipn (length (enemies s)) (enemies sB)).
  split; [exact H |].
  assert (Htf : time_factor (update_abilities abilities_time sB)
                = if focus_active s
                     && negb (abilities_time >? focus_end_time s)%Z
                  then 0.5 else 1).
  { unfold time_factor; rewrite update_abilities_focus_active, Hf, Hfe.
    reflexivity. }
  rewrite Hen', Htf.
  destruct Hen as [He | (e & He)].
  - assert (Hskip : skipn (length (enemies s)) (enemies sB) = [])
      by (rewrite He; apply skipn_all).
    rewrite Hskip.
    split; [cbn; lia |]; split;
      [| apply update_enemies_loop_on_screen].
    split; [rewrite app_nil_r, He; reflexivity | intros e; repeat split].
  - assert (Hskip : skipn (length (enemies s)) (enemies sB) = [e]).
    { rewrite He, skipn_app, skipn_all, Nat.sub_diag; reflexivity. }
    rewrite Hskip.
    split; [cbn; lia |]; split;
      [| apply update_enemies_loop_on_screen].
    split; [rewrite He; reflexivity | intros e0; repeat split].
Qed.

Lemma tick_moves_enemies_witness :
  exists s' r' spawned,
    update_game_logic 4000 4000 4000 (set_game_active true (init 0))
      (constant_tape 0 0) = Some (s', r')
    /\ (length spawned <= 1)%nat
    /\ enemies s' = update_enemies_loop 1 ([] ++ spawned).
Proof.
  destruct (tick_moves_enemies 4000 4000 4000
              (set_game_active true (init 0)) (constant_tape 0 0))
    as (s' & r' & sp & H & Hl & (He & _) & _); [reflexivity |].
  exists s', r', sp; split; [exact H | split; [exact Hl | exact He]].
Defined.

(** ** Spawned enemies *)

Lemma same_tapes_refl (r : Random.state) : same_tapes r r.
Proof. split; reflexivity. Qed.

Lemma same_tapes_next (r r' : Random.state) :
  same_tapes r r' -> same_tapes r (Random.next r').
Proof. intros [H1 H2]; split; [exact H1 | exact H2]. Qed.

Lemma unit_floats_same_tapes (r r' : Random.state) :
  same_tapes r r' -> unit_floats r -> unit_floats r'.
Proof. intros [H _] Hu n; rewrite H; apply Hu. Qed.

Lemma on_edge_in_margin (x y : R) :
  on_edge x y ->
  (-50 <= x <= IZR SCREEN_WIDTH + 50) /\ (-50 <= y <= IZR SCREEN_HEIGHT + 50).
Proof.
  unfold on_edge, SCREEN_WIDTH, SCREEN_HEIGHT.
  intros (k & [(-> & -> & Hk) | [(-> & -> & Hk) | [(-> & -> & Hk)
                                                  | (-> & -> & Hk)]]]);
    destruct Hk as [Hk1 Hk2]; apply IZR_le in Hk1, Hk2;
    rewrite ?plus_IZR; split; lra.
Qed.

Lemma edge_position_next (r : Random.state) :
  exists x y,
    edge_position r = Some (x, y, Random.next (Random.next r))
    /\ on_edge x y.
Proof.
  unfold edge_position.
  destruct (randint_Some 0 3 r ltac:(lia)) as (side & Hside & _).
  rewrite (bind_Some _ _ _ _ _ Hside).
  destruct (randint_Some 0 SCREEN_WIDTH (Random.next r)
              ltac:(unfold SCREEN_WIDTH; lia)) as (kx & Hkx & Hx).
  destruct (randint_Some 0 SCREEN_HEIGHT (Random.next r)
              ltac:(unfold SCREEN_HEIGHT; lia)) as (ky & Hky & Hy).
  destruct (side =? 0)%Z; [| destruct (side =? 1)%Z;
                              [| destruct (side =? 2)%Z]].
  - rewrite (bind_Some _ _ _ _ _ Hkx).
    eexists; eexists; split; [reflexivity |].
    exists kx; left; auto.
  - rewrite (bind_Some _ _ _ _ _ Hky).
    eexists; eexists; split; [reflexivity |].
    exists ky; right; left; auto.
  - rewrite (bind_Some _ _ _ _ _ Hkx).
    eexists; eexists; split; [reflexivity |].
    exists kx; right; right; left; auto.
  - rewrite (bind_Some _ _ _ _ _ Hky).
    eexists; eexists; split; [reflexivity |].
    exists ky; right; right; right; auto.
Qed.

(** Where each pattern can place an enemy. *)
Lemma spawn_position_spec (p : Pattern.t) (ticks : Z) (r : Random.state) :
  exists x y r',
    spawn_position p ticks r = Some (x, y, r')
    /\ same_tapes r r'
    /\ (-100 <= x <= IZR SCREEN_WIDTH + 100)
    /\ (-100 <= y <= IZR SCREEN_HEIGHT + 100)
    /\ (edge_pattern p = true -> on_edge x y).
Proof.
  assert (Hedge : exists x y r',
             edge_position r = Some (x, y, r') /\ same_tapes r r'
             /\ (-100 <= x <= IZR SCREEN_WIDTH + 100)
             /\ (-100 <= y <= IZR SCREEN_HEIGHT + 100)
             /\ on_edge x y).
  { destruct (edge_position_next r) as (x & y & H & He).
    exists x, y, (Random.next (Random.next r)).
    destruct (on_edge_in_margin x y He) as [Hx Hy].
    split; [exact H |]; split; [apply same_tapes_next, same_tapes_next,
                                  same_tapes_refl |].
    split; [lra |]; split; [lra | exact He]. }
  destruct Hedge as (x & y & r' & H & Ht & Hx & Hy & He).
  destruct p; cbn [spawn_position edge_pattern];
    try (exists x, y, r'; split; [exact H |]; split; [exact Ht |];
         split; [exact Hx |]; split; [exact Hy |]; intros _; exact He).
  - (* SPIRAL *)
    eexists; eexists; eexists; split; [reflexivity |].
    split; [apply same_tapes_refl |].
    unfold SCREEN_WIDTH, SCREEN_HEIGHT.
    change (1200 / 2)%Z with 600%Z; change (800 / 2)%Z with 400%Z.
    match goal with
    | |- context [cos ?a] =>
        pose proof (COS_bound a) as Hc; pose proof (SIN_bound a) as Hs
    end.
    split; [lra |]; split; [lra | discriminate].
  - (* WAVE *)
    destruct (choice_Some [0%Z; SCREEN_WIDTH] r ltac:(discriminate))
      as (a & Ha & Hin).
    rewrite (bind_Some _ _ _ _ _ Ha).
    eexists; eexists; eexists; split; [reflexivity |].
    split; [apply same_tapes_next, same_tapes_refl |].
    unfold SCREEN_WIDTH, SCREEN_HEIGHT in *.
    change (800 / 2)%Z with 400%Z.
    match goal with
    | |- context [sin ?a] => pose proof (SIN_bound a) as Hs
    end.
    destruct Hin as [<- | [<- | []]];
      (split; [lra |]; split; [lra | discriminate]).
  - (* CIRCLE *)
    eexists; eexists; eexists; split; [reflexivity |].
    split; [apply same_tapes_next, same_tapes_refl |].
    unfold SCREEN_WIDTH, SCREEN_HEIGHT.
    change (1200 / 2)%Z with 600%Z; change (800 / 2)%Z with 400%Z.
    match goal with
    | |- context [cos ?a] =>
        pose proof (COS_bound a) as Hc; pose proof (SIN_bound a) as Hs
    end.
    split; [lra |]; split; [lra | discriminate].
Qed.

(** Every attribute of the enemy that [spawn_enemy] appends, in terms of
    the draws. *)
Lemma spawn_enemy_fields (pattern : option Pattern.t) (ticks : Z)
    (s : GameState) (r r1 r2 : Random.state) (sh : ShapeType.t) (x y : R) :
  choice ShapeType.all r = Some (sh, r1) ->
  spawn_position (pattern_used pattern s) ticks r1 = Some (x, y, r2) ->
  let dx := IZR (player_x s) - x in
  let dy := IZR (player_y s) - y in
  let d := sqrt (dx * dx + dy * dy) in
  exists e r' u1 u2 u3 u4 u5 u6 u7 u8,
    spawn_enemy pattern ticks s r
    = Some (set_enemies (enemies s ++ [e]) s, r')
    /\ Forall (fun u => exists n, u = Random.floats r2 n)
         [u1; u2; u3; u4; u5; u6; u7; u8]
    /\ Enemy.x e = x /\ Enemy.y e = y /\ Enemy.shape_type e = sh
    /\ (0 < d ->
        Enemy.vx e = dx / d * ((1 + (3 - 1) * u1) * difficulty_multiplier s)
                     + (-0.5 + (0.5 - -0.5) * u2)
        /\ Enemy.vy e = dy / d * ((1 + (3 - 1) * u1) * difficulty_multiplier s)
                        + (-0.5 + (0.5 - -0.5) * u3))
    /\ (~ 0 < d ->
        Enemy.vx e = -2 + (2 - -2) * u1 /\ Enemy.vy e = -2 + (2 - -2) * u2)
    /\ Enemy.size e = 15 + (40 - 15) * u4
    /\ In (Enemy.color e) palette
    /\ Enemy.rotation e = 0 + (2 * PI - 0) * u5
    /\ Enemy.rotation_speed e = -0.1 + (0.1 - -0.1) * u6
    /\ Enemy.pulse_phase e = 0 + (2 * PI - 0) * u7
    /\ Enemy.dimension_phase e = 0 + (2 * PI - 0) * u8.
Proof.
  intros Hsh Hpos dx dy d; unfold spawn_enemy.
  fold (pattern_used pattern s).
  rewrite (bind_Some _ _ _ _ _ Hsh), (bind_Some _ _ _ _ _ Hpos).
  fold dx dy d.
  destruct (Py.Rltb 0 d) eqn:E.
  - apply Rltb_true in E.
    assert (Hd : d <> 0) by lra.
    unfold bind at 1; unfold bind at 1.
    rewrite uniform_Some.
    unfold bind at 1; rewrite (div_Some _ _ _ Hd).
    unfold bind at 1; rewrite uniform_Some.
    unfold bind at 1; rewrite (div_Some _ _ _ Hd).
    unfold bind at 1; rewrite uniform_Some.
    unfold ret at 1.
    unfold bind at 1; rewrite uniform_Some.
    match goal with
    | |- context [bind (choice palette) _ ?r0] =>
        destruct (choice_Some palette r0 ltac:(discriminate)) as (c & Hc & Hin)
    end.
    rewrite (bind_Some _ _ _ _ _ Hc).
    repeat (unfold bind at 1; rewrite uniform_Some).
    unfold ret.
    eexists; eexists.
    exists (Random.floats r2 (Random.drawn r2)).
    exists (Random.floats r2 (S (Random.drawn r2))).
    exists (Random.floats r2 (S (S (Random.drawn r2)))).
    exists (Random.floats r2 (S (S (S (Random.drawn r2))))).
    exists (Random.floats r2 (S (S (S (S (S (Random.drawn r2))))))).
    exists (Random.floats r2 (S (S (S (S (S (S (Random.drawn r2)))))))).
    exists (Random.floats r2 (S (S (S (S (S (S (S (Random.drawn r2))))))))).
    exists (Random.floats r2
              (S (S (S (S (S (S (S (S (Random.drawn r2)))))))))).
    split; [reflexivity |].
    split; [repeat (constructor; [eexists; reflexivity |]); constructor |].
    cbn [Enemy.x Enemy.y Enemy.vx Enemy.vy Enemy.shape_type Enemy.size
         Enemy.color Enemy.rotation Enemy.rotation_speed Enemy.pulse_phase
         Enemy.dimension_phase].
    do 3 (split; [reflexivity |]).
    split; [intros _; split; reflexivity |].
    split; [intros Hn; contradiction |].
    split; [reflexivity |]; split; [exact Hin |].
    repeat split.
  - apply Rltb_false in E.
    unfold bind at 1; unfold bind at 1.
    rewrite uniform_Some.
    unfold bind at 1; rewrite uniform_Some.
    unfold ret at 1.
    unfold bind at 1; rewrite uniform_Some.
    match goal with
    | |- context [bind (choice palette) _ ?r0] =>
        destruct (choice_Some palette r0 ltac:(discriminate)) as (c & Hc & Hin)
    end.
    rewrite (bind_Some _ _ _ _ _ Hc).
    repeat (unfold bind at 1; rewrite uniform_Some).
    unfold ret.
    eexists; eexists.
    exists (Random.floats r2 (Random.drawn r2)).
    exists (Random.floats r2 (S (Random.drawn r2))).
    exists (Random.floats r2 0).
    exists (Random.floats r2 (S (S (Random.drawn r2)))).
    exists (Random.floats r2 (S (S (S (S (Random.drawn r2)))))).
    exists (Random.floats r2 (S (S (S (S (S (Random.drawn r2))))))).
    exists (Random.floats r2 (S (S (S (S (S (S (Random.drawn r2)))))))).
    exists (Random.floats r2 (S (S (S (S (S (S (S (Random.drawn r2))))))))).
    split; [reflexivity |].
    cbn [Enemy.x Enemy.y Enemy.vx Enemy.vy Enemy.shape_type Enemy.size
         Enemy.color Enemy.rotation Enemy.rotation_speed Enemy.pulse_phase
         Enemy.dimension_phase].
    split; [repeat (constructor; [eexists; reflexivity |]); constructor |].
    do 3 (split; [reflexivity |]).
    split; [intros Hp; contradiction |].
    split; [intros _; split; reflexivity |].
    split; [reflexivity |]; split; [exact Hin |].
    repeat split.
Qed.

Lemma spawn_enemy_draws (pattern : option Pattern.t) (ticks : Z)
    (s : GameState) (r : Random.state) :
  exists sh x y r2,
    choice ShapeType.all r = Some (sh, Random.next r)
    /\ spawn_position (pattern_used pattern s) ticks (Random.next r)
       = Some (x, y, r2)
    /\ same_tapes r r2
    /\ (-100 <= x <= IZR SCREEN_WIDTH + 100)
    /\ (-100 <= y <= IZR SCREEN_HEIGHT + 100)
    /\ (edge_pattern (pattern_used pattern s) = true -> on_edge x y).
Proof.
  destruct (choice_Some ShapeType.all r ltac:(discriminate))
    as (sh & Hsh & _).
  destruct (spawn_position_spec (pattern_used pattern s) ticks
              (Random.next r)) as (x & y & r2 & Hpos & Ht & Hx & Hy & He).
  exists sh, x, y, r2.
  split; [exact Hsh |]; split; [exact Hpos |]; split; [exact Ht |].
  split; [exact Hx |]; split; [exact Hy | exact He].
Qed.

(** X16: [spawn_enemy] never raises and changes nothing but the enemy
    list, to which it appends one enemy; whatever the pattern, that enemy
    starts within the 100-unit margin, so it is not removed for its spawn
    position. *)
Theorem spawn_appends_one_inside_margin (pattern : option Pattern.t)
    (ticks : Z) (s : GameState) (r : Random.state) :
  exists e r',
    spawn_enemy pattern ticks s r
    = Some (set_enemies (enemies s ++ [e]) s, r')
    /\ -100 <= Enemy.x e <= IZR SCREEN_WIDTH + 100
    /\ -100 <= Enemy.y e <= IZR SCREEN_HEIGHT + 100
    /\ off_screen e = false.
Proof.
  destruct (spawn_enemy_draws pattern ticks s r)
    as (sh & x & y & r2 & Hsh & Hpos & _ & Hx & Hy & _).
  destruct (spawn_enemy_fields pattern ticks s _ _ _ _ _ _ Hsh Hpos)
    as (e & r' & u1 & u2 & u3 & u4 & u5 & u6 & u7 & u8 & H & _ & Ex & Ey & _).
  exists e, r'; rewrite Ex, Ey.
  split; [exact H | split; [exact Hx | split; [exact Hy |]]].
  destruct (off_screen e) eqn:E; [| reflexivity].
  apply off_screen_spec in E; rewrite Ex, Ey in E; lra.
Qed.

Lemma sum_squares_far (a b : R) :
  b <= -56 \/ 56 <= b -> 56 * 56 <= a * a + b * b.
Proof. intros [H | H]; assert (0 <= a * a) by nra; nra. Qed.

(** X17: under a pattern placed by the edge rule (RANDOM, ZIGZAG, CROSS,
    BURST, ORBIT) and with the player on the screen, the new enemy starts
    at least 56 units from the player; an enemy of size at most 40 then
    does not collide with a player of size at most 12 where it spawns. *)
Theorem edge_spawn_is_out_of_reach (pattern : option Pattern.t) (ticks : Z)
    (s : GameState) (r : Random.state) :
  edge_pattern (pattern_used pattern s) = true ->
  (6 <= player_x s <= 1194)%Z ->
  (6 <= player_y s <= 794)%Z ->
  exists e r',
    spawn_enemy pattern ticks s r
    = Some (set_enemies (enemies s ++ [e]) s, r')
    /\ 56 <= distance_to_player s e
    /\ (Enemy.size e <= 40 -> (player_size s <= 12)%Z ->
        collides s e = false).
Proof.
  intros Hedge [Hx1 Hx2] [Hy1 Hy2].
  destruct (spawn_enemy_draws pattern ticks s r)
    as (sh & x & y & r2 & Hsh & Hpos & _ & _ & _ & He).
  destruct (spawn_enemy_fields pattern ticks s _ _ _ _ _ _ Hsh Hpos)
    as (e & r' & u1 & u2 & u3 & u4 & u5 & u6 & u7 & u8 & H & _ & Ex & Ey & _).
  exists e, r'; split; [exact H |].
  apply IZR_le in Hx1, Hx2, Hy1, Hy2.
  assert (Hfar : 56 <= distance_to_player s e).
  { unfold distance_to_player; rewrite Ex, Ey.
    rewrite <- (sqrt_square 56) at 1 by lra.
    apply sqrt_le_1_alt.
    destruct (He Hedge) as (k & Hk).
    unfold SCREEN_WIDTH, SCREEN_HEIGHT in Hk.
    change (1200 + 50)%Z with 1250%Z in Hk.
    change (800 + 50)%Z with 850%Z in Hk.
    destruct Hk as [(-> & -> & Hk) | [(-> & -> & Hk) | [(-> & -> & Hk)
                                                    | (-> & -> & Hk)]]].
    - apply sum_squares_far; left; lra.
    - rewrite Rplus_comm; apply sum_squares_far; right; lra.
    - apply sum_squares_far; right; lra.
    - rewrite Rplus_comm; apply sum_squares_far; left; lra. }
  split; [exact Hfar |].
  intros Hsize Hplayer; apply Rltb_false.
  unfold collision_distance; apply IZR_le in Hplayer; lra.
Qed.

Lemma edge_spawn_is_out_of_reach_witness :
  exists e r',
    spawn_enemy (Some Pattern.ORBIT) 0 (init 0) (constant_tape 0 0)
    = Some (set_enemies [e] (init 0), r')
    /\ 56 <= distance_to_player (init 0) e.
Proof.
  destruct (edge_spawn_is_out_of_reach (Some Pattern.ORBIT) 0 (init 0)
              (constant_tape 0 0)) as (e & r' & H & Hd & _);
    [reflexivity | cbn; lia | cbn; lia |].
  exists e, r'; split; [exact H | exact Hd].
Defined.

Lemma Forall_eight {A : Type} (P : A -> Prop) (a b c d e f g h : A) :
  Forall P [a; b; c; d; e; f; g; h] ->
  P a /\ P b /\ P c /\ P d /\ P e /\ P f /\ P g /\ P h.
Proof.
  intros H; repeat (apply Forall_cons_iff in H; destruct H as [? H]).
  repeat split; assumption.
Qed.

(** X18: when the float tape holds values of [random.random()], within
    [0, 1], the new enemy has a size within [15, 40], a colour of the
    eight-colour palette, a rotation speed within [-0.1, 0.1] and a
    rotation and phases within [0, 2 pi]. *)
Theorem spawned_attributes_in_range (pattern : option Pattern.t) (ticks : Z)
    (s : GameState) (r : Random.state) :
  unit_floats r ->
  exists e r',
    spawn_enemy pattern ticks s r
    = Some (set_enemies (enemies s ++ [e]) s, r')
    /\ 15 <= Enemy.size e <= 40
    /\ In (Enemy.color e) palette
    /\ -0.1 <= Enemy.rotation_speed e <= 0.1
    /\ 0 <= Enemy.rotation e <= 2 * PI
    /\ 0 <= Enemy.pulse_phase e <= 2 * PI
    /\ 0 <= Enemy.dimension_phase e <= 2 * PI.
Proof.
  intros Hunit.
  destruct (spawn_enemy_draws pattern ticks s r)
    as (sh & x & y & r2 & Hsh & Hpos & Ht & _).
  pose proof (unit_floats_same_tapes r r2 Ht Hunit) as Hunit2.
  destruct (spawn_enemy_fields pattern ticks s _ _ _ _ _ _ Hsh Hpos)
    as (e & r' & u1 & u2 & u3 & u4 & u5 & u6 & u7 & u8 & H & Hu & _ & _ & _
        & _ & _ & Hsize & Hcol & Hrot & Hrs & Hpp & Hdp).
  assert (Hall : Forall (fun u => 0 <= u <= 1)
                   [u1; u2; u3; u4; u5; u6; u7; u8]).
  { eapply Forall_impl; [| exact Hu].
    intros u (n & ->); apply Hunit2. }
  destruct (Forall_eight _ _ _ _ _ _ _ _ _ Hall)
    as (_ & _ & _ & B4 & B5 & B6 & B7 & B8).
  pose proof PI_RGT_0 as Hpi.
  exists e, r'; rewrite Hsize, Hrot, Hrs, Hpp, Hdp.
  split; [exact H |]; split; [lra |]; split; [exact Hcol |].
  split; [lra |]; repeat split; nra.
Qed.

Lemma spawned_attributes_in_range_witness :
  exists e r',
    spawn_enemy None 0 (init 0) (constant_tape 0 0)
    = Some (set_enemies [e] (init 0), r')
    /\ 15 <= Enemy.size e <= 40.
Proof.
  destruct (spawned_attributes_in_range None 0 (init 0) (constant_tape 0 0))
    as (e & r' & H & Hs & _); [intros n; cbn; lra |].
  exists e, r'; split; [exact H | exact Hs].
Defined.

(** X19: with such a tape and a difficulty multiplier of at least 1, an
    enemy that does not spawn on the player starts out approaching it: its
    velocity has a positive component along the direction from the spawn
    position to the player. *)
Theorem spawned_enemy_approaches_player (pattern : option Pattern.t)
    (ticks : Z) (s : GameState) (r : Random.state) :
  unit_floats r ->
  1 <= difficulty_multiplier s ->
  exists e r',
    spawn_enemy pattern ticks s r
    = Some (set_enemies (enemies s ++ [e]) s, r')
    /\ (let dx := IZR (player_x s) - Enemy.x e in
        let dy := IZR (player_y s) - Enemy.y e in
        0 < dx * dx + dy * dy ->
        0 < Enemy.vx e * dx + Enemy.vy e * dy).
Proof.
  intros Hunit Hdiff.
  destruct (spawn_enemy_draws pattern ticks s r)
    as (sh & x & y & r2 & Hsh & Hpos & Ht & _).
  pose proof (unit_floats_same_tapes r r2 Ht Hunit) as Hunit2.
  destruct (spawn_enemy_fields pattern ticks s _ _ _ _ _ _ Hsh Hpos)
    as (e & r' & u1 & u2 & u3 & u4 & u5 & u6 & u7 & u8 & H & Hu & Ex & Ey & _
        & Hv & _).
  assert (Hall : Forall (fun u => 0 <= u <= 1)
                   [u1; u2; u3; u4; u5; u6; u7; u8]).
  { eapply Forall_impl; [| exact Hu].
    intros u (n & ->); apply Hunit2. }
  destruct (Forall_eight _ _ _ _ _ _ _ _ _ Hall) as (B1 & B2 & B3 & _).
  exists e, r'; split; [exact H |].
  rewrite Ex, Ey; intros dx dy Hpos2.
  set (d := sqrt (dx * dx + dy * dy)) in *.
  assert (Hd : 0 < d) by (apply sqrt_lt_R0; exact Hpos2).
  assert (Hsq : d * d = dx * dx + dy * dy) by (apply sqrt_sqrt; lra).
  destruct (Hv Hd) as [Hvx Hvy]; rewrite Hvx, Hvy.
  set (speed := (1 + (3 - 1) * u1) * difficulty_multiplier s).
  set (jx := -0.5 + (0.5 - -0.5) * u2).
  set (jy := -0.5 + (0.5 - -0.5) * u3).
  assert (Hspeed : 1 <= speed) by (unfold speed; nra).
  assert (Hjx : -0.5 <= jx <= 0.5) by (unfold jx; lra).
  assert (Hjy : -0.5 <= jy <= 0.5) by (unfold jy; lra).
  change (0 < (dx / d * speed + jx) * dx + (dy / d * speed + jy) * dy).
  assert (Hunit_dir : dx / d * dx + dy / d * dy = d).
  { replace (dx / d * dx + dy / d * dy) with ((dx * dx + dy * dy) / d)
      by (field; lra).
    rewrite <- Hsq; field; lra. }
  replace ((dx / d * speed + jx) * dx + (dy / d * speed + jy) * dy)
    with (speed * (dx / d * dx + dy / d * dy) + (jx * dx + jy * dy))
    by ring.
  rewrite Hunit_dir.
  assert (Hcs : (jx * dx + jy * dy) * (jx * dx + jy * dy)
                <= (jx * jx + jy * jy) * (d * d)).
  { rewrite Hsq.
    replace ((jx * jx + jy * jy) * (dx * dx + dy * dy))
      with ((jx * dx + jy * dy) * (jx * dx + jy * dy)
            + (jx * dy - jy * dx) * (jx * dy - jy * dx)) by ring.
    pose proof (Rle_0_sqr (jx * dy - jy * dx)) as Hnn.
    unfold Rsqr in Hnn; lra. }
  assert (Hj2 : jx * jx + jy * jy <= 1 / 2) by nra.
  assert (Hlow : - d < jx * dx + jy * dy).
  { destruct (Rlt_dec (- d) (jx * dx + jy * dy)) as [Hok | Hno]; [exact Hok |].
    exfalso.
    assert (d * d <= (jx * dx + jy * dy) * (jx * dx + jy * dy)) by nra.
    nra. }
  nra.
Qed.

Lemma spawned_enemy_approaches_player_witness :
  exists e r',
    spawn_enemy None 0 (init 0) (constant_tape 0 0)
    = Some (set_enemies [e] (init 0), r')
    /\ (0 < (600 - Enemy.x e) * (600 - Enemy.x e)
            + (400 - Enemy.y e) * (400 - Enemy.y e) ->
        0 < Enemy.vx e * (600 - Enemy.x e) + Enemy.vy e * (400 - Enemy.y e)).
Proof.
  destruct (spawned_enemy_approaches_player None 0 (init 0)
              (constant_tape 0 0)) as (e & r' & H & Happroach);
    [intros n; cbn; lra | cbn; lra |].
  exists e, r'; split; [exact H | exact Happroach].
Defined.

(** ** What the renderer hands to pygame *)





Lemma Forall_map_all {A B : Type} (P : B -> Prop) (f : A -> B) (l : list A) :
  (forall a, P (f a)) -> Forall P (map f l).
Proof. intros H; induction l; constructor; auto. Qed.




Lemma draw_shape_total (s : GameState) (r : Random.state)
    (shape_type : ShapeType.t) (x y size : R) (color : Color)
    (rotation pulse_phase dimension_phase : R) :
  exists dx dy r',
    draw_shape s shape_type x y size color rotation pulse_phase
      dimension_phase r
    = Some (render shape_type (x + IZR dx) (y + IZR dy) size color rotation
              pulse_phase dimension_phase, r')
    /\ ((screen_shake s <= 0)%Z -> r' = r).
Proof.
  destruct (Z.le_gt_cases (screen_shake s) 0) as [H | H].
  - exists 0%Z, 0%Z, r; rewrite !Rplus_0_r.
    split; [apply draw_shape_still; exact H | auto].
  - exists (jitter s r), (jitter s (Random.next r)),
      (Random.next (Random.next r)).
    split; [apply draw_shape_shaking; lia | lia].
Qed.



Lemma render_pulse_phase (shape_type : ShapeType.t) (x y size : R)
    (color : Color) (rotation pulse_phase dimension_phase : R) :
  render shape_type x y size color rotation pulse_phase dimension_phase
  = render shape_type x y (size + sin pulse_phase * 3) color rotation 0
      dimension_phase.
Proof.
  unfold render; rewrite sin_0, Rmult_0_l, !Rplus_0_r; reflexivity.
Qed.

(** X21: the pulse phase acts on the drawing only through the size:
    whatever the shape, the shake and the generator, [draw_shape] with
    pulse phase [p] draws what it draws at phase 0 for the size
    [size + 3 sin(p)], which is within 3 of [size]; at phase 0 that size
    is [size] itself. *)
Theorem pulse_phase_only_resizes (s : GameState) (r : Random.state)
    (shape_type : ShapeType.t) (x y size : R) (color : Color)
    (rotation pulse_phase dimension_phase : R) :
  draw_shape s shape_type x y size color rotation pulse_phase
    dimension_phase r
  = draw_shape s shape_type x y (size + sin pulse_phase * 3) color rotation
      0 dimension_phase r
  /\ size - 3 <= size + sin pulse_phase * 3 <= size + 3
  /\ size + sin 0 * 3 = size.
Proof.
  split; [| split].
  - destruct (Z.le_gt_cases (screen_shake s) 0) as [H | H].
    + rewrite !draw_shape_still by exact H.
      rewrite render_pulse_phase; reflexivity.
    + rewrite !draw_shape_shaking by lia.
      rewrite render_pulse_phase; reflexivity.
  - pose proof (SIN_bound pulse_phase); lra.
  - rewrite sin_0; ring.
Qed.

Lemma render_regular_polygon (shape_type : ShapeType.t) (n : nat)
    (x y size : R) (color : Color)
    (rotation pulse_phase dimension_phase : R) :
  polygon_sides shape_type = Some n ->
  exists points,
    render shape_type x y size color rotation pulse_phase dimension_phase
    = [polygon color points]
    /\ length points = n
    /\ Forall (fun p => (fst p - x) * (fst p - x) + (snd p - y) * (snd p - y)
                        = (size + sin pulse_phase * 3)
                          * (size + sin pulse_phase * 3)) points.
Proof.
  intros Hn; unfold render.
  destruct shape_type; try discriminate; injection Hn as <-;
    cbn [advanced_shapes basic_shape advanced_shape];
    (eexists; split; [reflexivity |]);
    (split; [rewrite length_map; apply length_seq |]);
    apply Forall_map_all; intros i; cbn [fst snd];
    match goal with
    | |- context [cos ?a] =>
        pose proof (sin2_cos2 a) as Hsc; unfold Rsqr in Hsc;
        match goal with
        | |- ?L = ?P * ?P =>
            replace L with (P * P * (sin a * sin a + cos a * cos a)) by ring;
            rewrite Hsc; ring
        end
    end.
Qed.

(** X22: a triangle, pentagon, hexagon or octagon is drawn as one polygon
    of 3, 5, 6 or 8 vertices in the given colour, every vertex at distance
    [size + 3 sin(pulse_phase)] from the centre drawn at, which is the
    given centre when the screen does not shake. *)
Theorem regular_polygon_vertices (s : GameState) (r : Random.state)
    (shape_type : ShapeType.t) (n : nat) (x y size : R) (color : Color)
    (rotation pulse_phase dimension_phase : R) :
  polygon_sides shape_type = Some n ->
  exists cx cy points r',
    draw_shape s shape_type x y size color rotation pulse_phase
      dimension_phase r = Some ([polygon color points], r')
    /\ length points = n
    /\ Forall (fun p => (fst p - cx) * (fst p - cx)
                        + (snd p - cy) * (snd p - cy)
                        = (size + sin pulse_phase * 3)
                          * (size + sin pulse_phase * 3)) points
    /\ ((screen_shake s <= 0)%Z -> cx = x /\ cy = y).
Proof.
  intros Hn.
  destruct (Z.le_gt_cases (screen_shake s) 0) as [H | H].
  - destruct (render_regular_polygon shape_type n x y size color rotation
                pulse_phase dimension_phase Hn) as (pts & Hr & Hlen & Hall).
    exists x, y, pts, r; rewrite draw_shape_still, Hr by exact H; auto.
  - destruct (render_regular_polygon shape_type n (x + IZR (jitter s r))
                (y + IZR (jitter s (Random.next r))) size color rotation
                pulse_phase dimension_phase Hn) as (pts & Hr & Hlen & Hall).
    exists (x + IZR (jitter s r)), (y + IZR (jitter s (Random.next r))), pts,
      (Random.next (Random.next r)).
    rewrite draw_shape_shaking, Hr by lia.
    split; [reflexivity | split; [exact Hlen | split; [exact Hall | lia]]].
Qed.

Lemma regular_polygon_vertices_witness :
  exists cx cy points r',
    draw_shape (init 0) ShapeType.HEXAGON 100 100 20 RED 0 0 0
      (constant_tape 0 0) = Some ([polygon RED points], r')
    /\ length points = 6%nat
    /\ Forall (fun p => (fst p - cx) * (fst p - cx)
                        + (snd p - cy) * (snd p - cy)
                        = (20 + sin 0 * 3) * (20 + sin 0 * 3)) points
    /\ ((screen_shake (init 0) <= 0)%Z -> cx = 100 /\ cy = 100).
Proof.
  apply (regular_polygon_vertices (init 0) (constant_tape 0 0)
           ShapeType.HEXAGON 6 100 100 20 RED 0 0 0).
  reflexivity.
Defined.

(** ** The frame *)

Lemma draw_enemies_total (s : GameState) (es : list Enemy.t)
    (r : Random.state) :
  exists ps r',
    draw_enemies s es r = Some (ps, r')
    /\ ((screen_shake s <= 0)%Z -> r' = r).
Proof.
  revert r; induction es as [| e es IH]; intros r.
  - exists [], r; split; [reflexivity | auto].
  - destruct (draw_shape_total s r (Enemy.shape_type e) (Enemy.x e)
                (Enemy.y e) (Enemy.size e) (Enemy.color e) (Enemy.rotation e)
                (Enemy.pulse_phase e) (Enemy.dimension_phase e))
      as (dx & dy & r1 & H1 & Hr1).
    destruct (IH r1) as (qs & r2 & H2 & Hr2).
    cbn [draw_enemies].
    rewrite (bind_Some _ _ _ _ _ H1), (bind_Some _ _ _ _ _ H2).
    eexists; exists r2; split; [reflexivity |].
    intros Hs; rewrite (Hr2 Hs), (Hr1 Hs); reflexivity.
Qed.



(** ** Events and idle frames *)

Lemma draw_total (s : GameState) (r : Random.state) :
  exists frame r', draw s r = Some (frame, r').
Proof.
  unfold draw; destruct (game_active s); cbn [negb];
    [| exists [], r; reflexivity].
  destruct (draw_enemies_total s (enemies s) r) as (es & r' & H & _).
  rewrite (bind_Some _ _ _ _ _ H); eexists; exists r'; reflexivity.
Qed.

(** X24: the RETURN key starts a round only when none is active: it then
    puts the player back at the centre at full size with all five
    charges, clears enemies, particles and trail, takes the clock value as
    the start of the round and keeps the high score; pressed during a
    round it changes nothing. *)
Theorem return_starts_round_only_when_idle (reset_time now : Z)
    (s : GameState) (r : Random.state) :
  let e := mkTimed (KEYDOWN K_RETURN) reset_time now in
  (game_active s = true -> handle_event e s r = Some (s, r))
  /\ (game_active s = false ->
      exists s',
        handle_event e s r = Some (s', r)
        /\ game_active s' = true
        /\ (player_x s', player_y s', player_size s', is_shrunk s')
           = (600, 400, 12, false)%Z
        /\ (pulse_uses s', focus_active s') = (5%Z, false)
        /\ enemies s' = [] /\ particles s' = [] /\ trail_points s' = []
        /\ start_time s' = reset_time /\ score s' = 0
        /\ high_score s' = high_score s
        /\ (last_dash s', last_focus s', last_pulse s', last_shrink s')
           = (0, 0, 0, 0)%Z).
Proof.
  cbv zeta; unfold handle_event; cbn [ev_event ev_reset_time ev_time].
  split; intros Hact; rewrite Hact; cbn [negb].
  - rewrite Hact; destruct (paused s); reflexivity.
  - eexists; split.
    + cbn [game_active set_game_active andb].
      destruct (negb (paused _)); reflexivity.
    + repeat split.
Qed.

Lemma return_starts_round_only_when_idle_witness :
  handle_event (mkTimed (KEYDOWN K_RETURN) 5000 5000)
    (set_game_active true (init 0)) (constant_tape 0 0)
  = Some (set_game_active true (init 0), constant_tape 0 0).
Proof.
  apply (proj1 (return_starts_round_only_when_idle 5000 5000
                  (set_game_active true (init 0)) (constant_tape 0 0))).
  reflexivity.
Defined.

(** X25: while the round is paused or over, a frame without events
    leaves the state as it is (nothing moves, the score is not updated),
    and the focus, pulse and shrink keys change nothing; the P key only
    flips the pause flag, and only during a round. *)
Theorem paused_or_idle_frame_is_frozen (f : frame_input) (s : GameState)
    (r : Random.state) :
  (paused s = true \/ game_active s = false ->
   (fr_events f = [] ->
    exists frame r', run_iteration f s r = Some (s, frame, r'))
   /\ (forall k t1 t2,
         k = K_SPACE \/ k = K_e \/ k = K_q ->
         handle_event (mkTimed (KEYDOWN k) t1 t2) s r = Some (s, r)))
  /\ (forall t1 t2,
        handle_event (mkTimed (KEYDOWN K_p) t1 t2) s r
        = Some (if game_active s then set_paused (negb (paused s)) s else s,
                r)).
Proof.
  split.
  - intros Hidle.
    assert (Hoff : game_active s && negb (paused s) = false).
    { destruct Hidle as [H | H]; rewrite H;
        [apply andb_false_r | reflexivity]. }
    split.
    + intros Hev; unfold run_iteration; rewrite Hev.
      cbn [handle_events]; unfold bind at 1; unfold ret at 1.
      rewrite Hoff; unfold bind at 1; unfold ret at 1.
      destruct (draw_total s r) as (frame & r' & H).
      rewrite (bind_Some _ _ _ _ _ H); exists frame, r'; reflexivity.
    + intros k t1 t2 [-> | [-> | ->]]; unfold handle_event;
        cbn [ev_event]; rewrite Hoff; reflexivity.
  - intros t1 t2; unfold handle_event; cbn [ev_event ev_time].
    destruct (game_active s) eqn:Hact.
    + cbn [game_active paused set_paused]; rewrite Hact.
      destruct (paused s); reflexivity.
    + rewrite Hact; reflexivity.
Qed.

Lemma paused_or_idle_frame_is_frozen_witness :
  exists frame r',
    run_iteration (mkFrame [] (pressed [K_LEFT]) 9000 9000 9000 9000)
      (init 0) (constant_tape 0 0)
    = Some (init 0, frame, r').
Proof.
  apply (proj1 (paused_or_idle_frame_is_frozen
                  (mkFrame [] (pressed [K_LEFT]) 9000 9000 9000 9000)
                  (init 0) (constant_tape 0 0)));
    [right; reflexivity | reflexivity].
Defined.

(** X26: after [handle_input] the trail holds the earlier points younger
    than 200 ms, in order, followed by the player's new position stamped
    with the current clock value; so every trail point is younger than
    200 ms and the trail is never empty. *)
Theorem trail_keeps_recent_points (keys : key -> bool) (now : Z)
    (s : GameState) :
  let s' := handle_input keys now s in
  trail_points s'
  = filter (fun p => (now - snd p <? 200)%Z) (trail_points s)
    ++ [(player_x s', player_y s', now)]
  /\ Forall (fun p => (now - snd p < 200)%Z) (trail_points s').
Proof.
  cbv zeta.
  assert (Heq : trail_points (handle_input keys now s)
                = filter (fun p => (now - snd p <? 200)%Z) (trail_points s)
                  ++ [(player_x (handle_input keys now s),
                       player_y (handle_input keys now s), now)]).
  { unfold handle_input.
    destruct ((keys K_LSHIFT || keys K_RSHIFT) && _);
      destruct (keys K_LEFT || keys K_a); destruct (keys K_RIGHT || keys K_d);
      destruct (keys K_UP || keys K_w); destruct (keys K_DOWN || keys K_s);
      cbn [trail_points player_x player_y set_trail_points set_player_x
           set_player_y set_screen_shake set_last_dash];
      rewrite filter_app; cbn [filter snd]; rewrite Z.sub_diag;
      reflexivity. }
  split; [exact Heq |].
  rewrite Heq; apply Forall_app; split.
  - apply Forall_forall; intros p Hin.
    apply filter_In in Hin; destruct Hin as [_ Hin].
    apply Z.ltb_lt; exact Hin.
  - constructor; [cbn; lia | constructor].
Qed.
